(** * A shallow embedding of the trading bot's decision loop

    The development follows the JavaScript sources:
    - class [RSIStrategy] of [bot/strategies/RSIStrategy.js] (module [Strategy]),
    - class [RiskManager] of the services file             (module [Risk]),
    - class [Scanner] of [bot/Scanner.js]                   (module [Scan]),
    - class [TradingBot] of [bot/TradingBot.js]             (module [Bot]).

    Numbers.  A JavaScript number is modelled as an exact rational extended
    with the three IEEE special values.  Rounding error and the sign of zero
    are outside the model; division by zero, the absorbing [NaN] and the
    comparisons that are false on [NaN] are inside it.  Position sizing, where
    a floor makes the rounding error visible, is also given in IEEE 754
    double precision (module [Double]).

    Effects.  The venue adapters are an interface ([Venues]) over an abstract
    world: queries read the world and may throw, orders change it and are
    recorded in a trace.  Bot methods are computations in a state-and-exception
    monad over the bot object, the world, the trace and the interval timers. *)

From Stdlib Require Import ZArith QArith Qabs Qround Qminmax Bool List String Lia Lqa.
From Stdlib Require Qcanon.
From Stdlib Require Import Ascii Permutation Sorted.
From Stdlib Require Import SpecFloat.
Import ListNotations.

(* ================================================================== *)
(** ** JavaScript numbers *)
(* ================================================================== *)

Inductive num : Type :=
| Fin (q : Q)
| PInf
| NInf
| NaN.

(** Finite results are kept in lowest terms, so that equal numbers are
    equal terms. *)
Definition of_Q (q : Q) : num := Fin (Qred q).
Definition of_Z (z : Z) : num := Fin (inject_Z z).

Definition sign (x : num) : comparison :=
  match x with
  | Fin q => q ?= 0
  | PInf => Gt
  | NInf => Lt
  | NaN => Eq
  end.

Definition inf_of (c : comparison) : num :=
  match c with
  | Gt => PInf
  | Lt => NInf
  | Eq => NaN
  end.

Definition sign_mul (c1 c2 : comparison) : comparison :=
  match c1, c2 with
  | Eq, _ | _, Eq => Eq
  | Gt, Gt | Lt, Lt => Gt
  | _, _ => Lt
  end.

Definition nneg (x : num) : num :=
  match x with
  | Fin q => of_Q (- q)
  | PInf => NInf
  | NInf => PInf
  | NaN => NaN
  end.

Definition nadd (x y : num) : num :=
  match x, y with
  | NaN, _ | _, NaN => NaN
  | Fin a, Fin b => of_Q (a + b)
  | PInf, NInf | NInf, PInf => NaN
  | PInf, _ | _, PInf => PInf
  | NInf, _ | _, NInf => NInf
  end.

Definition nsub (x y : num) : num :=
  match x, y with
  | Fin a, Fin b => of_Q (a - b)
  | _, _ => nadd x (nneg y)
  end.

Definition nmul (x y : num) : num :=
  match x, y with
  | NaN, _ | _, NaN => NaN
  | Fin a, Fin b => of_Q (a * b)
  | _, _ => inf_of (sign_mul (sign x) (sign y))
  end.

(** [x / 0] is an infinity of the sign of [x], and [0 / 0] is [NaN]. *)
Definition ndiv (x y : num) : num :=
  match x, y with
  | NaN, _ | _, NaN => NaN
  | Fin a, Fin b => if Qeq_bool b 0 then inf_of (a ?= 0) else of_Q (a / b)
  | Fin _, _ => Fin 0
  | _, Fin b => inf_of (sign_mul (sign x) (if Qeq_bool b 0 then Gt else b ?= 0))
  | _, _ => NaN
  end.

(** Ordering; [None] when an operand is [NaN]. *)
Definition ncmp (x y : num) : option comparison :=
  match x, y with
  | NaN, _ | _, NaN => None
  | Fin a, Fin b => Some (a ?= b)
  | PInf, PInf | NInf, NInf => Some Eq
  | PInf, _ | _, NInf => Some Gt
  | NInf, _ | _, PInf => Some Lt
  end.

Definition nlt (x y : num) : bool :=
  match ncmp x y with Some Lt => true | _ => false end.
Definition ngt (x y : num) : bool :=
  match ncmp x y with Some Gt => true | _ => false end.
Definition nle (x y : num) : bool :=
  match ncmp x y with Some Lt | Some Eq => true | _ => false end.
Definition nge (x y : num) : bool :=
  match ncmp x y with Some Gt | Some Eq => true | _ => false end.
(** [x === y] on numbers. *)
Definition neqb (x y : num) : bool :=
  match ncmp x y with Some Eq => true | _ => false end.

(** [Math.min], [Math.max]: [NaN] when an operand is [NaN]. *)
Definition Math_min (x y : num) : num :=
  match ncmp x y with
  | None => NaN
  | Some Gt => y
  | Some _ => x
  end.
Definition Math_max (x y : num) : num :=
  match ncmp x y with
  | None => NaN
  | Some Lt => y
  | Some _ => x
  end.

(** [Math.floor]. *)
Definition Math_floor (x : num) : num :=
  match x with
  | Fin q => of_Z (Qfloor q)
  | _ => x
  end.

(** Truthiness of a number: [0] and [NaN] are falsy. *)
Definition truthy (x : num) : bool :=
  match x with
  | Fin q => negb (Qeq_bool q 0)
  | NaN => false
  | _ => true
  end.

(** [x || d]. *)
Definition or_default (x d : num) : num := if truthy x then x else d.

Definition isFinite (x : num) : bool :=
  match x with Fin _ => true | _ => false end.

(** The number denoted by the string [x.toFixed(2)]: the magnitude is rounded
    to the nearest hundredth, the larger one on a tie. *)
Definition toFixed2 (x : num) : num :=
  match x with
  | Fin q =>
      let m := Qfloor (Qabs q * 100 + (1 # 2)) in
      let r := inject_Z m / 100 in
      of_Q (if Qle_bool 0 q then r else - r)
  | _ => x
  end.

Fixpoint nsum (l : list num) : num :=
  match l with
  | [] => of_Z 0
  | x :: t => nadd x (nsum t)
  end.

Declare Scope num_scope.
Delimit Scope num_scope with num.
Bind Scope num_scope with num.
Infix "+" := nadd : num_scope.
Infix "-" := nsub : num_scope.
Infix "*" := nmul : num_scope.
Infix "/" := ndiv : num_scope.
Infix "<?" := nlt : num_scope.
Infix "<=?" := nle : num_scope.
Infix ">?" := ngt : num_scope.
Infix ">=?" := nge : num_scope.
Notation "- x" := (nneg x) : num_scope.

(** Integer literals of the sources. *)
Definition int (z : Z) : num := of_Z z.

Local Open Scope string_scope.
Local Open Scope list_scope.

(* ================================================================== *)
(** ** Data shared by the components *)
(* ================================================================== *)

(** [opp.exchange], [position.exchange]: the string ['Alpaca'] or ['Kraken']. *)
Inductive Exchange : Type := Alpaca | Kraken.

Definition Exchange_eqb (a b : Exchange) : bool :=
  match a, b with
  | Alpaca, Alpaca | Kraken, Kraken => true
  | _, _ => false
  end.

(** A position object.  The adapters fill the numeric fields; the entry that
    [executeTrades] pushes for a fresh trade is [{symbol, exchange}] only, and
    a field that is absent is [None]. *)
Module Position.

Record t : Type := {
  symbol : string;
  exchange : Exchange;
  quantity : option num;
  entryPrice : option num;
  currentPrice : option num;
  marketValue : option num;
  profitLoss : option num;
  profitLossPercent : option num
}.

(** [{ symbol: opp.symbol, exchange: opp.exchange }] *)
Definition tracking (s : string) (e : Exchange) : t :=
  {| symbol := s; exchange := e; quantity := None; entryPrice := None;
     currentPrice := None; marketValue := None; profitLoss := None;
     profitLossPercent := None |}.

End Position.

(** A bar of price history, [{time, close}]. *)
Record Bar : Type := { time : Z; close : num }.

(* ================================================================== *)
(** ** class RSIStrategy *)
(* ================================================================== *)

Module Strategy.

Inductive SignalType : Type := BUY | SELL | HOLD.

Definition SignalType_eqb (a b : SignalType) : bool :=
  match a, b with
  | BUY, BUY | SELL, SELL | HOLD, HOLD => true
  | _, _ => false
  end.

(** The constructor's [config] argument; [None] is a missing key. *)
Record Options : Type := {
  rsiPeriod : option num;
  rsiOversold : option num;
  rsiOverbought : option num
}.

Record RSIStrategy : Type := {
  period : num;
  oversold : num;
  overbought : num
}.

(** [config.key || d] *)
Definition key_or (x : option num) (d : num) : num :=
  match x with
  | Some v => or_default v d
  | None => d
  end.

Definition constructor (config : Options) : RSIStrategy :=
  {| period := key_or (rsiPeriod config) (int 14);
     oversold := key_or (rsiOversold config) (int 30);
     overbought := key_or (rsiOverbought config) (int 70) |}.

(** The object [generateSignal] returns.  [rsi] is [None] for [null] and
    [Some r] for the string [rsi.toFixed(2)], which denotes the number [r]. *)
Record Signal : Type := {
  type : SignalType;
  strength : num;
  rsi : option num
}.

Section Indicator.

(** [RSI.calculate({values, period})] of the [technicalindicators] package. *)
Variable RSI_calculate : list num -> num -> list num.

Definition calculateRSI (this : RSIStrategy) (historicalData : list Bar)
  : option num :=
  if (int (Z.of_nat (List.length historicalData)) <? period this + int 1)%num
  then None
  else
    let closePrices := map close historicalData in
    let rsiValues := RSI_calculate closePrices (period this) in
    match rsiValues with
    | [] => None
    | v :: _ => Some (last rsiValues v)
    end.

Definition generateSignal (this : RSIStrategy) (rsi : option num) : Signal :=
  match rsi with
  | None => {| type := HOLD; strength := int 0; rsi := None |}
  | Some rsi =>
      if (rsi <? oversold this)%num then
        let strength := ((oversold this - rsi) / oversold this * int 100)%num in
        {| type := BUY;
           strength := Math_min strength (int 100);
           rsi := Some (toFixed2 rsi) |}
      else if (rsi >? overbought this)%num then
        let strength :=
          ((rsi - overbought this) / (int 100 - overbought this) * int 100)%num in
        {| type := SELL;
           strength := Math_min strength (int 100);
           rsi := Some (toFixed2 rsi) |}
      else
        {| type := HOLD; strength := int 0; rsi := Some (toFixed2 rsi) |}
  end.

(** The object [analyze] returns: [{rsi, signal, strength}]. *)
Record Analysis : Type := {
  a_rsi : option num;
  a_signal : SignalType;
  a_strength : num
}.

Definition analyze (this : RSIStrategy) (historicalData : list Bar) : Analysis :=
  let value := calculateRSI this historicalData in
  let signal := generateSignal this value in
  {| a_rsi := signal.(rsi); a_signal := signal.(type);
     a_strength := signal.(strength) |}.

End Indicator.

Definition isSignalStrong (signal : Signal) (minStrength : num) : bool :=
  negb (SignalType_eqb signal.(type) HOLD) && (signal.(strength) >=? minStrength)%num.

End Strategy.

(* ================================================================== *)
(** ** The indicator, from its description *)
(* ================================================================== *)

Module Indicator.

(** Modelled from the spec: [RSI.calculate] belongs to the
    [technicalindicators] package, which is not among the sources.  The spec
    describes it: Wilder smoothing seeded by the simple mean of the first
    [period] gains and losses, then [avg = (avg*(period-1) + new)/period],
    [RS = avgGain/avgLoss], [indicator = 100 - 100/(1+RS)], and
    [indicator = 100] when [avgLoss = 0]. *)

Fixpoint deltas (values : list num) : list num :=
  match values with
  | a :: (b :: _) as rest => (b - a)%num :: deltas rest
  | _ => []
  end.

Definition gain (d : num) : num := if (d >? int 0)%num then d else int 0.
Definition loss (d : num) : num := if (d <? int 0)%num then (- d)%num else int 0.

Definition indicator (avgGain avgLoss : num) : num :=
  if neqb avgLoss (int 0) then int 100
  else (int 100 - int 100 / (int 1 + avgGain / avgLoss))%num.

Definition smooth (period avg new : num) : num :=
  ((avg * (period - int 1) + new) / period)%num.

Fixpoint wilder (period avgGain avgLoss : num) (ds : list num) : list num :=
  match ds with
  | [] => []
  | d :: rest =>
      let g := smooth period avgGain (gain d) in
      let l := smooth period avgLoss (loss d) in
      indicator g l :: wilder period g l rest
  end.

Definition period_length (period : num) : nat :=
  match period with
  | Fin q => Z.to_nat (Qfloor q)
  | _ => 0
  end.

Definition RSI_calculate (values : list num) (period : num) : list num :=
  let n := period_length period in
  let ds := deltas values in
  if (List.length ds <? n)%nat then []
  else
    let seed := firstn n ds in
    let avgGain := (nsum (map gain seed) / period)%num in
    let avgLoss := (nsum (map loss seed) / period)%num in
    indicator avgGain avgLoss :: wilder period avgGain avgLoss (skipn n ds).

End Indicator.

(* ================================================================== *)
(** ** class RiskManager *)
(* ================================================================== *)

Module Risk.

Record Config : Type := {
  capitalInicial : num;
  lucroMaximoDiario : num;
  perdaMaximaDiaria : num;
  agressividade : num;
  maxPosicoes : num;
  maxPosicoesStocks : num;
  maxPosicoesCrypto : num;
  stopLossPercent : num;
  takeProfitPercent : num
}.

Record DailyStats : Type := {
  startBalance : num;
  currentPnL : num;
  tradesCount : num;
  startDate : string
}.

Record RiskManager : Type := {
  config : Config;
  dailyStats : DailyStats
}.

(** [constructor(config)].  The fields of the argument are the values of
    [parseFloat(config.key)] and [parseInt(config.key)]; [today] is
    [new Date().toDateString()]. *)
Definition constructor (parsed : Config) (today : string) : RiskManager :=
  {| config :=
       {| capitalInicial := or_default (capitalInicial parsed) (int 5000);
          lucroMaximoDiario := or_default (lucroMaximoDiario parsed) (int 500);
          perdaMaximaDiaria := or_default (perdaMaximaDiaria parsed) (int 200);
          agressividade := or_default (agressividade parsed) (int 70);
          maxPosicoes := or_default (maxPosicoes parsed) (int 5);
          maxPosicoesStocks := or_default (maxPosicoesStocks parsed) (int 3);
          maxPosicoesCrypto := or_default (maxPosicoesCrypto parsed) (int 3);
          stopLossPercent := or_default (stopLossPercent parsed) (int 2);
          takeProfitPercent := or_default (takeProfitPercent parsed) (int 4) |};
     dailyStats :=
       {| startBalance := int 0; currentPnL := int 0; tradesCount := int 0;
          startDate := today |} |}.

(** [today] is [new Date().toDateString()] at the time of the call. *)
Definition resetDailyStats (this : RiskManager) (today : string)
  (startBalance : num) : RiskManager :=
  if negb (String.eqb this.(dailyStats).(startDate) today) then
    {| config := this.(config);
       dailyStats :=
         {| startBalance := startBalance; currentPnL := int 0;
            tradesCount := int 0; startDate := today |} |}
  else this.

Definition updateDailyPnL (this : RiskManager) (currentBalance : num)
  : RiskManager :=
  {| config := this.(config);
     dailyStats :=
       {| startBalance := this.(dailyStats).(startBalance);
          currentPnL := (currentBalance - this.(dailyStats).(startBalance))%num;
          tradesCount := this.(dailyStats).(tradesCount);
          startDate := this.(dailyStats).(startDate) |} |}.

Definition hasHitDailyProfitLimit (this : RiskManager) : bool :=
  (this.(dailyStats).(currentPnL) >=? this.(config).(lucroMaximoDiario))%num.

Definition hasHitDailyLossLimit (this : RiskManager) : bool :=
  (this.(dailyStats).(currentPnL) <=? - this.(config).(perdaMaximaDiaria))%num.

Definition shouldStopTrading (this : RiskManager) : bool :=
  if hasHitDailyProfitLimit this then true
  else if hasHitDailyLossLimit this then true
  else false.

Definition lossPercent (this : RiskManager) (currentBalance : num) : num :=
  ((currentBalance - this.(dailyStats).(startBalance))
     / this.(dailyStats).(startBalance) * int 100)%num.

Definition checkCircuitBreaker (this : RiskManager) (currentBalance : num)
  : bool :=
  if (lossPercent this currentBalance <=? int (-5))%num then true else false.

Definition count_exchange (e : Exchange) (ps : list Position.t) : num :=
  int (Z.of_nat (List.length (filter (fun p => Exchange_eqb p.(Position.exchange) e) ps))).

Definition canOpenPosition (this : RiskManager) (currentPositions : list Position.t)
  (exchange : Exchange) : bool :=
  let totalPositions := int (Z.of_nat (List.length currentPositions)) in
  let stockPositions := count_exchange Alpaca currentPositions in
  let cryptoPositions := count_exchange Kraken currentPositions in
  if (totalPositions >=? this.(config).(maxPosicoes))%num then false
  else if Exchange_eqb exchange Alpaca
          && (stockPositions >=? this.(config).(maxPosicoesStocks))%num then false
  else if Exchange_eqb exchange Kraken
          && (cryptoPositions >=? this.(config).(maxPosicoesCrypto))%num then false
  else true.

(** Position sizing in exact arithmetic.  The same expressions as the code
    rounds them, in double precision, are [Double.positionValue],
    [Double.calculatePositionSize] and [Double.calculateCryptoPositionSize]
    below. *)
Definition positionValue (this : RiskManager) (accountBalance : num) : num :=
  let baseRiskPercent := int 2 in
  let adjustedRiskPercent :=
    (baseRiskPercent * (this.(config).(agressividade) / int 100))%num in
  (accountBalance * (adjustedRiskPercent / int 100))%num.

Definition calculatePositionSize (this : RiskManager) (accountBalance price : num)
  : num :=
  let quantity := Math_floor (positionValue this accountBalance / price)%num in
  if (quantity >? int 0)%num then quantity else int 1.

Definition calculateCryptoPositionSize (this : RiskManager)
  (accountBalance price : num) : num :=
  let quantity := (positionValue this accountBalance / price)%num in
  Math_max quantity (of_Q (1 # 1000)).

Definition shouldClosePosition (this : RiskManager) (position : Position.t) : bool :=
  match position.(Position.profitLossPercent) with
  | None => false
  | Some profitPercent =>
      if (profitPercent <=? - this.(config).(stopLossPercent))%num then true
      else if (profitPercent >=? this.(config).(takeProfitPercent))%num then true
      else false
  end.

Record RiskStats : Type := {
  dailyPnL : num;
  dailyPnLPercent : num;
  rs_tradesCount : num;
  profitLimitRemaining : num;
  lossLimitRemaining : num;
  canTrade : bool
}.

Definition getRiskStats (this : RiskManager) : RiskStats :=
  {| dailyPnL := this.(dailyStats).(currentPnL);
     dailyPnLPercent :=
       (this.(dailyStats).(currentPnL) / this.(dailyStats).(startBalance)
        * int 100)%num;
     rs_tradesCount := this.(dailyStats).(tradesCount);
     profitLimitRemaining :=
       (this.(config).(lucroMaximoDiario) - this.(dailyStats).(currentPnL))%num;
     lossLimitRemaining :=
       (this.(config).(perdaMaximaDiaria) + this.(dailyStats).(currentPnL))%num;
     canTrade := negb (shouldStopTrading this) |}.

End Risk.

(* ================================================================== *)
(** ** Position sizing in double precision *)
(* ================================================================== *)

Module Double.

(** A JavaScript number as it is: an IEEE 754 binary64 value.  The operations
    are those of the standard library's specification of the format (precision
    53, round to nearest, ties to even). *)
Definition double : Set := spec_float.

Definition prec : Z := 53.
Definition emax : Z := 1024.

(** An integer literal of the sources. *)
Definition of_Z (z : Z) : double := binary_normalize prec emax z 0 false.

Definition mul (x y : double) : double := SFmul prec emax x y.
Definition div (x y : double) : double := SFdiv prec emax x y.

Definition gt (x y : double) : bool := SFltb y x.

(** [Math.floor(x)] *)
Definition Math_floor (x : double) : double :=
  match x with
  | S754_finite s m e =>
      if (e <? 0)%Z
      then of_Z ((if s then Z.neg m else Z.pos m) / 2 ^ (- e))
      else x
  | _ => x
  end.

(** [Math.max(x, y)] *)
Definition Math_max (x y : double) : double :=
  match SFcompare x y with
  | None => S754_nan
  | Some Lt => y
  | Some Gt => x
  | Some Eq => match x with S754_zero true => y | _ => x end
  end.

(** The literal [0.001]: the double nearest to one thousandth. *)
Definition thousandth : double := div (of_Z 1) (of_Z 1000).

(** The three constants of [calculatePositionSize], with
    [this.config.agressividade] as an argument. *)
Definition positionValue (agressividade accountBalance : double) : double :=
  let baseRiskPercent := of_Z 2 in
  let adjustedRiskPercent :=
    mul baseRiskPercent (div agressividade (of_Z 100)) in
  mul accountBalance (div adjustedRiskPercent (of_Z 100)).

Definition calculatePositionSize (agressividade accountBalance price : double)
  : double :=
  let quantity :=
    Math_floor (div (positionValue agressividade accountBalance) price) in
  if gt quantity (of_Z 0) then quantity else of_Z 1.

Definition calculateCryptoPositionSize
  (agressividade accountBalance price : double) : double :=
  let quantity := div (positionValue agressividade accountBalance) price in
  Math_max quantity thousandth.

End Double.

(* ================================================================== *)
(** ** The venue adapters and the technical-indicator package *)
(* ================================================================== *)

(** The outcome of a call that may throw: a value, or an [Error] with its
    message. *)
Inductive Res (A : Type) : Type :=
| Ret (a : A)
| Throw (message : string).
Arguments Ret {A} a.
Arguments Throw {A} message.

Definition res_bind {A B : Type} (r : Res A) (k : A -> Res B) : Res B :=
  match r with
  | Ret a => k a
  | Throw e => Throw e
  end.

Definition returns {A : Type} (r : Res A) : bool :=
  match r with Ret _ => true | Throw _ => false end.

(** The fields of [alpacaService.getBalance()] and, of
    [krakenService.getBalance()], the one field the bot reads. *)
Record AlpacaBalance : Type := {
  cash : num;
  equity : num;
  buyingPower : num;
  portfolioValue : num
}.

Record KrakenBalance : Type := { total : num }.

(** An entry of [config/crypto.js]. *)
Record CryptoConfig : Type := {
  pair : string;
  fallback : option string
}.

(** The orders the bot can send to a venue. *)
Inductive Call : Type :=
| AlpacaBuy (symbol : string) (quantity : num)
| KrakenBuy (symbol : string) (amount : num)
| AlpacaClosePosition (symbol : string)
| KrakenClosePosition (symbol : string)
| AlpacaCloseAllPositions.

Definition is_buy (c : Call) : bool :=
  match c with
  | AlpacaBuy _ _ | KrakenBuy _ _ => true
  | _ => false
  end.

(** The two services the bot is constructed with, and the clock.  A query
    reads the world; an order also changes it.  Any of them may throw. *)
Class Venues (W : Type) : Type := {
  toDateString : W -> string;
  now : W -> Z;
  alpaca_testConnection : W -> Res bool;
  alpaca_getBalance : W -> Res AlpacaBalance;
  alpaca_isMarketOpen : W -> Res bool;
  alpaca_getCurrentPrice : W -> string -> Res (option num);
  alpaca_getHistoricalData : W -> string -> Z -> Res (list Bar);
  alpaca_getPositions : W -> Res (list Position.t);
  alpaca_buy : string -> num -> W -> Res unit * W;
  alpaca_closePosition : string -> W -> Res unit * W;
  alpaca_closeAllPositions : W -> Res unit * W;
  kraken_testConnection : W -> Res bool;
  kraken_getBalance : W -> Res KrakenBalance;
  kraken_getAvailableSymbol : W -> string -> option string -> Res (option string);
  kraken_getCurrentPrice : W -> string -> Res (option num);
  kraken_getHistoricalData : W -> string -> Z -> Res (list Bar);
  kraken_getPositions : W -> Res (list Position.t);
  kraken_getMinOrderSize : W -> string -> Res num;
  kraken_buy : string -> num -> W -> Res unit * W;
  kraken_closePosition : string -> W -> Res unit * W
}.

(** [require('technicalindicators')]. *)
Class TechnicalIndicators : Type := {
  RSI_calculate : list num -> num -> list num
}.

(* ================================================================== *)
(** ** class Scanner *)
(* ================================================================== *)

Module Scan.

Inductive AssetType : Type := stock | crypto.

(** The signal object a scan yields. *)
Record Signal : Type := {
  symbol : string;
  exchange : Exchange;
  type : AssetType;
  currentPrice : num;
  rsi : num;
  signal : Strategy.SignalType;
  strength : num;
  timestamp : Z
}.

(** [parseFloat(analysis.rsi)]: [analysis.rsi] is [null] or a decimal string. *)
Definition parseFloat (text : option num) : num :=
  match text with
  | Some r => r
  | None => NaN
  end.

(** [currentPrice] when it is truthy; [null], [0] and [NaN] are not. *)
Definition truthy_price (p : option num) : option num :=
  match p with
  | Some v => if truthy v then Some v else None
  | None => None
  end.

(** An entry of the array [Promise.allSettled] resolves to. *)
Inductive Settled (A : Type) : Type :=
| fulfilled (value : A)
| rejected (reason : string).
Arguments fulfilled {A} value.
Arguments rejected {A} reason.

Definition allSettled {A : Type} (promises : list (Res A)) : list (Settled A) :=
  map (fun p => match p with Ret v => fulfilled v | Throw e => rejected e end)
      promises.

(** [results.filter(r => r.status === 'fulfilled' && r.value !== null)
            .map(r => r.value)] *)
Fixpoint fulfilled_values {A : Type} (results : list (Settled (option A)))
  : list A :=
  match results with
  | [] => []
  | fulfilled (Some v) :: rest => v :: fulfilled_values rest
  | _ :: rest => fulfilled_values rest
  end.

(** [Array.prototype.sort] with a comparator: a stable insertion sort in which
    [a] goes after [b] exactly when [compare a b > 0]. *)
Fixpoint insert_sorted {A : Type} (compare : A -> A -> num) (a : A) (l : list A)
  : list A :=
  match l with
  | [] => [a]
  | b :: rest =>
      if (compare a b >? int 0)%num then b :: insert_sorted compare a rest
      else a :: l
  end.

Definition sort {A : Type} (compare : A -> A -> num) (l : list A) : list A :=
  fold_right (insert_sorted compare) [] l.

(** [(a, b) => b.strength - a.strength] *)
Definition by_strength (a b : Signal) : num := (b.(strength) - a.(strength))%num.

Record ScanStats : Type := {
  stats_total : nat;
  buyCount : nat;
  sellCount : nat
}.

(** What [scanAll] returns; the elapsed time [stats.duration] is left out. *)
Record ScanResults : Type := {
  all : list Signal;
  buy : list Signal;
  sell : list Signal;
  stats : ScanStats
}.

(** A scanner holds its strategy; the services are those of the world. *)
Record Scanner : Type := { strategy : Strategy.RSIStrategy }.

Section WithServices.

Context {W : Type} `{Venues W} `{TechnicalIndicators}.

(** The scans of a batch only read the world, so each is a function of the
    world the batch starts in, whatever the order in which the concurrent
    fetches complete. *)

(** The [try] block of [scanStock]. *)
Definition scanStock_try (this : Scanner) (w : W) (symbol : string)
  : Res (option Signal) :=
  res_bind (alpaca_getHistoricalData w symbol 100) (fun historicalData =>
  if (List.length historicalData <? 20)%nat then Ret None
  else
    res_bind (alpaca_getCurrentPrice w symbol) (fun currentPrice =>
    match truthy_price currentPrice with
    | None => Ret None
    | Some price =>
      let analysis :=
        Strategy.analyze RSI_calculate this.(strategy) historicalData in
      Ret (Some {| symbol := symbol;
                   exchange := Alpaca;
                   type := stock;
                   currentPrice := price;
                   rsi := parseFloat analysis.(Strategy.a_rsi);
                   signal := analysis.(Strategy.a_signal);
                   strength := analysis.(Strategy.a_strength);
                   timestamp := now w |})
    end)).

(** [scanStock]: whatever the [try] block throws is caught and gives [null]. *)
Definition scanStock (this : Scanner) (w : W) (symbol : string)
  : Res (option Signal) :=
  match scanStock_try this w symbol with
  | Ret v => Ret v
  | Throw _ => Ret None
  end.

Definition scanCrypto_try (this : Scanner) (w : W) (cryptoConfig : CryptoConfig)
  : Res (option Signal) :=
  res_bind (kraken_getAvailableSymbol w cryptoConfig.(pair) cryptoConfig.(fallback))
    (fun available =>
  match available with
  | None => Ret None
  | Some symbol =>
      res_bind (kraken_getHistoricalData w symbol 100) (fun historicalData =>
      if (List.length historicalData <? 20)%nat then Ret None
      else
        res_bind (kraken_getCurrentPrice w symbol) (fun currentPrice =>
        match truthy_price currentPrice with
        | None => Ret None
        | Some price =>
          let analysis :=
            Strategy.analyze RSI_calculate this.(strategy) historicalData in
          Ret (Some {| symbol := symbol;
                       exchange := Kraken;
                       type := crypto;
                       currentPrice := price;
                       rsi := parseFloat analysis.(Strategy.a_rsi);
                       signal := analysis.(Strategy.a_signal);
                       strength := analysis.(Strategy.a_strength);
                       timestamp := now w |})
        end))
  end).

Definition scanCrypto (this : Scanner) (w : W) (cryptoConfig : CryptoConfig)
  : Res (option Signal) :=
  match scanCrypto_try this w cryptoConfig with
  | Ret v => Ret v
  | Throw _ => Ret None
  end.

Definition scanStocks (this : Scanner) (w : W) (stockSymbols : list string)
  : Res (list Signal) :=
  let promises := map (scanStock this w) stockSymbols in
  let results := allSettled promises in
  Ret (fulfilled_values results).

Definition scanCryptos (this : Scanner) (w : W) (cryptoConfigs : list CryptoConfig)
  : Res (list Signal) :=
  let promises := map (scanCrypto this w) cryptoConfigs in
  let results := allSettled promises in
  Ret (fulfilled_values results).

Definition is_signal (t : Strategy.SignalType) (s : Signal) : bool :=
  Strategy.SignalType_eqb s.(signal) t.

Definition scanAll (this : Scanner) (w : W) (stockSymbols : list string)
  (cryptoConfigs : list CryptoConfig) : Res ScanResults :=
  res_bind (scanStocks this w stockSymbols) (fun stockSignals =>
  res_bind (scanCryptos this w cryptoConfigs) (fun cryptoSignals =>
  let allSignals := stockSignals ++ cryptoSignals in
  let buySignals := filter (is_signal Strategy.BUY) allSignals in
  let sellSignals := filter (is_signal Strategy.SELL) allSignals in
  let topBuySignals := sort by_strength buySignals in
  let topSellSignals := sort by_strength sellSignals in
  Ret {| all := allSignals;
         buy := topBuySignals;
         sell := topSellSignals;
         stats := {| stats_total := List.length allSignals;
                     buyCount := List.length buySignals;
                     sellCount := List.length sellSignals |} |})).

End WithServices.

Definition findBestOpportunities (signals : list Signal) (minStrength : num)
  (limit : nat) : list Signal :=
  firstn limit
    (sort by_strength
       (filter (fun s => (s.(strength) >=? minStrength)%num
                         && negb (is_signal Strategy.HOLD s))
               signals)).

End Scan.

(* ================================================================== *)
(** ** class TradingBot *)
(* ================================================================== *)

Module Bot.

(** [this.status]: ['stopped'], ['running'] or ['paused']. *)
Inductive Status : Type := stopped | running | paused.

Definition Status_eqb (a b : Status) : bool :=
  match a, b with
  | stopped, stopped | running, running | paused, paused => true
  | _, _ => false
  end.

Record Stats : Type := {
  tradesExecuted : nat;
  lastScanTime : option Z;
  lastSignals : list Scan.Signal;
  errors : nat
}.

(** The constructor's [config]; the [rsi] fields are the values of
    [parseInt(config.key)]. *)
Record Config : Type := {
  rsiPeriod : num;
  rsiOversold : num;
  rsiOverbought : num;
  scanIntervalMs : num
}.

Record TradingBot : Type := {
  riskManager : Risk.RiskManager;
  config : Config;
  scanner : Scan.Scanner;
  status : Status;
  scanInterval : option nat;
  stats : Stats;
  stockSymbols : list string;
  cryptoConfigs : list CryptoConfig
}.

Definition constructor (riskManager : Risk.RiskManager) (config : Config)
  : TradingBot :=
  let strategy :=
    Strategy.constructor
      {| Strategy.rsiPeriod := Some (or_default config.(rsiPeriod) (int 14));
         Strategy.rsiOversold := Some (or_default config.(rsiOversold) (int 30));
         Strategy.rsiOverbought :=
           Some (or_default config.(rsiOverbought) (int 70)) |} in
  {| riskManager := riskManager;
     config := config;
     scanner := {| Scan.strategy := strategy |};
     status := stopped;
     scanInterval := None;
     stats := {| tradesExecuted := 0; lastScanTime := None; lastSignals := [];
                 errors := 0 |};
     stockSymbols := [];
     cryptoConfigs := [] |}.

Section WithServices.

Context {W : Type} `{Venues W} `{TechnicalIndicators}.

(** The bot object, the world behind the two services, the orders sent so
    far, and the interval timers that are set. *)
Record Machine : Type := {
  bot : TradingBot;
  world : W;
  trace : list Call;
  timers : list nat;
  next_timer : nat
}.

Definition M (A : Type) : Type := Machine -> Res A * Machine.

Definition ret {A : Type} (a : A) : M A := fun m => (Ret a, m).

Definition throw {A : Type} (e : string) : M A := fun m => (Throw e, m).

Definition bind {A B : Type} (c : M A) (k : A -> M B) : M B :=
  fun m =>
    match c m with
    | (Ret a, m') => k a m'
    | (Throw e, m') => (Throw e, m')
    end.

Definition try_catch {A : Type} (body : M A) (handler : string -> M A) : M A :=
  fun m =>
    match body m with
    | (Ret a, m') => (Ret a, m')
    | (Throw e, m') => handler e m'
    end.

Notation "x <- c ;; k" := (bind c (fun x => k))
  (at level 61, c at next level, right associativity).
Notation "c ;;; k" := (bind c (fun _ => k))
  (at level 61, right associativity).

(** A call of a service method that only reads. *)
Definition query {A : Type} (f : W -> Res A) : M A :=
  fun m => (f m.(world), m).

(** A call of a service method that sends an order. *)
Definition order (c : Call) (f : W -> Res unit * W) : M unit :=
  fun m =>
    let (r, w') := f m.(world) in
    (r, {| bot := m.(bot); world := w'; trace := m.(trace) ++ [c];
           timers := m.(timers); next_timer := m.(next_timer) |}).

Definition this : M TradingBot := fun m => (Ret m.(bot), m).

Definition update (f : TradingBot -> TradingBot) : M unit :=
  fun m =>
    (Ret tt, {| bot := f m.(bot); world := m.(world); trace := m.(trace);
                timers := m.(timers); next_timer := m.(next_timer) |}).

Definition set_status (s : Status) (b : TradingBot) : TradingBot :=
  {| riskManager := b.(riskManager); config := b.(config);
     scanner := b.(scanner); status := s; scanInterval := b.(scanInterval);
     stats := b.(stats); stockSymbols := b.(stockSymbols);
     cryptoConfigs := b.(cryptoConfigs) |}.

Definition set_scanInterval (t : option nat) (b : TradingBot) : TradingBot :=
  {| riskManager := b.(riskManager); config := b.(config);
     scanner := b.(scanner); status := b.(status); scanInterval := t;
     stats := b.(stats); stockSymbols := b.(stockSymbols);
     cryptoConfigs := b.(cryptoConfigs) |}.

Definition set_riskManager (r : Risk.RiskManager) (b : TradingBot) : TradingBot :=
  {| riskManager := r; config := b.(config);
     scanner := b.(scanner); status := b.(status);
     scanInterval := b.(scanInterval);
     stats := b.(stats); stockSymbols := b.(stockSymbols);
     cryptoConfigs := b.(cryptoConfigs) |}.

Definition set_stats (s : Stats) (b : TradingBot) : TradingBot :=
  {| riskManager := b.(riskManager); config := b.(config);
     scanner := b.(scanner); status := b.(status);
     scanInterval := b.(scanInterval);
     stats := s; stockSymbols := b.(stockSymbols);
     cryptoConfigs := b.(cryptoConfigs) |}.

Definition set_universe (stocks : list string) (cryptos : list CryptoConfig)
  (b : TradingBot) : TradingBot :=
  {| riskManager := b.(riskManager); config := b.(config);
     scanner := b.(scanner); status := b.(status);
     scanInterval := b.(scanInterval);
     stats := b.(stats); stockSymbols := stocks; cryptoConfigs := cryptos |}.

(** [this.stats.tradesExecuted++] *)
Definition count_trade (b : TradingBot) : TradingBot :=
  set_stats {| tradesExecuted := S b.(stats).(tradesExecuted);
               lastScanTime := b.(stats).(lastScanTime);
               lastSignals := b.(stats).(lastSignals);
               errors := b.(stats).(errors) |} b.

(** [this.stats.errors++] *)
Definition count_error (b : TradingBot) : TradingBot :=
  set_stats {| tradesExecuted := b.(stats).(tradesExecuted);
               lastScanTime := b.(stats).(lastScanTime);
               lastSignals := b.(stats).(lastSignals);
               errors := S b.(stats).(errors) |} b.

Definition record_scan (at_time : Z) (signals : list Scan.Signal)
  (b : TradingBot) : TradingBot :=
  set_stats {| tradesExecuted := b.(stats).(tradesExecuted);
               lastScanTime := Some at_time;
               lastSignals := signals;
               errors := b.(stats).(errors) |} b.

(** [setInterval(callback, delay)]: a fresh timer is set and returned. *)
Definition setInterval : M nat :=
  fun m =>
    (Ret m.(next_timer),
     {| bot := m.(bot); world := m.(world); trace := m.(trace);
        timers := m.(next_timer) :: m.(timers);
        next_timer := S m.(next_timer) |}).

(** [clearInterval(t)] *)
Definition clearInterval (t : nat) : M unit :=
  fun m =>
    (Ret tt,
     {| bot := m.(bot); world := m.(world); trace := m.(trace);
        timers := filter (fun t' => negb (Nat.eqb t' t)) m.(timers);
        next_timer := m.(next_timer) |}).

Definition getTotalBalance : M num :=
  alpacaBalance <- query alpaca_getBalance ;;
  krakenBalance <- query kraken_getBalance ;;
  ret (alpacaBalance.(portfolioValue) + krakenBalance.(total))%num.

Definition getAllPositions : M (list Position.t) :=
  alpacaPositions <- query alpaca_getPositions ;;
  krakenPositions <- query kraken_getPositions ;;
  ret (alpacaPositions ++ krakenPositions).

Definition pause : M bool :=
  b <- this ;;
  if negb (Status_eqb b.(status) running) then ret false
  else
    update (set_status paused) ;;;
    match b.(scanInterval) with
    | Some t => clearInterval t ;;; update (set_scanInterval None)
    | None => ret tt
    end ;;;
    ret true.

Definition stop : M bool :=
  update (set_status stopped) ;;;
  b <- this ;;
  match b.(scanInterval) with
  | Some t => clearInterval t ;;; update (set_scanInterval None)
  | None => ret tt
  end ;;;
  ret true.

(** [closePosition(position)]; the final log line reads
    [position.profitLoss.toFixed(2)], which throws when the field is absent. *)
Definition closePosition (position : Position.t) : M unit :=
  match position.(Position.exchange) with
  | Alpaca =>
      order (AlpacaClosePosition position.(Position.symbol))
            (alpaca_closePosition position.(Position.symbol))
  | Kraken =>
      order (KrakenClosePosition position.(Position.symbol))
            (kraken_closePosition position.(Position.symbol))
  end ;;;
  match position.(Position.profitLoss) with
  | Some _ => ret tt
  | None => throw "Cannot read properties of undefined (reading 'toFixed')"
  end.

Fixpoint close_each (positions : list Position.t) : M unit :=
  match positions with
  | [] => ret tt
  | pos :: rest =>
      order (KrakenClosePosition pos.(Position.symbol))
            (kraken_closePosition pos.(Position.symbol)) ;;;
      close_each rest
  end.

Definition closeAllPositions : M unit :=
  order AlpacaCloseAllPositions alpaca_closeAllPositions ;;;
  krakenPositions <- query kraken_getPositions ;;
  close_each krakenPositions.

Fixpoint checkPositions (positions : list Position.t) : M unit :=
  match positions with
  | [] => ret tt
  | position :: rest =>
      b <- this ;;
      (if Risk.shouldClosePosition b.(riskManager) position
       then try_catch (closePosition position) (fun _ => ret tt)
       else ret tt) ;;;
      checkPositions rest
  end.

(** [executeBuyStock] returns the order, or [undefined] ([None]) when it
    declines to buy. *)
Definition executeBuyStock (signal : Scan.Signal) (balance : num)
  : M (option unit) :=
  alpacaBalance <- query alpaca_getBalance ;;
  b <- this ;;
  let quantity :=
    Risk.calculatePositionSize b.(riskManager) alpacaBalance.(cash)
      signal.(Scan.currentPrice) in
  if (quantity <? int 1)%num then ret None
  else
    order (AlpacaBuy signal.(Scan.symbol) quantity)
          (alpaca_buy signal.(Scan.symbol) quantity) ;;;
    ret (Some tt).

Definition executeBuyCrypto (signal : Scan.Signal) (balance : num)
  : M (option unit) :=
  krakenBalance <- query kraken_getBalance ;;
  b <- this ;;
  let quantity :=
    Risk.calculateCryptoPositionSize b.(riskManager) krakenBalance.(total)
      signal.(Scan.currentPrice) in
  minOrder <- query (fun w => kraken_getMinOrderSize w signal.(Scan.symbol)) ;;
  if (quantity <? minOrder)%num then ret None
  else
    order (KrakenBuy signal.(Scan.symbol) quantity)
          (kraken_buy signal.(Scan.symbol) quantity) ;;;
    ret (Some tt).

(** The two statements that close the [try] block of [executeTrades]. *)
Definition track (opp : Scan.Signal) (currentPositions : list Position.t)
  : M (list Position.t) :=
  update count_trade ;;;
  ret (currentPositions
         ++ [Position.tracking opp.(Scan.symbol) opp.(Scan.exchange)]).

(** One turn of the loop of [executeTrades]; the result is the array
    [currentPositions] as the turn leaves it. *)
Definition executeTrade (opp : Scan.Signal) (currentPositions : list Position.t)
  (balance : num) : M (list Position.t) :=
  b <- this ;;
  if negb (Risk.canOpenPosition b.(riskManager) currentPositions
             opp.(Scan.exchange))
  then ret currentPositions
  else if existsb (fun p => String.eqb p.(Position.symbol) opp.(Scan.symbol))
                  currentPositions
  then ret currentPositions
  else
    try_catch
      (match opp.(Scan.exchange) with
       | Alpaca =>
           marketOpen <- query alpaca_isMarketOpen ;;
           if negb marketOpen then ret currentPositions
           else
             executeBuyStock opp balance ;;;
             track opp currentPositions
       | Kraken =>
           executeBuyCrypto opp balance ;;;
           track opp currentPositions
       end)
      (fun _ => ret currentPositions).

Fixpoint executeTrades_loop (opps : list Scan.Signal)
  (currentPositions : list Position.t) (balance : num) : M (list Position.t) :=
  match opps with
  | [] => ret currentPositions
  | opp :: rest =>
      positions' <- executeTrade opp currentPositions balance ;;
      executeTrades_loop rest positions' balance
  end.

Definition executeTrades (opportunities : list Scan.Signal)
  (currentPositions : list Position.t) (balance : num) : M (list Position.t) :=
  executeTrades_loop (firstn 3 opportunities) currentPositions balance.

(** The [try] block of [runScanCycle], from the risk checks on. *)
Definition check_and_trade (balance : num) (positions : list Position.t)
  : M unit :=
  b <- this ;;
  if Risk.shouldStopTrading b.(riskManager) then
    stop ;;; ret tt
  else if Risk.checkCircuitBreaker b.(riskManager) balance then
    closeAllPositions ;;;
    stop ;;; ret tt
  else
    checkPositions positions ;;;
    scanResults <-
      query (fun w => Scan.scanAll b.(scanner) w b.(stockSymbols)
                        b.(cryptoConfigs)) ;;
    at_time <- query (fun w => Ret (now w)) ;;
    update (record_scan at_time scanResults.(Scan.all)) ;;;
    let opportunities :=
      Scan.findBestOpportunities scanResults.(Scan.buy) (int 50) 5 in
    match opportunities with
    | [] => ret tt
    | _ => executeTrades opportunities positions balance ;;; ret tt
    end.

(** The [try] block of [runScanCycle]. *)
Definition runScanCycle_try : M unit :=
  query alpaca_isMarketOpen ;;;
  balance <- getTotalBalance ;;
  positions <- getAllPositions ;;
  update (fun b => set_riskManager (Risk.updateDailyPnL b.(riskManager) balance) b) ;;;
  check_and_trade balance positions.

Definition runScanCycle : M unit :=
  b <- this ;;
  if negb (Status_eqb b.(status) running) then ret tt
  else try_catch runScanCycle_try (fun _ => update count_error).

Definition start (stockSymbols : list string) (cryptoConfigs : list CryptoConfig)
  : M bool :=
  b <- this ;;
  if Status_eqb b.(status) running then ret false
  else
    alpacaOk <- query alpaca_testConnection ;;
    krakenOk <- query kraken_testConnection ;;
    if negb alpacaOk || negb krakenOk then ret false
    else
      balance <- getTotalBalance ;;
      today <- query (fun w => Ret (toDateString w)) ;;
      update (fun b =>
                set_riskManager
                  (Risk.resetDailyStats b.(riskManager) today balance) b) ;;;
      update (set_status running) ;;;
      update (set_universe stockSymbols cryptoConfigs) ;;;
      runScanCycle ;;;
      t <- setInterval ;;
      update (set_scanInterval (Some t)) ;;;
      ret true.

(** What can happen to a bot: the calls of its control surface, the firing of
    an interval timer, and a change of the world outside the bot. *)
Inductive Event : Type :=
| Start (stockSymbols : list string) (cryptoConfigs : list CryptoConfig)
| Pause
| Stop
| Tick (timer : nat)
| Outside (change : W -> W).

Definition is_start (e : Event) : bool :=
  match e with Start _ _ => true | _ => false end.

Definition step (e : Event) (m : Machine) : Machine :=
  match e with
  | Start stocks cryptos => snd (start stocks cryptos m)
  | Pause => snd (pause m)
  | Stop => snd (stop m)
  | Tick t =>
      if existsb (Nat.eqb t) m.(timers) then snd (runScanCycle m) else m
  | Outside change =>
      {| bot := m.(bot); world := change m.(world); trace := m.(trace);
         timers := m.(timers); next_timer := m.(next_timer) |}
  end.

Definition run (events : list Event) (m : Machine) : Machine :=
  fold_left (fun m e => step e m) events m.

End WithServices.

Arguments Machine W : clear implicits.
Arguments Event W : clear implicits.

End Bot.

(* ================================================================== *)
(** ** The classification rule, as the specification words it *)
(* ================================================================== *)

Module Spec.

(** [clamp(x, lo, hi)] *)
Definition clamp (x lo hi : num) : num := Math_max (Math_min x hi) lo.

(** [classify(value, oversold, overbought)], following the specification:
    BUY below [oversold], else SELL above [overbought], else HOLD. *)
Definition classify (value oversold overbought : num)
  : Strategy.SignalType * num :=
  if (value <? oversold)%num then
    (Strategy.BUY,
     clamp ((oversold - value) / oversold * int 100)%num (int 0) (int 100))
  else if (value >? overbought)%num then
    (Strategy.SELL,
     clamp ((value - overbought) / (int 100 - overbought) * int 100)%num
           (int 0) (int 100))
  else (Strategy.HOLD, int 0).

(** [positionSize(balance, price, equity)], following the specification:
    [riskFraction = 0.02 * (aggressiveness / 100)],
    [positionValue = balance * riskFraction], and for a discrete-unit asset
    [quantity = floor(positionValue / price)], minimum 1. *)
Definition riskFraction (aggressiveness : Q) : Q :=
  ((2 # 100) * (aggressiveness / 100))%Q.

Definition positionValue (balance aggressiveness : Q) : Q :=
  (balance * riskFraction aggressiveness)%Q.


End Spec.

(* ================================================================== *)
(** ** Counting what a batch of scans yields *)
(* ================================================================== *)

(** Whether the scan of an asset gives a signal. *)
Definition gives_signal {A B : Type} (scan : A -> Res (option B)) (a : A) : bool :=
  match scan a with
  | Ret (Some _) => true
  | _ => false
  end.

(** An asset of the universe: a stock symbol or an entry of the crypto list. *)
Inductive Asset : Type :=
| StockAsset (symbol : string)
| CryptoAsset (cryptoConfig : CryptoConfig).

Definition universe_of (stockSymbols : list string)
  (cryptoConfigs : list CryptoConfig) : list Asset :=
  map StockAsset stockSymbols ++ map CryptoAsset cryptoConfigs.

(** The [try] block of the scan of an asset, and the scan itself. *)
Definition scan_try {W : Type} `{Venues W} `{TechnicalIndicators}
  (scanner : Scan.Scanner) (w : W) (a : Asset) : Res (option Scan.Signal) :=
  match a with
  | StockAsset symbol => Scan.scanStock_try scanner w symbol
  | CryptoAsset cryptoConfig => Scan.scanCrypto_try scanner w cryptoConfig
  end.

Definition scan {W : Type} `{Venues W} `{TechnicalIndicators}
  (scanner : Scan.Scanner) (w : W) (a : Asset) : Res (option Scan.Signal) :=
  match a with
  | StockAsset symbol => Scan.scanStock scanner w symbol
  | CryptoAsset cryptoConfig => Scan.scanCrypto scanner w cryptoConfig
  end.

(* ================================================================== *)
(** ** Sessions and worlds to run the model on *)
(* ================================================================== *)


(** The indicator package, as the specification describes it. *)
#[global] Instance described_indicators : TechnicalIndicators :=
  {| RSI_calculate := Indicator.RSI_calculate |}.

Module Demo.

(** A world with fixed answers.  Orders are accepted and change nothing; the
    history of a symbol listed in [unreachable] cannot be fetched. *)
Record World : Type := {
  date : string;
  clock : Z;
  alpaca_up : bool;
  kraken_up : bool;
  alpaca_account : AlpacaBalance;
  kraken_account : KrakenBalance;
  market_open : bool;
  unreachable : list string;
  closes : string -> list num;
  spot : string -> option num;
  alpaca_positions : list Position.t;
  kraken_positions : list Position.t;
  min_order : string -> num
}.

Definition bars (values : list num) : list Bar :=
  map (fun c => {| time := 0; close := c |}) values.

Definition history (w : World) (symbol : string) : Res (list Bar) :=
  if existsb (String.eqb symbol) w.(unreachable)
  then Throw "request timed out"
  else Ret (bars (w.(closes) symbol)).

#[global] Instance venues : Venues World :=
  {| toDateString := date;
     now := clock;
     alpaca_testConnection := fun w => Ret w.(alpaca_up);
     alpaca_getBalance := fun w => Ret w.(alpaca_account);
     alpaca_isMarketOpen := fun w => Ret w.(market_open);
     alpaca_getCurrentPrice := fun w s => Ret (w.(spot) s);
     alpaca_getHistoricalData := fun w s _ => history w s;
     alpaca_getPositions := fun w => Ret w.(alpaca_positions);
     alpaca_buy := fun _ _ w => (Ret tt, w);
     alpaca_closePosition := fun _ w => (Ret tt, w);
     alpaca_closeAllPositions := fun w => (Ret tt, w);
     kraken_testConnection := fun w => Ret w.(kraken_up);
     kraken_getBalance := fun w => Ret w.(kraken_account);
     kraken_getAvailableSymbol := fun _ s _ => Ret (Some s);
     kraken_getCurrentPrice := fun w s => Ret (w.(spot) s);
     kraken_getHistoricalData := fun w s _ => history w s;
     kraken_getPositions := fun w => Ret w.(kraken_positions);
     kraken_getMinOrderSize := fun w s => Ret (w.(min_order) s);
     kraken_buy := fun _ _ w => (Ret tt, w);
     kraken_closePosition := fun _ w => (Ret tt, w) |}.

Definition monday : string := "Mon Jan 05 2026".
Definition tuesday : string := "Tue Jan 06 2026".

(** Nothing configured: every key parses to [NaN] and takes its default. *)
Definition unset : Risk.Config :=
  {| Risk.capitalInicial := NaN; Risk.lucroMaximoDiario := NaN;
     Risk.perdaMaximaDiaria := NaN; Risk.agressividade := NaN;
     Risk.maxPosicoes := NaN; Risk.maxPosicoesStocks := NaN;
     Risk.maxPosicoesCrypto := NaN; Risk.stopLossPercent := NaN;
     Risk.takeProfitPercent := NaN |}.

(** A risk manager built on Monday whose session was opened on Tuesday with
    a balance of 5000. *)
Definition riskManager : Risk.RiskManager :=
  Risk.resetDailyStats (Risk.constructor unset monday) tuesday (int 5000).

Definition strategy : Strategy.RSIStrategy :=
  Strategy.constructor
    {| Strategy.rsiPeriod := None; Strategy.rsiOversold := None;
       Strategy.rsiOverbought := None |}.

Definition bot_config : Bot.Config :=
  {| Bot.rsiPeriod := NaN; Bot.rsiOversold := NaN; Bot.rsiOverbought := NaN;
     Bot.scanIntervalMs := int 60000 |}.

(** Fifteen bars at the price 100. *)
Definition flat_series : list Bar := bars (repeat (int 100) 15).

(** Tuesday; both venues up; 4000 at Alpaca and 1000 at Kraken; the market
    open; twenty bars at 100 for every symbol, with a spot price of 100;
    [TSLA] cannot be fetched; no open position; minimum order size 2. *)
Definition world : World :=
  {| date := tuesday;
     clock := 1767700000000;
     alpaca_up := true;
     kraken_up := true;
     alpaca_account :=
       {| cash := int 4000; equity := int 4000; buyingPower := int 4000;
          portfolioValue := int 4000 |};
     kraken_account := {| total := int 1000 |};
     market_open := true;
     unreachable := ["TSLA"];
     closes := fun _ => repeat (int 100) 20;
     spot := fun _ => Some (int 100);
     alpaca_positions := [];
     kraken_positions := [];
     min_order := fun _ => int 2 |}.

(** The same world with the Alpaca venue down. *)
Definition world_alpaca_down : World :=
  {| date := world.(date); clock := world.(clock);
     alpaca_up := false; kraken_up := world.(kraken_up);
     alpaca_account := world.(alpaca_account);
     kraken_account := world.(kraken_account);
     market_open := world.(market_open);
     unreachable := world.(unreachable);
     closes := world.(closes); spot := world.(spot);
     alpaca_positions := world.(alpaca_positions);
     kraken_positions := world.(kraken_positions);
     min_order := world.(min_order) |}.

(** The same world with only 10 at Kraken. *)
Definition world_small_account : World :=
  {| date := world.(date); clock := world.(clock);
     alpaca_up := world.(alpaca_up); kraken_up := world.(kraken_up);
     alpaca_account := world.(alpaca_account);
     kraken_account := {| total := int 10 |};
     market_open := world.(market_open);
     unreachable := world.(unreachable);
     closes := world.(closes); spot := world.(spot);
     alpaca_positions := world.(alpaca_positions);
     kraken_positions := world.(kraken_positions);
     min_order := world.(min_order) |}.

(** The same world after a loss: 3700 at Alpaca, 4700 in all. *)
Definition world_after_loss : World :=
  {| date := world.(date); clock := world.(clock);
     alpaca_up := world.(alpaca_up); kraken_up := world.(kraken_up);
     alpaca_account :=
       {| cash := int 3700; equity := int 3700; buyingPower := int 3700;
          portfolioValue := int 3700 |};
     kraken_account := world.(kraken_account);
     market_open := world.(market_open);
     unreachable := world.(unreachable);
     closes := world.(closes); spot := world.(spot);
     alpaca_positions := world.(alpaca_positions);
     kraken_positions := world.(kraken_positions);
     min_order := world.(min_order) |}.

(** A daily loss limit of 1000, wider than the circuit breaker's 5%. *)
Definition wide_limit : Risk.Config :=
  {| Risk.capitalInicial := NaN; Risk.lucroMaximoDiario := NaN;
     Risk.perdaMaximaDiaria := int 1000; Risk.agressividade := NaN;
     Risk.maxPosicoes := NaN; Risk.maxPosicoesStocks := NaN;
     Risk.maxPosicoesCrypto := NaN; Risk.stopLossPercent := NaN;
     Risk.takeProfitPercent := NaN |}.

Definition universe : list string := ["AAPL"; "MSFT"; "TSLA"].

Definition machine (b : Bot.TradingBot) (w : World) : Bot.Machine World :=
  {| Bot.bot := b; Bot.world := w; Bot.trace := []; Bot.timers := [];
     Bot.next_timer := 1 |}.

(** A bot as constructed: stopped. *)
Definition fresh : Bot.TradingBot := Bot.constructor riskManager bot_config.

(** A bot whose risk manager was constructed today, Tuesday. *)
Definition first_day : Bot.TradingBot :=
  Bot.constructor (Risk.constructor unset tuesday) bot_config.

(** The bot after [pause()]: paused, its timer cleared. *)
Definition paused_bot : Bot.TradingBot := Bot.set_status Bot.paused fresh.

(** The bot in the middle of a session, watching [universe]. *)
Definition running_bot : Bot.TradingBot :=
  Bot.set_universe universe [] (Bot.set_status Bot.running fresh).

(** A running bot with the wide loss limit, its session opened at 5000. *)
Definition wide_bot : Bot.TradingBot :=
  Bot.set_status Bot.running
    (Bot.constructor
       (Risk.resetDailyStats (Risk.constructor wide_limit monday) tuesday
          (int 5000))
       bot_config).

(** A buy candidate on the crypto venue: XRP at 0.50 with indicator 10. *)
Definition candidate : Scan.Signal :=
  {| Scan.symbol := "XRP/EUR";
     Scan.exchange := Kraken;
     Scan.type := Scan.crypto;
     Scan.currentPrice := of_Q (1 # 2);
     Scan.rsi := int 10;
     Scan.signal := Strategy.BUY;
     Scan.strength := of_Q (200 # 3);
     Scan.timestamp := 1767700000000 |}.

End Demo.

(* ================================================================== *)
(** ** class RiskManager: trade validation and configuration updates *)
(* ================================================================== *)

Module RiskManager.




(** The argument of [updateConfig]: the keys it carries, with numbers for
    values; [None] is a key that is absent. *)
Record Patch : Type := {
  capitalInicial : option num;
  lucroMaximoDiario : option num;
  perdaMaximaDiaria : option num;
  agressividade : option num;
  maxPosicoes : option num;
  maxPosicoesStocks : option num;
  maxPosicoesCrypto : option num;
  stopLossPercent : option num;
  takeProfitPercent : option num
}.

(** One key of [{ ...old, ...new }]. *)
Definition spread (old : num) (new : option num) : num :=
  match new with
  | Some v => v
  | None => old
  end.

(** [this.config = { ...this.config, ...newConfig }] *)
Definition updateConfig (this : Risk.RiskManager) (newConfig : Patch)
  : Risk.RiskManager :=
  let old := this.(Risk.config) in
  {| Risk.config :=
       {| Risk.capitalInicial :=
            spread old.(Risk.capitalInicial) newConfig.(capitalInicial);
          Risk.lucroMaximoDiario :=
            spread old.(Risk.lucroMaximoDiario) newConfig.(lucroMaximoDiario);
          Risk.perdaMaximaDiaria :=
            spread old.(Risk.perdaMaximaDiaria) newConfig.(perdaMaximaDiaria);
          Risk.agressividade :=
            spread old.(Risk.agressividade) newConfig.(agressividade);
          Risk.maxPosicoes :=
            spread old.(Risk.maxPosicoes) newConfig.(maxPosicoes);
          Risk.maxPosicoesStocks :=
            spread old.(Risk.maxPosicoesStocks) newConfig.(maxPosicoesStocks);
          Risk.maxPosicoesCrypto :=
            spread old.(Risk.maxPosicoesCrypto) newConfig.(maxPosicoesCrypto);
          Risk.stopLossPercent :=
            spread old.(Risk.stopLossPercent) newConfig.(stopLossPercent);
          Risk.takeProfitPercent :=
            spread old.(Risk.takeProfitPercent) newConfig.(takeProfitPercent) |};
     Risk.dailyStats := this.(Risk.dailyStats) |}.

End RiskManager.

(* ================================================================== *)
(** ** class RSIStrategy: ranking *)
(* ================================================================== *)

Module RSIStrategy.

Section Ranking.

(** The entries [sortByStrength] ranks carry their signal in a field
    [signal]. *)
Variable Entry : Type.
Variable signal : Entry -> Strategy.Signal.

(** [(a, b) => b.signal.strength - a.signal.strength] *)
Definition by_strength (a b : Entry) : num :=
  (Strategy.strength (signal b) - Strategy.strength (signal a))%num.

(** Whether [by_strength] is a consistent comparison function for the
    entries, as [Array.prototype.sort] requires: it must never return [NaN],
    also for an entry compared with itself, and the difference of a strength
    with itself is [NaN] unless the strength is a finite number. *)
Definition consistent (entries : list Entry) : bool :=
  forallb (fun s => isFinite (Strategy.strength (signal s))) entries.

(** [sortByStrength(signals)].  Under a consistent comparison function
    [Array.prototype.sort] is a stable sort, which [Scan.sort] computes;
    otherwise the language leaves the order to the implementation, and the
    model gives no result ([None]). *)
Definition sortByStrength (signals : list Entry) : option (list Entry) :=
  let kept :=
    filter (fun s =>
              negb (Strategy.SignalType_eqb (Strategy.type (signal s))
                      Strategy.HOLD))
           signals in
  if consistent kept then Some (Scan.sort by_strength kept) else None.

End Ranking.

End RSIStrategy.

(* ================================================================== *)
(** ** What a cycle may change *)
(* ================================================================== *)

Module Frame.

Section WithWorld.

Context {W : Type}.

(** The session of a machine's risk manager. *)
Definition session (m : Bot.Machine W) : Risk.DailyStats :=
  Risk.dailyStats (Bot.riskManager (Bot.bot m)).

(** From [m] to [m'] no timer was set, the configuration, the universe and
    the session's start balance, date and trade count were kept, the run state
    was kept or became stopped, the orders sent were only added to, and the
    counters did not go down. *)
Record cycle (m m' : Bot.Machine W) : Prop := {
  same_next_timer : Bot.next_timer m' = Bot.next_timer m;
  timers_kept : incl (Bot.timers m') (Bot.timers m);
  same_risk_config :
    Risk.config (Bot.riskManager (Bot.bot m'))
    = Risk.config (Bot.riskManager (Bot.bot m));
  same_startBalance :
    Risk.startBalance (session m') = Risk.startBalance (session m);
  same_startDate : Risk.startDate (session m') = Risk.startDate (session m);
  same_tradesCount :
    Risk.tradesCount (session m') = Risk.tradesCount (session m);
  same_config : Bot.config (Bot.bot m') = Bot.config (Bot.bot m);
  same_scanner : Bot.scanner (Bot.bot m') = Bot.scanner (Bot.bot m);
  same_universe :
    Bot.stockSymbols (Bot.bot m') = Bot.stockSymbols (Bot.bot m)
    /\ Bot.cryptoConfigs (Bot.bot m') = Bot.cryptoConfigs (Bot.bot m);
  status_kept_or_stopped :
    Bot.status (Bot.bot m') = Bot.status (Bot.bot m)
    \/ Bot.status (Bot.bot m') = Bot.stopped;
  schedule_kept_unless_stopped :
    Bot.status (Bot.bot m') = Bot.stopped
    \/ (Bot.timers m' = Bot.timers m
        /\ Bot.scanInterval (Bot.bot m') = Bot.scanInterval (Bot.bot m));
  trace_extended : exists sent, Bot.trace m' = Bot.trace m ++ sent;
  trades_counted :
    (Bot.tradesExecuted (Bot.stats (Bot.bot m))
     <= Bot.tradesExecuted (Bot.stats (Bot.bot m')))%nat;
  errors_counted :
    (Bot.errors (Bot.stats (Bot.bot m))
     <= Bot.errors (Bot.stats (Bot.bot m')))%nat
}.

(** From [m] to [m'], over any events: the two configurations and the scanner
    were kept, the session's trade count was kept or reset to zero, the orders
    sent were only added to, and the counters did not go down. *)
Record lifetime (m m' : Bot.Machine W) : Prop := {
  life_risk_config :
    Risk.config (Bot.riskManager (Bot.bot m'))
    = Risk.config (Bot.riskManager (Bot.bot m));
  life_config : Bot.config (Bot.bot m') = Bot.config (Bot.bot m);
  life_scanner : Bot.scanner (Bot.bot m') = Bot.scanner (Bot.bot m);
  life_tradesCount :
    Risk.tradesCount (session m') = Risk.tradesCount (session m)
    \/ Risk.tradesCount (session m') = int 0;
  life_trace : exists sent, Bot.trace m' = Bot.trace m ++ sent;
  life_trades :
    (Bot.tradesExecuted (Bot.stats (Bot.bot m))
     <= Bot.tradesExecuted (Bot.stats (Bot.bot m')))%nat;
  life_errors :
    (Bot.errors (Bot.stats (Bot.bot m))
     <= Bot.errors (Bot.stats (Bot.bot m')))%nat;
  life_next_timer : (Bot.next_timer m <= Bot.next_timer m')%nat
}.

(** A computation that changes no more than a cycle may. *)
Definition keeps {A : Type} (c : @Bot.M W A) : Prop :=
  forall m, cycle m (snd (c m)).

End WithWorld.

(** The order [closePosition(position)] sends. *)
Definition close_call (position : Position.t) : Call :=
  match Position.exchange position with
  | Alpaca => AlpacaClosePosition (Position.symbol position)
  | Kraken => KrakenClosePosition (Position.symbol position)
  end.

End Frame.

(* ================================================================== *)
(** ** class KrakenService *)
(* ================================================================== *)

Module KrakenService.

(** What the [ccxt] exchange hands back: of a balance, the entries of
    [balance.total] in the order of [Object.entries]; of a ticker, [last],
    which may be undefined; of a market, [limits.amount.min], which may be
    undefined. *)
Record Balance : Type := { total : list (string * num) }.

Record Ticker : Type := { last : option num }.

Record Market : Type := { limits_amount_min : option num }.

(** [this.exchange].  [loadMarkets] fills the market table and may throw;
    [markets] is the table [this.exchange.markets] indexed by a symbol;
    [market(symbol)] throws for a symbol that is not listed. *)
Class Ccxt (X : Type) : Type := {
  fetchBalance : X -> Res Balance;
  loadMarkets : X -> Res X;
  markets : X -> string -> option Market;
  market : X -> string -> Res Market;
  fetchTicker : X -> string -> Res Ticker
}.

(** The value of a price read: a number, [undefined] or [null]. *)
Inductive Price : Type :=
| number (n : num)
| undefined
| null.

(** The number a price stands for in an arithmetic expression. *)
Definition to_number (p : Price) : num :=
  match p with
  | number n => n
  | undefined => NaN
  | null => int 0
  end.

(** The price as a field of a position: a number, or nothing. *)
Definition as_field (p : Price) : option num :=
  match p with
  | number n => Some n
  | undefined | null => None
  end.

(** [balance.total[currency]] *)
Fixpoint lookup (currency : string) (entries : list (string * num))
  : option num :=
  match entries with
  | [] => None
  | (c, amount) :: rest =>
      if String.eqb c currency then Some amount else lookup currency rest
  end.

Section WithExchange.

Context {X : Type} `{Ccxt X}.

Definition testConnection (x : X) : Res bool :=
  match fetchBalance x with
  | Ret _ => Ret true
  | Throw _ => Ret false
  end.

Definition getBalance (x : X) : Res KrakenBalance :=
  match fetchBalance x with
  | Ret balance =>
      let totalEUR := int 0 in
      let totalEUR :=
        match lookup "EUR" balance.(total) with
        | Some eur => if truthy eur then (totalEUR + eur)%num else totalEUR
        | None => totalEUR
        end in
      let totalEUR :=
        match lookup "USD" balance.(total) with
        | Some usd =>
            if truthy usd then (totalEUR + usd * of_Q (92 # 100))%num
            else totalEUR
        | None => totalEUR
        end in
      Ret (Build_KrakenBalance totalEUR)
  | Throw e => Throw e
  end.

Definition getAvailableSymbol (x : X) (primarySymbol : string)
  (fallbackSymbol : option string) : Res (option string) :=
  match loadMarkets x with
  | Ret x' =>
      match markets x' primarySymbol with
      | Some _ => Ret (Some primarySymbol)
      | None =>
          match fallbackSymbol with
          | Some f =>
              if negb (String.eqb f "")
              then match markets x' f with
                   | Some _ => Ret (Some f)
                   | None => Ret None
                   end
              else Ret None
          | None => Ret None
          end
      end
  | Throw _ => Ret None
  end.

Definition getCurrentPrice (x : X) (symbol : string) : Res Price :=
  match fetchTicker x symbol with
  | Ret ticker =>
      Ret match ticker.(last) with Some n => number n | None => undefined end
  | Throw _ => Ret null
  end.

(** The body of the loop of [getPositions] for one entry that passed the
    test. *)
Definition position_of (x : X) (currency : string) (amount : num)
  : Position.t :=
  let symbol := (currency ++ "/EUR")%string in
  let '(currentPrice, marketValue) :=
    match getCurrentPrice x symbol with
    | Ret p => (p, (to_number p * amount)%num)
    | Throw _ =>
        let usdSymbol := (currency ++ "/USD")%string in
        match getCurrentPrice x usdSymbol with
        | Ret p => (p, (to_number p * amount * of_Q (92 # 100))%num)
        | Throw _ => (null, int 0)
        end
    end in
  {| Position.symbol := symbol;
     Position.exchange := Kraken;
     Position.quantity := Some amount;
     Position.entryPrice := None;
     Position.currentPrice := as_field currentPrice;
     Position.marketValue := Some marketValue;
     Position.profitLoss := Some (int 0);
     Position.profitLossPercent := Some (int 0) |}.

Definition held (entry : string * num) : bool :=
  let (currency, amount) := entry in
  (amount >? int 0)%num
  && negb (String.eqb currency "EUR") && negb (String.eqb currency "USD").

Definition getPositions (x : X) : Res (list Position.t) :=
  match fetchBalance x with
  | Ret balance =>
      Ret (map (fun entry => position_of x (fst entry) (snd entry))
               (filter held balance.(total)))
  | Throw _ => Ret []
  end.

Definition getMinOrderSize (x : X) (symbol : string) : Res num :=
  match loadMarkets x with
  | Ret x' =>
      match market x' symbol with
      | Ret m =>
          match m.(limits_amount_min) with
          | Some min => Ret (or_default min (of_Q (1 # 1000)))
          | None => Ret (of_Q (1 # 1000))
          end
      | Throw _ => Ret (of_Q (1 # 1000))
      end
  | Throw _ => Ret (of_Q (1 # 1000))
  end.

End WithExchange.

End KrakenService.

(* ================================================================== *)
(** ** A world in which the venues fail *)
(* ================================================================== *)

Module Outage.

(** The answers of [Demo.World], with two switches: every order is rejected,
    and no balance can be read. *)
Record World : Type := {
  inner : Demo.World;
  orders_rejected : bool;
  balances_down : bool
}.

Definition send (w : World) : Res unit * World :=
  if w.(orders_rejected) then (Throw "order rejected", w) else (Ret tt, w).

Definition read {A : Type} (w : World) (a : A) : Res A :=
  if w.(balances_down) then Throw "service unavailable" else Ret a.

Definition venues : Venues World :=
  {| toDateString := fun w => Demo.date w.(inner);
     now := fun w => Demo.clock w.(inner);
     alpaca_testConnection := fun w => Ret (Demo.alpaca_up w.(inner));
     alpaca_getBalance := fun w => read w (Demo.alpaca_account w.(inner));
     alpaca_isMarketOpen := fun w => Ret (Demo.market_open w.(inner));
     alpaca_getCurrentPrice := fun w s => Ret (Demo.spot w.(inner) s);
     alpaca_getHistoricalData := fun w s _ => Demo.history w.(inner) s;
     alpaca_getPositions := fun w => Ret (Demo.alpaca_positions w.(inner));
     alpaca_buy := fun _ _ w => send w;
     alpaca_closePosition := fun _ w => send w;
     alpaca_closeAllPositions := fun w => send w;
     kraken_testConnection := fun w => Ret (Demo.kraken_up w.(inner));
     kraken_getBalance := fun w => read w (Demo.kraken_account w.(inner));
     kraken_getAvailableSymbol := fun _ s _ => Ret (Some s);
     kraken_getCurrentPrice := fun w s => Ret (Demo.spot w.(inner) s);
     kraken_getHistoricalData := fun w s _ => Demo.history w.(inner) s;
     kraken_getPositions := fun w => Ret (Demo.kraken_positions w.(inner));
     kraken_getMinOrderSize := fun w s => Ret (Demo.min_order w.(inner) s);
     kraken_buy := fun _ _ w => send w;
     kraken_closePosition := fun _ w => send w |}.

(** Every order is rejected. *)
Definition rejecting (w : Demo.World) : World :=
  {| inner := w; orders_rejected := true; balances_down := false |}.

(** No balance can be read. *)
Definition blind (w : Demo.World) : World :=
  {| inner := w; orders_rejected := false; balances_down := true |}.

Definition machine (b : Bot.TradingBot) (w : World) : Bot.Machine World :=
  {| Bot.bot := b; Bot.world := w; Bot.trace := []; Bot.timers := [7%nat];
     Bot.next_timer := 8 |}.

(** An exchange account: what it holds and the symbols it lists, each at the
    price 100 with a minimum order of 0.0001; no call goes through while it
    is [down]. *)
Record Book : Type := {
  holdings : list (string * num);
  listed : list string;
  down : bool
}.

Definition quote (b : Book) (symbol : string) : option KrakenService.Market :=
  if existsb (String.eqb symbol) b.(listed)
  then Some {| KrakenService.limits_amount_min := Some (of_Q (1 # 10000)) |}
  else None.

Definition exchange : KrakenService.Ccxt Book :=
  {| KrakenService.fetchBalance := fun b =>
       if b.(down) then Throw "service unavailable"
       else Ret {| KrakenService.total := b.(holdings) |};
     KrakenService.loadMarkets := fun b =>
       if b.(down) then Throw "service unavailable" else Ret b;
     KrakenService.markets := quote;
     KrakenService.market := fun b symbol =>
       match quote b symbol with
       | Some m => Ret m
       | None => Throw "kraken does not have market symbol"
       end;
     KrakenService.fetchTicker := fun b symbol =>
       if b.(down) || negb (existsb (String.eqb symbol) b.(listed))
       then Throw "service unavailable"
       else Ret {| KrakenService.last := Some (int 100) |} |}.

(** 250 euros, half a bitcoin and forty units of a coin with no euro pair. *)
Definition book : Book :=
  {| holdings := [("EUR", int 250); ("BTC", of_Q (1 # 2)); ("XYZ", int 40)];
     listed := ["BTC/EUR"; "ETH/EUR"; "XYZ/USD"];
     down := false |}.

End Outage.

(* ================================================================== *)
(** * Properties *)
(* ================================================================== *)

Local Open Scope Q_scope.

(** ** Arithmetic of the number model *)

Lemma of_Q_compat (p q : Q) : p == q -> of_Q p = of_Q q.
Proof. intro E. unfold of_Q. f_equal. now apply Qred_complete. Qed.

Lemma Qeq_bool_false (q : Q) : ~ q == 0 -> Qeq_bool q 0 = false.
Proof.
  intro N. destruct (Qeq_bool q 0) eqn:E; [|reflexivity].
  apply Qeq_bool_eq in E. contradiction.
Qed.

Lemma nsub_fin (a b : Q) : nsub (Fin a) (Fin b) = of_Q (a - b).
Proof. reflexivity. Qed.

Lemma nmul_fin (a b : Q) : nmul (Fin a) (Fin b) = of_Q (a * b).
Proof. reflexivity. Qed.

Lemma ndiv_fin (a b : Q) : ~ b == 0 -> ndiv (Fin a) (Fin b) = of_Q (a / b).
Proof. intro N. unfold ndiv. now rewrite (Qeq_bool_false b N). Qed.

Lemma nle_fin (a b : Q) : nle (Fin a) (Fin b) = true <-> a <= b.
Proof.
  unfold nle, ncmp. rewrite Qle_alt.
  destruct (a ?= b); split; intro; congruence.
Qed.

Lemma nlt_fin (a b : Q) : nlt (Fin a) (Fin b) = true <-> a < b.
Proof.
  unfold nlt, ncmp. rewrite Qlt_alt.
  destruct (a ?= b); split; intro; congruence.
Qed.

Lemma ngt_fin (a b : Q) : ngt (Fin a) (Fin b) = true <-> b < a.
Proof.
  unfold ngt, ncmp. rewrite Qgt_alt.
  destruct (a ?= b); split; intro; congruence.
Qed.

Lemma nlt_fin_false (a b : Q) : nlt (Fin a) (Fin b) = false <-> b <= a.
Proof.
  unfold nlt, ncmp. rewrite Qge_alt.
  destruct (a ?= b); split; intro; congruence.
Qed.

Lemma ngt_fin_false (a b : Q) : ngt (Fin a) (Fin b) = false <-> a <= b.
Proof.
  unfold ngt, ncmp. rewrite Qle_alt.
  destruct (a ?= b); split; intro; congruence.
Qed.

Lemma Math_min_fin_l (a b : Q) : a <= b -> Math_min (Fin a) (Fin b) = Fin a.
Proof.
  intro L. unfold Math_min, ncmp. apply (proj1 (Qle_alt _ _)) in L.
  destruct (a ?= b); simpl; congruence.
Qed.

Lemma Math_max_fin_l (a b : Q) : b <= a -> Math_max (Fin a) (Fin b) = Fin a.
Proof.
  intro L. unfold Math_max, ncmp. apply (proj1 (Qge_alt _ _)) in L.
  destruct (a ?= b); simpl; congruence.
Qed.

Lemma clamp_in_range (q : Q) :
  0 <= q <= 100 ->
  Math_min (of_Q q) (Fin 100) = of_Q q
  /\ Spec.clamp (of_Q q) (Fin 0) (Fin 100) = of_Q q.
Proof.
  intros [L U]. unfold Spec.clamp, of_Q.
  assert (E : Math_min (Fin (Qred q)) (Fin 100) = Fin (Qred q)).
  { apply Math_min_fin_l. rewrite Qred_correct. exact U. }
  rewrite E. split; [reflexivity|].
  apply Math_max_fin_l. rewrite Qred_correct. exact L.
Qed.

Lemma ratio_times_100 (a b : Q) :
  ~ b == 0 ->
  (Fin a / Fin b * Fin 100)%num = of_Q (a / b * 100).
Proof.
  intro N. rewrite (ndiv_fin a b N). unfold of_Q at 1.
  rewrite nmul_fin. apply of_Q_compat. rewrite Qred_correct. reflexivity.
Qed.

Lemma ratio_bounds (a b : Q) : 0 < b -> 0 <= a <= b -> 0 <= a / b * 100 <= 100.
Proof.
  intros B [L U].
  assert (D0 : 0 <= a / b) by (apply Qle_shift_div_l; [exact B | lra]).
  assert (D1 : a / b <= 1) by (apply Qle_shift_div_r; [exact B | lra]).
  split; lra.
Qed.

(** ** The Signal Engine *)

Section Classify.

Variable this : Strategy.RSIStrategy.

Let signal_of (value : num) : Strategy.SignalType * num :=
  let s := Strategy.generateSignal this (Some value) in
  (Strategy.type s, Strategy.strength s).

(** Below the oversold threshold: the capped strength is the clamped one. *)
Lemma buy_branch (v : Q) (oversold : num) :
  0 <= v ->
  (Fin v <? oversold)%num = true ->
  Math_min ((oversold - Fin v) / oversold * int 100)%num (int 100)
  = Spec.clamp ((oversold - Fin v) / oversold * int 100)%num (int 0) (int 100).
Proof.
  intros V B. destruct oversold as [o| | |]; try discriminate; [|reflexivity].
  apply nlt_fin in B.
  assert (N : ~ o == 0) by lra.
  change (int 100) with (Fin 100). change (int 0) with (Fin 0).
  rewrite nsub_fin. unfold of_Q.
  rewrite (ratio_times_100 _ o N).
  assert (R : 0 <= Qred (o - v) / o * 100 <= 100).
  { apply ratio_bounds; [lra|]. rewrite Qred_correct. lra. }
  destruct (clamp_in_range _ R) as [E1 E2]. now rewrite E1, E2.
Qed.

(** Above the overbought threshold, likewise. *)
Lemma sell_branch (v : Q) (overbought : num) :
  v <= 100 ->
  (Fin v >? overbought)%num = true ->
  Math_min ((Fin v - overbought) / (int 100 - overbought) * int 100)%num (int 100)
  = Spec.clamp ((Fin v - overbought) / (int 100 - overbought) * int 100)%num
      (int 0) (int 100).
Proof.
  intros V B. destruct overbought as [o| | |]; try discriminate; [|reflexivity].
  apply ngt_fin in B.
  change (int 100) with (Fin 100). change (int 0) with (Fin 0).
  rewrite !nsub_fin. unfold of_Q.
  assert (N : ~ Qred (100 - o) == 0) by (rewrite Qred_correct; lra).
  rewrite (ratio_times_100 _ _ N).
  assert (R : 0 <= Qred (v - o) / Qred (100 - o) * 100 <= 100).
  { apply ratio_bounds; rewrite !Qred_correct; lra. }
  destruct (clamp_in_range _ R) as [E1 E2]. now rewrite E1, E2.
Qed.

Lemma generateSignal_refines_classify (v : Q) :
  0 <= v <= 100 ->
  signal_of (Fin v)
  = Spec.classify (Fin v) (Strategy.oversold this) (Strategy.overbought this).
Proof.
  intros [L U]. unfold signal_of, Strategy.generateSignal, Spec.classify.
  destruct (Fin v <? Strategy.oversold this)%num eqn:B; simpl.
  - f_equal. now apply buy_branch.
  - destruct (Fin v >? Strategy.overbought this)%num eqn:S; simpl.
    + f_equal. now apply sell_branch.
    + reflexivity.
Qed.

End Classify.

(** C5.  [generateSignal] classifies as specified: BUY below the oversold
    threshold, otherwise SELL above the overbought one, otherwise HOLD; this
    holds for every number and all thresholds.  For an indicator value (a
    number between 0 and 100) the strength is the specified one as well: the
    stated ratio clamped to [0, 100], and 0 for HOLD.  With thresholds 30 and
    70: value 20 gives BUY with strength 100/3 (within 0.01 of 33.33), value
    85 gives SELL with strength 50, and value 50 gives HOLD with strength 0. *)
Theorem C5_generateSignal_classify :
  forall this : Strategy.RSIStrategy,
    (forall value : num,
       Strategy.type (Strategy.generateSignal this (Some value))
       = fst (Spec.classify value (Strategy.oversold this)
                (Strategy.overbought this)))
    /\ (forall v : Q,
          0 <= v <= 100 ->
          let s := Strategy.generateSignal this (Some (Fin v)) in
          (Strategy.type s, Strategy.strength s)
          = Spec.classify (Fin v) (Strategy.oversold this)
              (Strategy.overbought this))
    /\ (Strategy.oversold this = int 30 ->
        Strategy.overbought this = int 70 ->
        (let s := Strategy.generateSignal this (Some (int 20)) in
         Strategy.type s = Strategy.BUY
         /\ Strategy.strength s = of_Q (100 # 3)
         /\ Qabs ((100 # 3) - (3333 # 100)) < 1 # 100)
        /\ (let s := Strategy.generateSignal this (Some (int 85)) in
            Strategy.type s = Strategy.SELL /\ Strategy.strength s = int 50)
        /\ (let s := Strategy.generateSignal this (Some (int 50)) in
            Strategy.type s = Strategy.HOLD /\ Strategy.strength s = int 0)).
Proof.
  intro this. split; [|split].
  - intro value. unfold Strategy.generateSignal, Spec.classify.
    destruct (value <? Strategy.oversold this)%num; [reflexivity|].
    destruct (value >? Strategy.overbought this)%num; reflexivity.
  - intros v R. now apply generateSignal_refines_classify.
  - intros O B. unfold Strategy.generateSignal. rewrite O, B.
    repeat split; reflexivity.
Qed.

Lemma C5_generateSignal_classify_witness :
  (let s := Strategy.generateSignal Demo.strategy (Some (Fin 20)) in
   (Strategy.type s, Strategy.strength s))
  = Spec.classify (Fin 20) (int 30) (int 70)
  /\ Strategy.strength (Strategy.generateSignal Demo.strategy (Some (int 85)))
     = int 50.
Proof.
  split.
  - apply (proj1 (proj2 (C5_generateSignal_classify Demo.strategy)) 20
             (conj (Qle_bool_imp_le 0 20 eq_refl)
                   (Qle_bool_imp_le 20 100 eq_refl))).
  - apply (proj2 (proj2 (C5_generateSignal_classify Demo.strategy))
             eq_refl eq_refl).
Defined.

(** ** The Risk Manager *)

Section CircuitBreaker.

Variable this : Risk.RiskManager.
Variable s : Q.
Hypothesis start_balance : Risk.startBalance (Risk.dailyStats this) = Fin s.
Hypothesis start_positive : 0 < s.

Lemma lossPercent_value (b : Q) :
  Risk.lossPercent this (Fin b) = of_Q ((b - s) / s * 100).
Proof.
  unfold Risk.lossPercent. rewrite start_balance.
  assert (N : ~ s == 0) by lra.
  rewrite nsub_fin. unfold of_Q. change (int 100) with (Fin 100).
  rewrite (ratio_times_100 _ s N). apply of_Q_compat.
  rewrite Qred_correct. reflexivity.
Qed.

Lemma checkCircuitBreaker_iff (b : Q) :
  Risk.checkCircuitBreaker this (Fin b) = true <-> (b - s) / s * 100 <= -5.
Proof.
  unfold Risk.checkCircuitBreaker. rewrite lossPercent_value.
  unfold of_Q. change (int (-5)) with (Fin (-5)).
  destruct (Fin (Qred ((b - s) / s * 100)) <=? Fin (-5))%num eqn:E.
  - apply nle_fin in E. rewrite Qred_correct in E. tauto.
  - split; [discriminate|]. intro L.
    assert (T : (Fin (Qred ((b - s) / s * 100)) <=? Fin (-5))%num = true)
      by (apply nle_fin; rewrite Qred_correct; exact L).
    congruence.
Qed.

Lemma lossPercent_threshold (b : Q) :
  (b - s) / s * 100 <= -5 <-> b <= (95 # 100) * s.
Proof.
  assert (N : ~ s == 0) by lra.
  assert (E : (b - s) / s * 100 == (b * 100 - s * 100) / s) by (field; exact N).
  rewrite E. split; intro L.
  - assert (L' : b * 100 - s * 100 <= -5 * s).
    { apply Qmult_le_r with (z := / s); [now apply Qinv_lt_0_compat|].
      setoid_replace (-5 * s * / s) with (-5) by (field; exact N).
      exact L. }
    lra.
  - apply Qle_shift_div_r; [exact start_positive | lra].
Qed.

End CircuitBreaker.




(** ** The daily session *)

Lemma resetDailyStats_same_day (this : Risk.RiskManager) (today : string)
  (balance : num) :
  Risk.startDate (Risk.dailyStats this) = today ->
  Risk.resetDailyStats this today balance = this.
Proof.
  intro E. unfold Risk.resetDailyStats. rewrite E, String.eqb_refl. reflexivity.
Qed.

Lemma resetDailyStats_new_day (this : Risk.RiskManager) (today : string)
  (balance : num) :
  Risk.startDate (Risk.dailyStats this) <> today ->
  Risk.resetDailyStats this today balance
  = {| Risk.config := Risk.config this;
       Risk.dailyStats :=
         {| Risk.startBalance := balance; Risk.currentPnL := int 0;
            Risk.tradesCount := int 0; Risk.startDate := today |} |}.
Proof.
  intro N. unfold Risk.resetDailyStats.
  destruct (String.eqb_spec (Risk.startDate (Risk.dailyStats this)) today)
    as [E|_]; [contradiction|reflexivity].
Qed.

Lemma resetDailyStats_date (this : Risk.RiskManager) (today : string)
  (balance : num) :
  Risk.startDate (Risk.dailyStats (Risk.resetDailyStats this today balance))
  = today.
Proof.
  unfold Risk.resetDailyStats.
  destruct (String.eqb_spec (Risk.startDate (Risk.dailyStats this)) today)
    as [E|N]; simpl; [exact E|reflexivity].
Qed.

(** C8.  [resetDailyStats] leaves a session of today's date untouched,
    whatever the balance, and replaces the session exactly when its date
    differs from today's; two calls on one date with different balances leave
    the session as the first call left it. *)
Theorem C8_resetDailyStats_idempotent :
  forall (this : Risk.RiskManager) (today : string) (balance balance' : num),
    (Risk.startDate (Risk.dailyStats this) = today ->
     Risk.resetDailyStats this today balance = this)
    /\ (Risk.startDate (Risk.dailyStats this) <> today ->
        Risk.dailyStats (Risk.resetDailyStats this today balance)
        = {| Risk.startBalance := balance; Risk.currentPnL := int 0;
             Risk.tradesCount := int 0; Risk.startDate := today |})
    /\ (Risk.resetDailyStats this today balance <> this ->
        Risk.startDate (Risk.dailyStats this) <> today)
    /\ Risk.resetDailyStats (Risk.resetDailyStats this today balance)
         today balance'
       = Risk.resetDailyStats this today balance.
Proof.
  intros this today balance balance'.
  split; [apply resetDailyStats_same_day|].
  split; [intro N; now rewrite resetDailyStats_new_day|].
  split.
  - intros C E. apply C. now apply resetDailyStats_same_day.
  - apply resetDailyStats_same_day, resetDailyStats_date.
Qed.

Lemma C8_resetDailyStats_idempotent_witness :
  Risk.resetDailyStats Demo.riskManager Demo.tuesday (int 4200)
  = Demo.riskManager
  /\ Risk.dailyStats
       (Risk.resetDailyStats (Risk.constructor Demo.unset Demo.monday)
          Demo.tuesday (int 5000))
     = {| Risk.startBalance := int 5000; Risk.currentPnL := int 0;
          Risk.tradesCount := int 0; Risk.startDate := Demo.tuesday |}.
Proof.
  split.
  - apply (proj1 (C8_resetDailyStats_idempotent Demo.riskManager Demo.tuesday
                    (int 4200) (int 0))).
    reflexivity.
  - apply (proj1 (proj2 (C8_resetDailyStats_idempotent
                           (Risk.constructor Demo.unset Demo.monday)
                           Demo.tuesday (int 5000) (int 0)))).
    discriminate.
Defined.





(** ** The indicator on a flat series *)

Section FlatSeries.

Variable n : Z.
Hypothesis period_positive : (0 < n)%Z.

Let zero : num := Fin 0.
Let flat (l : list num) : Prop := Forall (eq zero) l.

Lemma deltas_flat (p : Q) (values : list num) :
  Forall (eq (Fin p)) values -> flat (Indicator.deltas values).
Proof.
  induction values as [|a [|b rest] IH]; intro F; simpl.
  - constructor.
  - constructor.
  - inversion F as [|? ? Ha F']; subst. inversion F' as [|? ? Hb ?]; subst.
    constructor; [|now apply IH].
    rewrite nsub_fin. unfold zero. change (Fin 0) with (of_Q 0).
    apply of_Q_compat. ring.
Qed.

Lemma deltas_length (values : list num) :
  List.length (Indicator.deltas values) = pred (List.length values).
Proof.
  induction values as [|a [|b rest] IH]; simpl in *; [reflexivity..|].
  now rewrite IH.
Qed.

Lemma nsum_gain_flat (l : list num) :
  flat l -> nsum (map Indicator.gain l) = zero.
Proof.
  induction 1 as [|x l E _ IH]; simpl; [reflexivity|].
  rewrite IH, <- E. reflexivity.
Qed.

Lemma nsum_loss_flat (l : list num) :
  flat l -> nsum (map Indicator.loss l) = zero.
Proof.
  induction 1 as [|x l E _ IH]; simpl; [reflexivity|].
  rewrite IH, <- E. reflexivity.
Qed.

Lemma zero_over_period : (zero / int n)%num = zero.
Proof.
  unfold zero, int, of_Z. rewrite ndiv_fin.
  - change (Fin 0) with (of_Q 0). apply of_Q_compat. field.
    change 0 with (inject_Z 0). rewrite inject_Z_injective. lia.
  - change 0 with (inject_Z 0). rewrite inject_Z_injective. lia.
Qed.

Lemma smooth_zero : Indicator.smooth (int n) zero zero = zero.
Proof.
  unfold Indicator.smooth.
  assert (E : (zero * (int n - int 1) + zero)%num = zero).
  { unfold zero, int, of_Z. rewrite nsub_fin. unfold of_Q.
    rewrite nmul_fin. unfold of_Q. unfold nadd.
    change (Fin 0) with (of_Q 0). apply of_Q_compat.
    rewrite Qred_correct. ring. }
  rewrite E. apply zero_over_period.
Qed.

Lemma wilder_flat (ds : list num) :
  flat ds ->
  Forall (eq (int 100)) (Indicator.wilder (int n) zero zero ds).
Proof.
  induction 1 as [|d ds E _ IH]; simpl; [constructor|].
  rewrite <- E.
  change (Indicator.gain zero) with zero. change (Indicator.loss zero) with zero.
  rewrite smooth_zero. constructor; [reflexivity|exact IH].
Qed.

Lemma last_all (A : Type) (x d : A) (l : list A) :
  Forall (eq x) l -> l <> [] -> last l d = x.
Proof.
  induction 1 as [|y l E F IH]; intro N; [contradiction|].
  destruct l as [|z l']; simpl; [now symmetry|].
  apply IH. discriminate.
Qed.

Lemma flat_firstn (k : nat) (l : list num) : flat l -> flat (firstn k l).
Proof.
  unfold flat. intro F. revert k.
  induction F as [|x l E F IH]; intros [|k]; simpl; constructor; auto.
Qed.

Lemma flat_skipn (k : nat) (l : list num) : flat l -> flat (skipn k l).
Proof.
  unfold flat. intro F. revert k.
  induction F as [|x l E F IH]; intros [|k]; simpl; try constructor; auto.
Qed.

Lemma RSI_calculate_flat (p : Q) (values : list num) :
  Forall (eq (Fin p)) values ->
  (n + 1 <= Z.of_nat (List.length values))%Z ->
  exists rest,
    Indicator.RSI_calculate values (int n) = int 100 :: rest
    /\ Forall (eq (int 100)) rest.
Proof.
  intros F L. unfold Indicator.RSI_calculate.
  pose proof (deltas_flat p values F) as D.
  assert (PL : Indicator.period_length (int n) = Z.to_nat n)
    by (unfold Indicator.period_length, int, of_Z; now rewrite Qfloor_Z).
  rewrite PL.
  destruct (Nat.ltb_spec (List.length (Indicator.deltas values)) (Z.to_nat n))
    as [B|_].
  { rewrite deltas_length in B. lia. }
  rewrite (nsum_gain_flat _ (flat_firstn _ _ D)).
  rewrite (nsum_loss_flat _ (flat_firstn _ _ D)).
  rewrite zero_over_period.
  eexists. split; [reflexivity|].
  apply wilder_flat. now apply flat_skipn.
Qed.

Lemma calculateRSI_flat (this : Strategy.RSIStrategy) (p : Q)
  (historicalData : list Bar) :
  Strategy.period this = int n ->
  Forall (fun bar => close bar = Fin p) historicalData ->
  (n + 1 <= Z.of_nat (List.length historicalData))%Z ->
  Strategy.calculateRSI Indicator.RSI_calculate this historicalData
  = Some (int 100).
Proof.
  intros P F L. unfold Strategy.calculateRSI. rewrite P.
  assert (G : (int (Z.of_nat (List.length historicalData)) <? int n + int 1)%num
              = false).
  { unfold int, of_Z, nadd, of_Q. apply nlt_fin_false. rewrite Qred_correct.
    rewrite <- inject_Z_plus, <- Zle_Qle. exact L. }
  rewrite G.
  assert (F' : Forall (eq (Fin p)) (map close historicalData)).
  { apply Forall_map. eapply Forall_impl; [|exact F]. intros bar E. now symmetry. }
  destruct (RSI_calculate_flat p (map close historicalData) F') as [rest [E A]].
  { now rewrite length_map. }
  rewrite E. f_equal. apply last_all; [|discriminate].
  constructor; [reflexivity|exact A].
Qed.

End FlatSeries.

(** C9.  (The indicator is the one the specification describes.)  On a series
    of at least [period + 1] equal prices the indicator is 100: every delta is
    zero, so the average loss is zero. *)
Theorem C9_flat_series_indicator :
  forall (this : Strategy.RSIStrategy) (n : Z) (p : Q)
         (historicalData : list Bar),
    Strategy.period this = int n ->
    (0 < n)%Z ->
    Forall (fun bar => close bar = Fin p) historicalData ->
    (n + 1 <= Z.of_nat (List.length historicalData))%Z ->
    Strategy.calculateRSI Indicator.RSI_calculate this historicalData
    = Some (int 100).
Proof.
  intros this n p historicalData P N F L.
  now apply (calculateRSI_flat n N this p).
Qed.

Lemma C9_flat_series_indicator_witness :
  Strategy.calculateRSI Indicator.RSI_calculate Demo.strategy Demo.flat_series
  = Some (int 100).
Proof.
  apply (C9_flat_series_indicator Demo.strategy 14 100 Demo.flat_series).
  - reflexivity.
  - reflexivity.
  - repeat constructor.
  - discriminate.
Defined.

(** Fifteen bars at 100 with period 14: the indicator is 100, not 50. *)
Lemma C9_flat_series_not_50 :
  Strategy.calculateRSI Indicator.RSI_calculate Demo.strategy Demo.flat_series
  = Some (int 100)
  /\ Strategy.calculateRSI Indicator.RSI_calculate Demo.strategy
       Demo.flat_series
     <> Some (int 50).
Proof. split; [reflexivity|discriminate]. Qed.

(** ** The Scanner *)

Section Scanning.

Context {W : Type} `{Venues W} `{TechnicalIndicators}.

Variable scanner : Scan.Scanner.
Variable w : W.

Lemma scanStock_settles (symbol : string) :
  exists v, Scan.scanStock scanner w symbol = Ret v.
Proof.
  unfold Scan.scanStock.
  destruct (Scan.scanStock_try scanner w symbol) as [v|e]; eauto.
Qed.

Lemma scanCrypto_settles (cryptoConfig : CryptoConfig) :
  exists v, Scan.scanCrypto scanner w cryptoConfig = Ret v.
Proof.
  unfold Scan.scanCrypto.
  destruct (Scan.scanCrypto_try scanner w cryptoConfig) as [v|e]; eauto.
Qed.

(** A failure inside one scan is caught there and gives "no signal". *)
Lemma scanStock_caught (symbol : string) (e : string) :
  Scan.scanStock_try scanner w symbol = Throw e ->
  Scan.scanStock scanner w symbol = Ret None.
Proof. intro T. unfold Scan.scanStock. now rewrite T. Qed.

Lemma scanStock_fetch_failure (symbol : string) (e : string) :
  alpaca_getHistoricalData w symbol 100 = Throw e ->
  Scan.scanStock scanner w symbol = Ret None.
Proof.
  intro T. apply (scanStock_caught symbol e).
  unfold Scan.scanStock_try. now rewrite T.
Qed.

Lemma scanCrypto_caught (cryptoConfig : CryptoConfig) (e : string) :
  Scan.scanCrypto_try scanner w cryptoConfig = Throw e ->
  Scan.scanCrypto scanner w cryptoConfig = Ret None.
Proof. intro T. unfold Scan.scanCrypto. now rewrite T. Qed.

Lemma fulfilled_values_length {A B : Type} (scan : A -> Res (option B))
  (assets : list A) :
  List.length (Scan.fulfilled_values (Scan.allSettled (map scan assets)))
  = List.length (filter (gives_signal scan) assets).
Proof.
  induction assets as [|a rest IH]; simpl; [reflexivity|].
  unfold gives_signal at 1.
  destruct (scan a) as [[v|]|e]; simpl; now rewrite IH.
Qed.

Lemma filter_all {A : Type} (f : A -> bool) (l : list A) :
  (forall a, In a l -> f a = true) -> filter f l = l.
Proof.
  induction l as [|a rest IH]; intro Hall; simpl; [reflexivity|].
  rewrite (Hall a (or_introl eq_refl)). f_equal.
  apply IH. intros b Hb. apply Hall. now right.
Qed.

(** All scans but one give a signal: one signal fewer than assets. *)
Lemma one_missing {A B : Type} (scan : A -> Res (option B))
  (before after : list A) (a : A) :
  gives_signal scan a = false ->
  (forall b, In b (before ++ after) -> gives_signal scan b = true) ->
  List.length (filter (gives_signal scan) (before ++ a :: after))
  = List.length (before ++ after).
Proof.
  intros Fa Hall. rewrite filter_app. simpl. rewrite Fa.
  rewrite <- filter_app. now rewrite (filter_all _ _ Hall).
Qed.

Lemma scanAll_returns (stockSymbols : list string)
  (cryptoConfigs : list CryptoConfig) :
  exists results,
    Scan.scanAll scanner w stockSymbols cryptoConfigs = Ret results
    /\ List.length (Scan.all results)
       = (List.length (filter (gives_signal (Scan.scanStock scanner w))
                              stockSymbols)
          + List.length (filter (gives_signal (Scan.scanCrypto scanner w))
                                cryptoConfigs))%nat
    /\ Scan.stats_total (Scan.stats results) = List.length (Scan.all results).
Proof.
  eexists. split; [reflexivity|]. split; [|reflexivity].
  simpl. rewrite length_app. now rewrite !fulfilled_values_length.
Qed.

End Scanning.

(** ** The Orchestrator *)

Section Orchestrator.

Context {W : Type} `{Venues W} `{TechnicalIndicators}.

Implicit Types m : Bot.Machine W.

(** The guard of [runScanCycle]. *)
Lemma runScanCycle_skips m :
  Bot.status (Bot.bot m) <> Bot.running ->
  Bot.runScanCycle m = (Ret tt, m).
Proof.
  intro N. unfold Bot.runScanCycle, Bot.bind, Bot.this.
  destruct (Bot.status (Bot.bot m)); simpl; [reflexivity|contradiction|reflexivity].
Qed.

Lemma tick_skips (t : nat) m :
  Bot.status (Bot.bot m) <> Bot.running ->
  Bot.step (Bot.Tick t) m = m.
Proof.
  intro N. unfold Bot.step.
  destruct (existsb (Nat.eqb t) (Bot.timers m)); [|reflexivity].
  now rewrite (runScanCycle_skips m N).
Qed.

Lemma pause_refused m :
  Bot.status (Bot.bot m) <> Bot.running ->
  Bot.pause m = (Ret false, m).
Proof.
  intro N. unfold Bot.pause, Bot.bind, Bot.this.
  destruct (Bot.status (Bot.bot m)); simpl; [reflexivity|contradiction|reflexivity].
Qed.

(** What [stop()] changes: the status and the interval timer. *)
Lemma stop_effect m :
  Bot.status (Bot.bot (snd (Bot.stop m))) = Bot.stopped
  /\ Bot.scanInterval (Bot.bot (snd (Bot.stop m))) = None
  /\ Bot.trace (snd (Bot.stop m)) = Bot.trace m
  /\ Bot.world (snd (Bot.stop m)) = Bot.world m
  /\ Bot.stats (Bot.bot (snd (Bot.stop m))) = Bot.stats (Bot.bot m)
  /\ Bot.riskManager (Bot.bot (snd (Bot.stop m))) = Bot.riskManager (Bot.bot m).
Proof.
  unfold Bot.stop, Bot.bind, Bot.update, Bot.this, Bot.clearInterval. simpl.
  destruct (Bot.scanInterval (Bot.bot m)) eqn:E; simpl; rewrite ?E; auto 10.
Qed.

Lemma stop_returns m : fst (Bot.stop m) = Ret true.
Proof.
  unfold Bot.stop, Bot.bind, Bot.update, Bot.this, Bot.clearInterval. simpl.
  destruct (Bot.scanInterval (Bot.bot m)); reflexivity.
Qed.

(** Orders change the world and the trace, never the bot object. *)
Lemma order_bot (c : Call) (f : W -> Res unit * W) m :
  Bot.bot (snd (Bot.order c f m)) = Bot.bot m.
Proof. unfold Bot.order. destruct (f (Bot.world m)). reflexivity. Qed.

Lemma close_each_bot (positions : list Position.t) m :
  Bot.bot (snd (Bot.close_each positions m)) = Bot.bot m.
Proof.
  revert m. induction positions as [|p rest IH]; intro m; simpl; [reflexivity|].
  unfold Bot.bind.
  pose proof (order_bot (KrakenClosePosition (Position.symbol p))
                (kraken_closePosition (Position.symbol p)) m) as O.
  destruct (Bot.order _ _ m) as [[u|e] m'] in O |- *; simpl in *.
  - now rewrite IH.
  - exact O.
Qed.

Lemma closeAllPositions_bot m :
  Bot.bot (snd (Bot.closeAllPositions m)) = Bot.bot m.
Proof.
  unfold Bot.closeAllPositions, Bot.bind.
  pose proof (order_bot AlpacaCloseAllPositions alpaca_closeAllPositions m) as O.
  destruct (Bot.order _ _ m) as [[u|e] m'] in O |- *; simpl in *; [|exact O].
  unfold Bot.query.
  destruct (kraken_getPositions (Bot.world m')) as [ps|e]; simpl; [|exact O].
  now rewrite close_each_bot.
Qed.

(** The laws by which a computation is run step by step. *)
Lemma bind_ret {A B : Type} (a : A) (k : A -> Bot.M B) m :
  Bot.bind (Bot.ret a) k m = k a m.
Proof. reflexivity. Qed.

Lemma bind_bind {A B C : Type} (c : Bot.M A) (k : A -> Bot.M B)
  (k' : B -> Bot.M C) m :
  Bot.bind (Bot.bind c k) k' m = Bot.bind c (fun a => Bot.bind (k a) k') m.
Proof.
  unfold Bot.bind. destruct (c m) as [[a|e] m']; reflexivity.
Qed.

Lemma bind_this {B : Type} (k : Bot.TradingBot -> Bot.M B) m :
  Bot.bind Bot.this k m = k (Bot.bot m) m.
Proof. reflexivity. Qed.

Lemma bind_update {B : Type} (f : Bot.TradingBot -> Bot.TradingBot)
  (k : unit -> Bot.M B) m :
  Bot.bind (Bot.update f) k m = k tt (snd (Bot.update f m)).
Proof. reflexivity. Qed.

Lemma bind_query {A B : Type} (f : W -> Res A) (k : A -> Bot.M B) m (a : A) :
  f (Bot.world m) = Ret a ->
  Bot.bind (Bot.query f) k m = k a m.
Proof. intro E. unfold Bot.bind, Bot.query. now rewrite E. Qed.

Lemma bind_query_throws {A B : Type} (f : W -> Res A) (k : A -> Bot.M B) m
  (e : string) :
  f (Bot.world m) = Throw e ->
  Bot.bind (Bot.query f) k m = (Throw e, m).
Proof. intro E. unfold Bot.bind, Bot.query. now rewrite E. Qed.

(** The machine in which the bot's risk manager has seen [balance]. *)
Let after_update (balance : num) m : Bot.Machine W :=
  snd (Bot.update
         (fun b => Bot.set_riskManager
                     (Risk.updateDailyPnL (Bot.riskManager b) balance) b) m).

Section Halt.

Variable m : Bot.Machine W.
Variables (marketOpen : bool) (alpacaBalance : AlpacaBalance)
  (krakenBalance : KrakenBalance) (alpacaPositions krakenPositions : list Position.t).
Hypothesis is_running : Bot.status (Bot.bot m) = Bot.running.
Hypothesis market : alpaca_isMarketOpen (Bot.world m) = Ret marketOpen.
Hypothesis balance_a : alpaca_getBalance (Bot.world m) = Ret alpacaBalance.
Hypothesis balance_k : kraken_getBalance (Bot.world m) = Ret krakenBalance.
Hypothesis positions_a : alpaca_getPositions (Bot.world m) = Ret alpacaPositions.
Hypothesis positions_k : kraken_getPositions (Bot.world m) = Ret krakenPositions.

Let balance : num := (portfolioValue alpacaBalance + total krakenBalance)%num.
Let seen : Risk.RiskManager :=
  Risk.updateDailyPnL (Bot.riskManager (Bot.bot m)) balance.

Lemma cycle_reaches_checks :
  Bot.runScanCycle_try m
  = Bot.check_and_trade balance (alpacaPositions ++ krakenPositions)
      (after_update balance m).
Proof.
  unfold Bot.runScanCycle_try.
  rewrite (bind_query _ _ m _ market).
  unfold Bot.getTotalBalance, Bot.getAllPositions.
  rewrite bind_bind, (bind_query _ _ m _ balance_a).
  rewrite bind_bind, (bind_query _ _ m _ balance_k). rewrite bind_ret.
  rewrite bind_bind, (bind_query _ _ m _ positions_a).
  rewrite bind_bind, (bind_query _ _ m _ positions_k). rewrite bind_ret.
  rewrite bind_update. reflexivity.
Qed.

(** A cycle that finds a daily limit reached stops the bot. *)
Lemma cycle_halts_on_daily_limit :
  Risk.shouldStopTrading seen = true ->
  Bot.runScanCycle m = (Ret tt, snd (Bot.stop (after_update balance m))).
Proof.
  intro S. unfold Bot.runScanCycle. rewrite bind_this, is_running.
  cbn [Bot.Status_eqb negb]. unfold Bot.try_catch.
  rewrite cycle_reaches_checks. unfold Bot.check_and_trade. rewrite bind_this.
  change (Bot.riskManager (Bot.bot (after_update balance m))) with seen.
  rewrite S. unfold Bot.bind at 1.
  pose proof (stop_returns (after_update balance m)) as R.
  destruct (Bot.stop (after_update balance m)) as [r m']. simpl in R.
  now rewrite R.
Qed.

(** A cycle that trips the circuit breaker liquidates and, when the
    liquidation goes through, stops the bot. *)
Lemma cycle_halts_on_circuit_breaker :
  Risk.shouldStopTrading seen = false ->
  Risk.checkCircuitBreaker seen balance = true ->
  fst (Bot.closeAllPositions (after_update balance m)) = Ret tt ->
  Bot.runScanCycle m
  = (Ret tt,
     snd (Bot.stop (snd (Bot.closeAllPositions (after_update balance m))))).
Proof.
  intros S C L. unfold Bot.runScanCycle. rewrite bind_this, is_running.
  cbn [Bot.Status_eqb negb]. unfold Bot.try_catch.
  rewrite cycle_reaches_checks. unfold Bot.check_and_trade. rewrite bind_this.
  change (Bot.riskManager (Bot.bot (after_update balance m))) with seen.
  rewrite S, C. unfold Bot.bind at 1.
  destruct (Bot.closeAllPositions (after_update balance m)) as [r m1].
  simpl in L. rewrite L. unfold Bot.bind at 1. simpl.
  pose proof (stop_returns m1) as R.
  destruct (Bot.stop m1) as [r' m']. simpl in R.
  now rewrite R.
Qed.

End Halt.

(** *** A stopped bot stays stopped until it is started *)

(** [m'] is stopped and has sent, counted and accounted nothing since [m]. *)
Let quiet_since m m' : Prop :=
  Bot.status (Bot.bot m') = Bot.stopped
  /\ Bot.trace m' = Bot.trace m
  /\ Bot.stats (Bot.bot m') = Bot.stats (Bot.bot m)
  /\ Bot.riskManager (Bot.bot m') = Bot.riskManager (Bot.bot m).

Lemma quiet_step (e : Bot.Event W) m :
  Bot.status (Bot.bot m) = Bot.stopped ->
  Bot.is_start e = false ->
  quiet_since m (Bot.step e m).
Proof.
  intros S N. unfold quiet_since.
  assert (R : Bot.status (Bot.bot m) <> Bot.running) by (rewrite S; discriminate).
  destruct e as [stocks cryptos| | |t|change]; simpl.
  - discriminate N.
  - rewrite (pause_refused m R). simpl. auto.
  - destruct (stop_effect m) as (S' & _ & T & _ & St & Rm). auto.
  - fold (Bot.step (Bot.Tick t) m). rewrite (tick_skips t m R). auto.
  - auto.
Qed.

Lemma quiet_run (events : list (Bot.Event W)) m :
  Bot.status (Bot.bot m) = Bot.stopped ->
  forallb (fun e => negb (Bot.is_start e)) events = true ->
  quiet_since m (Bot.run events m).
Proof.
  revert m. induction events as [|e rest IH]; intros m S N; simpl.
  - unfold quiet_since. auto.
  - simpl in N. apply andb_true_iff in N. destruct N as [Ne Nrest].
    apply negb_true_iff in Ne.
    destruct (quiet_step e m S Ne) as (S1 & T1 & St1 & R1).
    destruct (IH (Bot.step e m) S1 Nrest) as (S2 & T2 & St2 & R2).
    unfold quiet_since, Bot.run in *. simpl.
    rewrite S2, T2, St2, R2. auto.
Qed.

(** No tick of a run without [start()] executes the cycle. *)
Lemma ticks_skip_while_stopped (before after : list (Bot.Event W)) (t : nat) m :
  Bot.status (Bot.bot m) = Bot.stopped ->
  forallb (fun e => negb (Bot.is_start e)) (before ++ Bot.Tick t :: after) = true ->
  Bot.runScanCycle (Bot.run before m) = (Ret tt, Bot.run before m)
  /\ Bot.step (Bot.Tick t) (Bot.run before m) = Bot.run before m.
Proof.
  intros S N. rewrite forallb_app in N. apply andb_true_iff in N.
  destruct N as [Nb _].
  destruct (quiet_run before m S Nb) as (S' & _).
  assert (R : Bot.status (Bot.bot (Bot.run before m)) <> Bot.running)
    by (rewrite S'; discriminate).
  split; [now apply runScanCycle_skips | now apply tick_skips].
Qed.

End Orchestrator.

(** C1.  A cycle runs its body only in the running state: in any other state
    [runScanCycle], and with it every tick, leaves the machine as it is.  A
    cycle that meets a halt condition (a daily limit, or the circuit breaker
    once the liquidation has gone through) leaves the bot stopped.  From a
    stopped bot, in any sequence of ticks, [pause()], [stop()] and changes of
    the world that contains no [start()], every tick is skipped, the bot stays
    stopped, and no order, trade, error or P&L update is recorded. *)
Theorem C1_ticks_guarded_by_run_state :
  forall (W : Type) (V : Venues W) (T : TechnicalIndicators)
         (m : Bot.Machine W),
    (Bot.status (Bot.bot m) <> Bot.running ->
     Bot.runScanCycle m = (Ret tt, m)
     /\ forall t, Bot.step (Bot.Tick t) m = m)
    /\ (forall marketOpen alpacaBalance krakenBalance alpacaPositions
               krakenPositions,
          Bot.status (Bot.bot m) = Bot.running ->
          alpaca_isMarketOpen (Bot.world m) = Ret marketOpen ->
          alpaca_getBalance (Bot.world m) = Ret alpacaBalance ->
          kraken_getBalance (Bot.world m) = Ret krakenBalance ->
          alpaca_getPositions (Bot.world m) = Ret alpacaPositions ->
          kraken_getPositions (Bot.world m) = Ret krakenPositions ->
          let balance :=
            (portfolioValue alpacaBalance + total krakenBalance)%num in
          let seen :=
            Risk.updateDailyPnL (Bot.riskManager (Bot.bot m)) balance in
          let halted :=
            Bot.status (Bot.bot (snd (Bot.runScanCycle m))) = Bot.stopped in
          (Risk.shouldStopTrading seen = true -> halted)
          /\ (Risk.shouldStopTrading seen = false ->
              Risk.checkCircuitBreaker seen balance = true ->
              fst (Bot.closeAllPositions
                     (snd (Bot.update (Bot.set_riskManager seen) m)))
              = Ret tt ->
              halted))
    /\ (Bot.status (Bot.bot m) = Bot.stopped ->
        forall events : list (Bot.Event W),
          forallb (fun e => negb (Bot.is_start e)) events = true ->
          Bot.status (Bot.bot (Bot.run events m)) = Bot.stopped
          /\ Bot.trace (Bot.run events m) = Bot.trace m
          /\ Bot.stats (Bot.bot (Bot.run events m)) = Bot.stats (Bot.bot m)
          /\ Bot.riskManager (Bot.bot (Bot.run events m))
             = Bot.riskManager (Bot.bot m)
          /\ forall before t after,
               events = before ++ Bot.Tick t :: after ->
               Bot.runScanCycle (Bot.run before m) = (Ret tt, Bot.run before m)
               /\ Bot.step (Bot.Tick t) (Bot.run before m) = Bot.run before m).
Proof.
  intros W V T m. split; [|split].
  - intro N. split; [now apply runScanCycle_skips|].
    intro t. now apply tick_skips.
  - intros mo ab kb ap kp R Hm Ha Hk Hpa Hpk balance seen halted.
    unfold halted. split.
    + intro S.
      rewrite (cycle_halts_on_daily_limit m mo ab kb ap kp R Hm Ha Hk Hpa Hpk S).
      apply stop_effect.
    + intros S C L.
      rewrite (cycle_halts_on_circuit_breaker m mo ab kb ap kp R Hm Ha Hk Hpa
                 Hpk S C L).
      apply stop_effect.
  - intros S events N.
    destruct (quiet_run events m S N) as (S' & T' & St' & R').
    repeat (split; [assumption|]).
    intros before t after E. subst events.
    now apply (ticks_skip_while_stopped before after t m S).
Qed.

(** A tick on a paused bot; ticks around [pause()] and [stop()] on a stopped
    bot; a running bot on the day its risk manager was constructed, whose
    cycle finds the profit limit reached; a running bot that has lost 6%,
    whose cycle trips the circuit breaker; and a bot started on the
    construction day: the first cycle stops it, [start()] still sets the
    interval, and its ticks are skipped. *)
Lemma C1_ticks_guarded_by_run_state_witness :
  Bot.runScanCycle (Demo.machine Demo.paused_bot Demo.world)
  = (Ret tt, Demo.machine Demo.paused_bot Demo.world)
  /\ Bot.status
       (Bot.bot
          (Bot.run [Bot.Tick 1; Bot.Pause; Bot.Tick 1; Bot.Stop; Bot.Tick 2]
             (Demo.machine Demo.fresh Demo.world)))
     = Bot.stopped
  /\ Bot.status
       (Bot.bot
          (snd (Bot.runScanCycle
                  (Demo.machine (Bot.set_status Bot.running Demo.first_day)
                     Demo.world))))
     = Bot.stopped
  /\ Bot.status
       (Bot.bot
          (snd (Bot.runScanCycle
                  (Demo.machine Demo.wide_bot Demo.world_after_loss))))
     = Bot.stopped
  /\ Bot.timers (Bot.run [Bot.Start Demo.universe []]
                   (Demo.machine Demo.first_day Demo.world)) = [1%nat]
  /\ Bot.status
       (Bot.bot
          (Bot.run [Bot.Tick 1; Bot.Tick 1]
             (Bot.run [Bot.Start Demo.universe []]
                (Demo.machine Demo.first_day Demo.world))))
     = Bot.stopped.
Proof.
  pose proof (C1_ticks_guarded_by_run_state Demo.World Demo.venues
                described_indicators) as guarded.
  split; [|split; [|split; [|split; [|split]]]].
  - apply (proj1 (guarded (Demo.machine Demo.paused_bot Demo.world))).
    discriminate.
  - apply (proj2 (proj2 (guarded (Demo.machine Demo.fresh Demo.world))));
      reflexivity.
  - apply (proj1 (proj1 (proj2 (guarded
                      (Demo.machine (Bot.set_status Bot.running Demo.first_day)
                         Demo.world)))
                   true (Demo.alpaca_account Demo.world)
                   (Demo.kraken_account Demo.world) [] []
                   eq_refl eq_refl eq_refl eq_refl eq_refl eq_refl)).
    reflexivity.
  - apply (proj2 (proj1 (proj2 (guarded
                      (Demo.machine Demo.wide_bot Demo.world_after_loss)))
                   true (Demo.alpaca_account Demo.world_after_loss)
                   (Demo.kraken_account Demo.world_after_loss) [] []
                   eq_refl eq_refl eq_refl eq_refl eq_refl eq_refl));
      reflexivity.
  - reflexivity.
  - apply (proj2 (proj2 (guarded
                           (Bot.run [Bot.Start Demo.universe []]
                              (Demo.machine Demo.first_day Demo.world)))));
      reflexivity.
Defined.

(** ** Starting the bot *)

Section Start.

Context {W : Type} `{Venues W} `{TechnicalIndicators}.

Variable m : Bot.Machine W.
Variables (stockSymbols : list string) (cryptoConfigs : list CryptoConfig).

Lemma start_while_running :
  Bot.status (Bot.bot m) = Bot.running ->
  Bot.start stockSymbols cryptoConfigs m = (Ret false, m).
Proof. intro R. unfold Bot.start. now rewrite bind_this, R. Qed.

(** An unhealthy venue: [start()] answers [false] and changes nothing. *)
Lemma start_refused (alpacaOk krakenOk : bool) :
  alpaca_testConnection (Bot.world m) = Ret alpacaOk ->
  kraken_testConnection (Bot.world m) = Ret krakenOk ->
  alpacaOk && krakenOk = false ->
  Bot.start stockSymbols cryptoConfigs m = (Ret false, m).
Proof.
  intros A K F. unfold Bot.start. rewrite bind_this.
  destruct (Bot.Status_eqb (Bot.status (Bot.bot m)) Bot.running);
    [reflexivity|].
  rewrite (bind_query _ _ m _ A), (bind_query _ _ m _ K).
  destruct alpacaOk, krakenOk; try discriminate F; reflexivity.
Qed.

Lemma start_needs_venues :
  Bot.status (Bot.bot m) <> Bot.running ->
  Bot.status (Bot.bot (snd (Bot.start stockSymbols cryptoConfigs m)))
  = Bot.running ->
  alpaca_testConnection (Bot.world m) = Ret true
  /\ kraken_testConnection (Bot.world m) = Ret true.
Proof.
  intros N R.
  destruct (alpaca_testConnection (Bot.world m)) as [a|e] eqn:A.
  - destruct (kraken_testConnection (Bot.world m)) as [k|e] eqn:K.
    + destruct (a && k) eqn:F.
      * apply andb_true_iff in F. destruct F; subst. auto.
      * rewrite (start_refused a k A K F) in R. contradiction.
    + exfalso. apply N. revert R. unfold Bot.start. rewrite bind_this.
      destruct (Bot.Status_eqb (Bot.status (Bot.bot m)) Bot.running);
        [intro R; exact R|].
      rewrite (bind_query _ _ m _ A), (bind_query_throws _ _ m _ K).
      intro R; exact R.
  - exfalso. apply N. revert R. unfold Bot.start. rewrite bind_this.
    destruct (Bot.Status_eqb (Bot.status (Bot.bot m)) Bot.running);
      [intro R; exact R|].
    rewrite (bind_query_throws _ _ m _ A). intro R; exact R.
Qed.

End Start.

(** C3, as the code has it.  A bot that is not running becomes running through
    [start()] only if both venues answer their connectivity check with
    [true].  When a check answers [false], [start()] returns [false] and leaves
    the whole machine, the run state included, as it was: a stopped bot stays
    stopped and a paused bot stays paused. *)
Theorem C3_start_requires_healthy_venues :
  forall (W : Type) (V : Venues W) (T : TechnicalIndicators)
         (m : Bot.Machine W) (stockSymbols : list string)
         (cryptoConfigs : list CryptoConfig),
    (Bot.status (Bot.bot m) <> Bot.running ->
     Bot.status (Bot.bot (snd (Bot.start stockSymbols cryptoConfigs m)))
     = Bot.running ->
     alpaca_testConnection (Bot.world m) = Ret true
     /\ kraken_testConnection (Bot.world m) = Ret true)
    /\ (forall alpacaOk krakenOk : bool,
          alpaca_testConnection (Bot.world m) = Ret alpacaOk ->
          kraken_testConnection (Bot.world m) = Ret krakenOk ->
          alpacaOk && krakenOk = false ->
          Bot.start stockSymbols cryptoConfigs m = (Ret false, m)
          /\ Bot.status
               (Bot.bot (snd (Bot.start stockSymbols cryptoConfigs m)))
             = Bot.status (Bot.bot m)).
Proof.
  intros W V T m stocks cryptos. split.
  - apply start_needs_venues.
  - intros a k A K F.
    rewrite (start_refused m stocks cryptos a k A K F). auto.
Qed.

Lemma C3_start_requires_healthy_venues_witness :
  (alpaca_testConnection Demo.world = Ret true
   /\ kraken_testConnection Demo.world = Ret true)
  /\ Bot.start Demo.universe [] (Demo.machine Demo.fresh Demo.world_alpaca_down)
     = (Ret false, Demo.machine Demo.fresh Demo.world_alpaca_down).
Proof.
  split.
  - apply (proj1 (C3_start_requires_healthy_venues _ _ _
                    (Demo.machine Demo.paused_bot Demo.world)
                    Demo.universe [])).
    + discriminate.
    + reflexivity.
  - apply (proj2 (C3_start_requires_healthy_venues _ _ _
                    (Demo.machine Demo.fresh Demo.world_alpaca_down)
                    Demo.universe []) false true); reflexivity.
Defined.

(** A paused bot whose [start()] finds the Alpaca venue down is still paused
    afterwards, not stopped. *)
Lemma C3_paused_stays_paused :
  alpaca_testConnection Demo.world_alpaca_down = Ret false
  /\ Bot.status (Bot.bot (Demo.machine Demo.paused_bot Demo.world_alpaca_down))
     = Bot.paused
  /\ fst (Bot.start Demo.universe []
            (Demo.machine Demo.paused_bot Demo.world_alpaca_down))
     = Ret false
  /\ Bot.status
       (Bot.bot
          (snd (Bot.start Demo.universe []
                  (Demo.machine Demo.paused_bot Demo.world_alpaca_down))))
     = Bot.paused
  /\ Bot.status
       (Bot.bot
          (snd (Bot.start Demo.universe []
                  (Demo.machine Demo.paused_bot Demo.world_alpaca_down))))
     <> Bot.stopped.
Proof. repeat split; try reflexivity. discriminate. Qed.

(** ** The candidate loop *)

Section Candidates.

Context {W : Type} `{Venues W} `{TechnicalIndicators}.

Variable m : Bot.Machine W.
Variable opp : Scan.Signal.
Variable currentPositions : list Position.t.
Variable balance : num.

Hypothesis room :
  Risk.canOpenPosition (Bot.riskManager (Bot.bot m)) currentPositions
    (Scan.exchange opp) = true.
Hypothesis not_held :
  existsb (fun p => String.eqb (Position.symbol p) (Scan.symbol opp))
    currentPositions = false.

(** A stock candidate while the market is closed is skipped by [continue]:
    nothing is sent, counted or tracked. *)
Lemma executeTrade_market_closed :
  Scan.exchange opp = Alpaca ->
  alpaca_isMarketOpen (Bot.world m) = Ret false ->
  Bot.executeTrade opp currentPositions balance m = (Ret currentPositions, m).
Proof.
  intros E C. unfold Bot.executeTrade.
  rewrite bind_this, room, not_held. cbn [negb]. rewrite E.
  unfold Bot.try_catch. now rewrite (bind_query _ _ m _ C).
Qed.

(** A crypto candidate below the minimum order size: [executeBuyCrypto]
    returns without an order, and the loop still counts a trade and tracks a
    position. *)
Lemma executeTrade_below_minimum (krakenBalance : KrakenBalance)
  (minOrder : num) :
  Scan.exchange opp = Kraken ->
  kraken_getBalance (Bot.world m) = Ret krakenBalance ->
  kraken_getMinOrderSize (Bot.world m) (Scan.symbol opp) = Ret minOrder ->
  (Risk.calculateCryptoPositionSize (Bot.riskManager (Bot.bot m))
     (total krakenBalance) (Scan.currentPrice opp) <? minOrder)%num = true ->
  Bot.executeTrade opp currentPositions balance m
  = (Ret (currentPositions ++ [Position.tracking (Scan.symbol opp) Kraken]),
     snd (Bot.update Bot.count_trade m)).
Proof.
  intros E B M Q. unfold Bot.executeTrade.
  rewrite bind_this, room, not_held. cbn [negb]. rewrite E.
  unfold Bot.try_catch, Bot.executeBuyCrypto.
  rewrite bind_bind, (bind_query _ _ m _ B).
  rewrite bind_bind, bind_this.
  rewrite bind_bind, (bind_query _ _ m _ M), Q.
  rewrite bind_ret. unfold Bot.track. rewrite E. reflexivity.
Qed.

End Candidates.

(** C2, at a failing input.  The candidate is XRP at 0.50 on the crypto venue,
    the Kraken balance is 10 and the minimum order size is 2: the computed
    size is 0.28, below the minimum.  No order is sent, yet the loop counts
    one executed trade and appends the provisional position. *)
Theorem C2_below_minimum_still_recorded :
  Risk.calculateCryptoPositionSize Demo.riskManager (int 10) (of_Q (1 # 2))
  = of_Q (28 # 100)
  /\ kraken_getMinOrderSize Demo.world_small_account "XRP/EUR" = Ret (int 2)
  /\ Bot.tradesExecuted
       (Bot.stats (Bot.bot (Demo.machine Demo.running_bot
                              Demo.world_small_account))) = 0%nat
  /\ fst (Bot.executeTrades [Demo.candidate] [] (int 4010)
            (Demo.machine Demo.running_bot Demo.world_small_account))
     = Ret [Position.tracking "XRP/EUR" Kraken]
  /\ Bot.trace
       (snd (Bot.executeTrades [Demo.candidate] [] (int 4010)
               (Demo.machine Demo.running_bot Demo.world_small_account)))
     = []
  /\ Bot.tradesExecuted
       (Bot.stats
          (Bot.bot
             (snd (Bot.executeTrades [Demo.candidate] [] (int 4010)
                     (Demo.machine Demo.running_bot
                        Demo.world_small_account)))))
     = 1%nat.
Proof. repeat split; reflexivity. Qed.

(** ** One failing asset in a scan *)

Section OneFailure.

Context {W : Type} `{Venues W} `{TechnicalIndicators}.

Variable scanner : Scan.Scanner.
Variable w : W.

Lemma stock_signals (stockSymbols : list string) :
  List.length (filter (gives_signal (Scan.scanStock scanner w)) stockSymbols)
  = List.length (filter (gives_signal (scan scanner w))
                        (map StockAsset stockSymbols)).
Proof.
  induction stockSymbols as [|s rest IH]; simpl; [reflexivity|].
  change (gives_signal (scan scanner w) (StockAsset s))
    with (gives_signal (Scan.scanStock scanner w) s).
  destruct (gives_signal (Scan.scanStock scanner w) s); simpl; now rewrite IH.
Qed.

Lemma crypto_signals (cryptoConfigs : list CryptoConfig) :
  List.length (filter (gives_signal (Scan.scanCrypto scanner w)) cryptoConfigs)
  = List.length (filter (gives_signal (scan scanner w))
                        (map CryptoAsset cryptoConfigs)).
Proof.
  induction cryptoConfigs as [|c rest IH]; simpl; [reflexivity|].
  change (gives_signal (scan scanner w) (CryptoAsset c))
    with (gives_signal (Scan.scanCrypto scanner w) c).
  destruct (gives_signal (Scan.scanCrypto scanner w) c); simpl; now rewrite IH.
Qed.

Lemma scan_caught (a : Asset) (e : string) :
  scan_try scanner w a = Throw e -> scan scanner w a = Ret None.
Proof.
  destruct a as [s|c]; simpl; intro T.
  - now apply (scanStock_caught scanner w s e).
  - now apply (scanCrypto_caught scanner w c e).
Qed.

Lemma scanAll_one_failure (stockSymbols : list string)
  (cryptoConfigs : list CryptoConfig) (before after : list Asset) (a : Asset)
  (e : string) :
  universe_of stockSymbols cryptoConfigs = before ++ a :: after ->
  scan_try scanner w a = Throw e ->
  (forall b, In b (before ++ after) ->
             exists s, scan scanner w b = Ret (Some s)) ->
  exists results,
    Scan.scanAll scanner w stockSymbols cryptoConfigs = Ret results
    /\ S (List.length (Scan.all results))
       = (List.length stockSymbols + List.length cryptoConfigs)%nat
    /\ Scan.stats_total (Scan.stats results) = List.length (Scan.all results).
Proof.
  intros U T Others.
  destruct (scanAll_returns scanner w stockSymbols cryptoConfigs)
    as (results & R & L & St).
  exists results. split; [exact R|]. split; [|exact St].
  rewrite L, stock_signals, crypto_signals, <- length_app, <- filter_app.
  fold (universe_of stockSymbols cryptoConfigs). rewrite U.
  rewrite one_missing.
  - assert (N : List.length (universe_of stockSymbols cryptoConfigs)
                = (List.length stockSymbols + List.length cryptoConfigs)%nat)
      by (unfold universe_of; now rewrite length_app, !length_map).
    rewrite U in N. rewrite length_app in *. simpl in N. lia.
  - unfold gives_signal. now rewrite (scan_caught a e T).
  - intros b Hb. destruct (Others b Hb) as [s Hs].
    unfold gives_signal. now rewrite Hs.
Qed.

End OneFailure.

(** C4, as the code has it.  In a universe of N assets in which the scan of
    one asset throws while every other asset gives a signal, the failure is
    caught at that asset and gives "no signal", and [scanAll] returns with
    N - 1 signals, which is also the [total] of its statistics.  The scanner
    keeps no error count; run by the bot, the scan leaves the machine, and so
    the bot's own error counter, unchanged. *)
Theorem C4_scanAll_one_failure :
  forall (W : Type) (V : Venues W) (T : TechnicalIndicators)
         (scanner : Scan.Scanner) (w : W) (stockSymbols : list string)
         (cryptoConfigs : list CryptoConfig) (before after : list Asset)
         (a : Asset) (e : string),
    universe_of stockSymbols cryptoConfigs = before ++ a :: after ->
    scan_try scanner w a = Throw e ->
    (forall b, In b (before ++ after) ->
               exists s, scan scanner w b = Ret (Some s)) ->
    scan scanner w a = Ret None
    /\ exists results,
         Scan.scanAll scanner w stockSymbols cryptoConfigs = Ret results
         /\ S (List.length (Scan.all results))
            = (List.length stockSymbols + List.length cryptoConfigs)%nat
         /\ Scan.stats_total (Scan.stats results)
            = List.length (Scan.all results)
         /\ forall m : Bot.Machine W,
              Bot.world m = w ->
              Bot.query (fun w' => Scan.scanAll scanner w' stockSymbols
                                     cryptoConfigs) m
              = (Ret results, m).
Proof.
  intros W V T scanner w stocks cryptos before after a e U Th Others.
  split; [now apply (scan_caught scanner w a e)|].
  destruct (scanAll_one_failure scanner w stocks cryptos before after a e
              U Th Others) as (results & R & L & St).
  exists results. repeat (split; [assumption|]).
  intros m Wm. unfold Bot.query. now rewrite Wm, R.
Qed.

Lemma C4_scanAll_one_failure_witness :
  exists results,
    Scan.scanAll (Bot.scanner Demo.fresh) Demo.world Demo.universe []
    = Ret results
    /\ S (List.length (Scan.all results)) = 3%nat.
Proof.
  destruct (C4_scanAll_one_failure Demo.World Demo.venues described_indicators
              (Bot.scanner Demo.fresh) Demo.world Demo.universe []
              [StockAsset "AAPL"; StockAsset "MSFT"] [] (StockAsset "TSLA")
              "request timed out" eq_refl eq_refl)
    as (_ & results & R & L & _).
  - intros b [E|[E|[]]]; subst b; eexists; reflexivity.
  - exists results. split; [exact R|exact L].
Defined.

(** One of three stocks cannot be fetched.  The statistics of the scan read
    2, 0 and 2; after a whole cycle the bot holds two signals, and its error
    counter, the only one there is, reads 0. *)
Lemma C4_error_counter_stays_zero :
  alpaca_getHistoricalData Demo.world "TSLA" 100 = Throw "request timed out"
  /\ (exists results,
        Scan.scanAll (Bot.scanner Demo.running_bot) Demo.world Demo.universe []
        = Ret results
        /\ Scan.stats results
           = {| Scan.stats_total := 2; Scan.buyCount := 0; Scan.sellCount := 2 |})
  /\ Bot.errors (Bot.stats (Bot.bot (Demo.machine Demo.running_bot Demo.world)))
     = 0%nat
  /\ List.length
       (Bot.lastSignals
          (Bot.stats
             (Bot.bot
                (snd (Bot.runScanCycle
                        (Demo.machine Demo.running_bot Demo.world))))))
     = 2%nat
  /\ Bot.errors
       (Bot.stats
          (Bot.bot
             (snd (Bot.runScanCycle
                     (Demo.machine Demo.running_bot Demo.world)))))
     = 0%nat
  /\ Bot.errors
       (Bot.stats
          (Bot.bot
             (snd (Bot.runScanCycle
                     (Demo.machine Demo.running_bot Demo.world)))))
     <> 1%nat.
Proof.
  split; [reflexivity|]. split; [eexists; split; reflexivity|].
  repeat split; try reflexivity. discriminate.
Qed.

(* ================================================================== *)
(** * Further properties *)
(* ================================================================== *)

(** ** Signals *)

(** X1.  Too short a history: no indicator and a HOLD of strength 0, whatever the
    indicator package would compute. *)
Theorem short_history_gives_hold :
  forall (lib : list num -> num -> list num) (this : Strategy.RSIStrategy)
         (n : Z) (historicalData : list Bar),
    Strategy.period this = int n ->
    (Z.of_nat (List.length historicalData) < n + 1)%Z ->
    Strategy.calculateRSI lib this historicalData = None
    /\ Strategy.analyze lib this historicalData
       = {| Strategy.a_rsi := None; Strategy.a_signal := Strategy.HOLD;
            Strategy.a_strength := int 0 |}.
Proof.
  intros lib this n data P L.
  assert (E : Strategy.calculateRSI lib this data = None).
  { unfold Strategy.calculateRSI. rewrite P.
    assert (G : (int (Z.of_nat (List.length data)) <? int n + int 1)%num = true).
    { unfold int, of_Z, nadd, of_Q. apply nlt_fin. rewrite Qred_correct.
      rewrite <- inject_Z_plus, <- Zlt_Qlt. exact L. }
    now rewrite G. }
  split; [exact E|]. unfold Strategy.analyze. now rewrite E.
Qed.

Lemma short_history_gives_hold_witness :
  Strategy.analyze Indicator.RSI_calculate Demo.strategy
    (Demo.bars (repeat (int 100) 14))
  = {| Strategy.a_rsi := None; Strategy.a_signal := Strategy.HOLD;
       Strategy.a_strength := int 0 |}.
Proof.
  apply (proj2 (short_history_gives_hold Indicator.RSI_calculate Demo.strategy
                  14 (Demo.bars (repeat (int 100) 14)) eq_refl eq_refl)).
Defined.

Lemma Math_min_capped (x : num) :
  Math_min x (int 100) = NaN \/ (Math_min x (int 100) <=? int 100)%num = true.
Proof.
  destruct x as [q| | |]; try (now left); try (now right).
  right. change (int 100) with (Fin 100). unfold Math_min, ncmp.
  destruct (q ?= 100) eqn:C; simpl.
  - apply nle_fin. apply Qeq_alt in C. rewrite C. apply Qle_refl.
  - apply nle_fin. apply Qlt_alt in C. now apply Qlt_le_weak.
  - apply nle_fin. apply Qle_refl.
Qed.

(** X2.  The strength of a signal never exceeds 100, and a HOLD has strength 0.
    With finite thresholds, an indicator value between 0 and 100 gives a
    strength between 0 and 100. *)
Theorem strength_is_bounded :
  forall (this : Strategy.RSIStrategy) (rsi : option num),
    let s := Strategy.generateSignal this rsi in
    (Strategy.type s = Strategy.HOLD -> Strategy.strength s = int 0)
    /\ (Strategy.strength s = NaN
        \/ (Strategy.strength s <=? int 100)%num = true)
    /\ (forall v o b : Q,
          rsi = Some (Fin v) -> 0 <= v <= 100 ->
          Strategy.oversold this = Fin o ->
          Strategy.overbought this = Fin b ->
          exists q, Strategy.strength s = Fin q /\ 0 <= q <= 100).
Proof.
  intros this rsi s. unfold s, Strategy.generateSignal.
  split; [|split].
  - destruct rsi as [r|]; [|reflexivity].
    destruct (r <? Strategy.oversold this)%num; [discriminate|].
    destruct (r >? Strategy.overbought this)%num; [discriminate|reflexivity].
  - destruct rsi as [r|]; [|now right].
    destruct (r <? Strategy.oversold this)%num; [apply Math_min_capped|].
    destruct (r >? Strategy.overbought this)%num; [apply Math_min_capped|].
    now right.
  - intros v o b E [V0 V1] O B. subst rsi. rewrite O, B.
    change (int 100) with (Fin 100). change (int 0) with (Fin 0).
    destruct (Fin v <? Fin o)%num eqn:Lo; cbn [Strategy.strength].
    + apply nlt_fin in Lo. assert (N : ~ o == 0) by lra.
      rewrite nsub_fin. unfold of_Q. rewrite (ratio_times_100 _ o N).
      assert (R : 0 <= Qred (o - v) / o * 100 <= 100).
      { apply ratio_bounds; [lra|]. rewrite Qred_correct. lra. }
      destruct (clamp_in_range _ R) as [E1 _]. rewrite E1.
      exists (Qred (Qred (o - v) / o * 100)). split; [reflexivity|].
      rewrite Qred_correct. exact R.
    + destruct (Fin v >? Fin b)%num eqn:Hi; cbn [Strategy.strength].
      * apply ngt_fin in Hi. rewrite !nsub_fin. unfold of_Q.
        assert (N : ~ Qred (100 - b) == 0) by (rewrite Qred_correct; lra).
        rewrite (ratio_times_100 _ _ N).
        assert (R : 0 <= Qred (v - b) / Qred (100 - b) * 100 <= 100).
        { apply ratio_bounds; rewrite !Qred_correct; lra. }
        destruct (clamp_in_range _ R) as [E1 _]. rewrite E1.
        exists (Qred (Qred (v - b) / Qred (100 - b) * 100)).
        split; [reflexivity|]. rewrite Qred_correct. exact R.
      * exists 0. split; [reflexivity|]. lra.
Qed.

Lemma strength_is_bounded_witness :
  exists q,
    Strategy.strength (Strategy.generateSignal Demo.strategy (Some (Fin 20)))
    = Fin q /\ 0 <= q <= 100.
Proof.
  apply (proj2 (proj2 (strength_is_bounded Demo.strategy (Some (Fin 20))))
           20 30 70 eq_refl
           (conj (Qle_bool_imp_le 0 20 eq_refl) (Qle_bool_imp_le 20 100 eq_refl))
           eq_refl eq_refl).
Defined.

Lemma ratio_monotone (a a' b : Q) :
  0 < b -> a <= a' -> a / b * 100 <= a' / b * 100.
Proof.
  intros B L. unfold Qdiv.
  assert (I : 0 < / b) by now apply Qinv_lt_0_compat.
  assert (M : a * / b <= a' * / b)
    by (apply Qmult_le_compat_r; [exact L | now apply Qlt_le_weak]).
  lra.
Qed.

(** X3.  The further below the oversold threshold, the stronger the BUY; the
    further above the overbought threshold, the stronger the SELL. *)
Theorem strength_grows_with_distance :
  forall (this : Strategy.RSIStrategy) (o b v v' : Q),
    Strategy.oversold this = Fin o ->
    Strategy.overbought this = Fin b ->
    (0 <= v <= v' -> v' < o ->
     let weak := Strategy.generateSignal this (Some (Fin v')) in
     let strong := Strategy.generateSignal this (Some (Fin v)) in
     Strategy.type weak = Strategy.BUY /\ Strategy.type strong = Strategy.BUY
     /\ (Strategy.strength weak <=? Strategy.strength strong)%num = true)
    /\ (o <= v -> b < v -> v <= v' <= 100 ->
        let weak := Strategy.generateSignal this (Some (Fin v)) in
        let strong := Strategy.generateSignal this (Some (Fin v')) in
        Strategy.type weak = Strategy.SELL
        /\ Strategy.type strong = Strategy.SELL
        /\ (Strategy.strength weak <=? Strategy.strength strong)%num = true).
Proof.
  intros this o b v v' O B. unfold Strategy.generateSignal. rewrite O, B.
  change (int 100) with (Fin 100). split.
  - intros [V0 V] Lo.
    assert (L1 : (Fin v' <? Fin o)%num = true) by (apply nlt_fin; exact Lo).
    assert (L2 : (Fin v <? Fin o)%num = true) by (apply nlt_fin; lra).
    rewrite L1, L2. cbn [Strategy.strength Strategy.type].
    split; [reflexivity|]. split; [reflexivity|].
    assert (N : ~ o == 0) by lra.
    rewrite !nsub_fin. unfold of_Q. rewrite !(ratio_times_100 _ o N).
    assert (R : 0 <= Qred (o - v) / o * 100 <= 100).
    { apply ratio_bounds; [lra|]. rewrite Qred_correct. lra. }
    assert (R' : 0 <= Qred (o - v') / o * 100 <= 100).
    { apply ratio_bounds; [lra|]. rewrite Qred_correct. lra. }
    rewrite (proj1 (clamp_in_range _ R)), (proj1 (clamp_in_range _ R')).
    unfold of_Q. apply nle_fin. rewrite !Qred_correct.
    apply ratio_monotone; lra.
  - intros Ov Bv [V V1].
    assert (L1 : (Fin v <? Fin o)%num = false) by (apply nlt_fin_false; exact Ov).
    assert (L2 : (Fin v' <? Fin o)%num = false) by (apply nlt_fin_false; lra).
    assert (G1 : (Fin v >? Fin b)%num = true) by (apply ngt_fin; exact Bv).
    assert (G2 : (Fin v' >? Fin b)%num = true) by (apply ngt_fin; lra).
    rewrite L1, L2, G1, G2. cbn [Strategy.strength Strategy.type].
    split; [reflexivity|]. split; [reflexivity|].
    rewrite !nsub_fin. unfold of_Q.
    assert (N : ~ Qred (100 - b) == 0) by (rewrite Qred_correct; lra).
    rewrite !(ratio_times_100 _ _ N).
    assert (R : 0 <= Qred (v - b) / Qred (100 - b) * 100 <= 100).
    { apply ratio_bounds; rewrite !Qred_correct; lra. }
    assert (R' : 0 <= Qred (v' - b) / Qred (100 - b) * 100 <= 100).
    { apply ratio_bounds; rewrite !Qred_correct; lra. }
    rewrite (proj1 (clamp_in_range _ R)), (proj1 (clamp_in_range _ R')).
    unfold of_Q. apply nle_fin. rewrite !Qred_correct.
    apply ratio_monotone; lra.
Qed.

Lemma strength_grows_with_distance_witness :
  (Strategy.strength (Strategy.generateSignal Demo.strategy (Some (Fin 25)))
   <=? Strategy.strength (Strategy.generateSignal Demo.strategy (Some (Fin 10))))%num
  = true.
Proof.
  apply (proj1 (strength_grows_with_distance Demo.strategy 30 70 10 25
                  eq_refl eq_refl)
           (conj (Qle_bool_imp_le 0 10 eq_refl) (Qle_bool_imp_le 10 25 eq_refl))
           eq_refl).
Defined.

Lemma or_default_truthy (x d : num) :
  truthy d = true -> truthy (or_default x d) = true.
Proof. intro D. unfold or_default. destruct (truthy x) eqn:T; assumption. Qed.

Lemma key_or_truthy (x : option num) (d : num) :
  truthy d = true -> truthy (Strategy.key_or x d) = true.
Proof.
  intro D. destruct x as [v|]; simpl; [now apply or_default_truthy | exact D].
Qed.

(** X4.  No configuration gives a constructed strategy or risk manager a setting
    that is 0 or [NaN]: such a setting falls back to its default. *)
Theorem constructors_never_keep_a_falsy_setting :
  (forall config : Strategy.Options,
     let s := Strategy.constructor config in
     truthy (Strategy.period s) = true
     /\ truthy (Strategy.oversold s) = true
     /\ truthy (Strategy.overbought s) = true)
  /\ (forall (parsed : Risk.Config) (today : string),
        let c := Risk.config (Risk.constructor parsed today) in
        truthy (Risk.capitalInicial c) = true
        /\ truthy (Risk.lucroMaximoDiario c) = true
        /\ truthy (Risk.perdaMaximaDiaria c) = true
        /\ truthy (Risk.agressividade c) = true
        /\ truthy (Risk.maxPosicoes c) = true
        /\ truthy (Risk.maxPosicoesStocks c) = true
        /\ truthy (Risk.maxPosicoesCrypto c) = true
        /\ truthy (Risk.stopLossPercent c) = true
        /\ truthy (Risk.takeProfitPercent c) = true)
  /\ (forall (riskManager : Risk.RiskManager) (config : Bot.Config),
        let s := Scan.strategy (Bot.scanner (Bot.constructor riskManager config)) in
        truthy (Strategy.period s) = true
        /\ truthy (Strategy.oversold s) = true
        /\ truthy (Strategy.overbought s) = true
        /\ (truthy (Bot.rsiPeriod config) = false -> Strategy.period s = int 14)
        /\ (truthy (Bot.rsiPeriod config) = true
            -> Strategy.period s = Bot.rsiPeriod config)).
Proof.
  split; [|split].
  - intro config. simpl. repeat split; now apply key_or_truthy.
  - intros parsed today. simpl. repeat split; now apply or_default_truthy.
  - intros rm config. simpl.
    split; [now apply or_default_truthy|].
    split; [now apply or_default_truthy|].
    split; [now apply or_default_truthy|].
    unfold or_default. split; intro T; rewrite T; simpl; [reflexivity|].
    now rewrite T.
Qed.

(** ** Limits and sizes *)

Lemma nge_fin (a b : Q) : nge (Fin a) (Fin b) = true <-> b <= a.
Proof.
  unfold nge, ncmp. rewrite Qge_alt.
  destruct (a ?= b); split; intro; congruence.
Qed.

Lemma bool_iff (x y : bool) (P Q' : Prop) :
  (x = true <-> P) -> (y = true <-> Q') ->
  ((if x then true else if y then true else false) = true <-> P \/ Q').
Proof.
  intros X Y. destruct x, y; split; intro G; try reflexivity; tauto.
Qed.

Section DailyLimits.

Variable this : Risk.RiskManager.
Variables s L P : Q.
Hypothesis start_balance : Risk.startBalance (Risk.dailyStats this) = Fin s.
Hypothesis profit_limit : Risk.lucroMaximoDiario (Risk.config this) = Fin L.
Hypothesis loss_limit : Risk.perdaMaximaDiaria (Risk.config this) = Fin P.

Lemma shouldStopTrading_after_update (b : Q) :
  Risk.shouldStopTrading (Risk.updateDailyPnL this (Fin b)) = true
  <-> L <= b - s \/ b - s <= - P.
Proof.
  unfold Risk.shouldStopTrading, Risk.hasHitDailyProfitLimit,
    Risk.hasHitDailyLossLimit, Risk.updateDailyPnL. cbn [Risk.dailyStats
    Risk.config Risk.currentPnL]. rewrite start_balance, profit_limit, loss_limit.
  rewrite nsub_fin. unfold of_Q, nneg, of_Q.
  apply bool_iff.
  - rewrite nge_fin, Qred_correct. reflexivity.
  - rewrite nle_fin, !Qred_correct. reflexivity.
Qed.

End DailyLimits.

(** X5.  After the P&L update of a cycle, trading stops exactly when the balance
    has risen by the daily profit limit or fallen by the daily loss limit,
    both ends included. *)
Theorem daily_limits_in_terms_of_balance :
  forall (this : Risk.RiskManager) (s L P b : Q),
    Risk.startBalance (Risk.dailyStats this) = Fin s ->
    Risk.lucroMaximoDiario (Risk.config this) = Fin L ->
    Risk.perdaMaximaDiaria (Risk.config this) = Fin P ->
    Risk.currentPnL (Risk.dailyStats (Risk.updateDailyPnL this (Fin b)))
    = of_Q (b - s)
    /\ (Risk.shouldStopTrading (Risk.updateDailyPnL this (Fin b)) = true
        <-> s + L <= b \/ b <= s - P).
Proof.
  intros this s L P b S HL HP. split.
  - unfold Risk.updateDailyPnL. cbn [Risk.dailyStats Risk.currentPnL].
    rewrite S. apply nsub_fin.
  - rewrite (shouldStopTrading_after_update this s L P S HL HP b).
    split; intros [H|H]; [left|right|left|right]; lra.
Qed.

Lemma daily_limits_in_terms_of_balance_witness :
  Risk.shouldStopTrading (Risk.updateDailyPnL Demo.riskManager (Fin 4800)) = true
  <-> 5000 + 500 <= 4800 \/ 4800 <= 5000 - 200.
Proof.
  exact (proj2 (daily_limits_in_terms_of_balance Demo.riskManager 5000 500 200
                  4800 eq_refl eq_refl eq_refl)).
Defined.

(** X6.  When the daily loss limit is at most 5% of the start balance, every
    balance that trips the circuit breaker has already reached the loss limit:
    the cycle stops the bot at the limit check and sends no liquidation
    order. *)
Theorem loss_limit_masks_circuit_breaker :
  forall (W : Type) (V : Venues W) (T : TechnicalIndicators)
         (m : Bot.Machine W) (s L P a k : Q) (marketOpen : bool)
         (alpacaBalance : AlpacaBalance) (krakenBalance : KrakenBalance)
         (alpacaPositions krakenPositions : list Position.t),
    let this := Bot.riskManager (Bot.bot m) in
    Risk.startBalance (Risk.dailyStats this) = Fin s ->
    Risk.lucroMaximoDiario (Risk.config this) = Fin L ->
    Risk.perdaMaximaDiaria (Risk.config this) = Fin P ->
    0 < s ->
    P <= (5 # 100) * s ->
    (forall b : Q,
       Risk.checkCircuitBreaker (Risk.updateDailyPnL this (Fin b)) (Fin b) = true ->
       Risk.shouldStopTrading (Risk.updateDailyPnL this (Fin b)) = true)
    /\ (Bot.status (Bot.bot m) = Bot.running ->
        alpaca_isMarketOpen (Bot.world m) = Ret marketOpen ->
        alpaca_getBalance (Bot.world m) = Ret alpacaBalance ->
        kraken_getBalance (Bot.world m) = Ret krakenBalance ->
        alpaca_getPositions (Bot.world m) = Ret alpacaPositions ->
        kraken_getPositions (Bot.world m) = Ret krakenPositions ->
        portfolioValue alpacaBalance = Fin a ->
        total krakenBalance = Fin k ->
        a + k <= (95 # 100) * s ->
        Bot.status (Bot.bot (snd (Bot.runScanCycle m))) = Bot.stopped
        /\ Bot.trace (snd (Bot.runScanCycle m)) = Bot.trace m).
Proof.
  intros W V T m s L P a k mo ab kb ap kp this S HL HP Spos Small.
  assert (Masked : forall b : Q,
             b <= (95 # 100) * s ->
             Risk.shouldStopTrading (Risk.updateDailyPnL this (Fin b)) = true).
  { intros b B.
    apply (shouldStopTrading_after_update this s L P S HL HP b). right. lra. }
  split.
  - intros b C. apply Masked.
    assert (S' : Risk.startBalance
                   (Risk.dailyStats (Risk.updateDailyPnL this (Fin b))) = Fin s)
      by exact S.
    apply (checkCircuitBreaker_iff _ s S' Spos b) in C.
    now apply (lossPercent_threshold s Spos b).
  - intros R Hm Ha Hk Hpa Hpk Ea Ek B.
    assert (Stop : Risk.shouldStopTrading
                     (Risk.updateDailyPnL (Bot.riskManager (Bot.bot m))
                        (portfolioValue ab + total kb)%num) = true).
    { rewrite Ea, Ek. unfold nadd, of_Q.
      apply (shouldStopTrading_after_update this s L P S HL HP). right.
      rewrite Qred_correct. lra. }
    rewrite (cycle_halts_on_daily_limit m mo ab kb ap kp R Hm Ha Hk Hpa Hpk Stop).
    cbn [snd].
    destruct (stop_effect
                (snd (Bot.update
                        (fun b0 : Bot.TradingBot =>
                           Bot.set_riskManager
                             (Risk.updateDailyPnL (Bot.riskManager b0)
                                (portfolioValue ab + total kb)%num) b0) m)))
      as (St & _ & Tr & _).
    split; [exact St | exact Tr].
Qed.

Lemma loss_limit_masks_circuit_breaker_witness :
  Bot.status
    (Bot.bot
       (snd (Bot.runScanCycle
               (Demo.machine Demo.running_bot Demo.world_after_loss))))
  = Bot.stopped
  /\ Bot.trace
       (snd (Bot.runScanCycle
               (Demo.machine Demo.running_bot Demo.world_after_loss)))
     = [].
Proof.
  apply (proj2 (loss_limit_masks_circuit_breaker Demo.World Demo.venues
                  described_indicators
                  (Demo.machine Demo.running_bot Demo.world_after_loss)
                  5000 500 200 3700 1000 true
                  (Demo.alpaca_account Demo.world_after_loss)
                  (Demo.kraken_account Demo.world_after_loss) [] []
                  eq_refl eq_refl eq_refl eq_refl
                  (Qle_bool_imp_le 200 ((5 # 100) * 5000) eq_refl))
           eq_refl eq_refl eq_refl eq_refl eq_refl eq_refl eq_refl eq_refl
           (Qle_bool_imp_le (3700 + 1000) ((95 # 100) * 5000) eq_refl)).
Defined.

Lemma nge_int (a b : Z) : nge (int a) (int b) = true <-> (b <= a)%Z.
Proof. unfold int, of_Z. rewrite nge_fin, <- Zle_Qle. reflexivity. Qed.

Lemma nge_int_false (a b : Z) : nge (int a) (int b) = false <-> (a < b)%Z.
Proof.
  destruct (nge (int a) (int b)) eqn:E.
  - apply nge_int in E. split; [discriminate | lia].
  - split; [|reflexivity]. intros _.
    destruct (Z.lt_ge_cases a b) as [L|G]; [exact L|].
    apply nge_int in G. congruence.
Qed.

(** X7.  The session statistics: the two headrooms add up to the sum of the two
    limits, and trading is allowed exactly while both are positive. *)
Theorem risk_stats_headroom :
  forall (this : Risk.RiskManager) (p L P : Q),
    Risk.currentPnL (Risk.dailyStats this) = Fin p ->
    Risk.lucroMaximoDiario (Risk.config this) = Fin L ->
    Risk.perdaMaximaDiaria (Risk.config this) = Fin P ->
    let stats := Risk.getRiskStats this in
    Risk.profitLimitRemaining stats = of_Q (L - p)
    /\ Risk.lossLimitRemaining stats = of_Q (P + p)
    /\ (Risk.profitLimitRemaining stats + Risk.lossLimitRemaining stats)%num
       = of_Q (L + P)
    /\ (Risk.canTrade stats = true <-> 0 < L - p /\ 0 < P + p).
Proof.
  intros this p L P Hp HL HP stats. unfold stats, Risk.getRiskStats.
  cbn [Risk.profitLimitRemaining Risk.lossLimitRemaining Risk.canTrade].
  rewrite Hp, HL, HP.
  split; [reflexivity|]. split; [reflexivity|]. split.
  - rewrite nsub_fin. unfold nadd, of_Q. f_equal. apply Qred_complete.
    rewrite !Qred_correct. ring.
  - unfold Risk.shouldStopTrading, Risk.hasHitDailyProfitLimit,
      Risk.hasHitDailyLossLimit. rewrite Hp, HL, HP. unfold nneg, of_Q.
    destruct (Fin p >=? Fin L)%num eqn:A.
    + apply nge_fin in A. split; [discriminate|]. intros [B _]. lra.
    + destruct (Fin p <=? Fin (Qred (- P)))%num eqn:B.
      * apply nle_fin in B. rewrite Qred_correct in B.
        split; [discriminate|]. intros [_ C]. lra.
      * split; [|reflexivity]. intros _. split.
        -- destruct (Qlt_le_dec 0 (L - p)) as [G|G]; [exact G|].
           assert (T : (Fin p >=? Fin L)%num = true) by (apply nge_fin; lra).
           congruence.
        -- destruct (Qlt_le_dec 0 (P + p)) as [G|G]; [exact G|].
           assert (T : (Fin p <=? Fin (Qred (- P)))%num = true)
             by (apply nle_fin; rewrite Qred_correct; lra).
           congruence.
Qed.

Lemma risk_stats_headroom_witness :
  Risk.canTrade (Risk.getRiskStats Demo.riskManager) = true
  <-> 0 < 500 - 0 /\ 0 < 200 + 0.
Proof.
  exact (proj2 (proj2 (proj2 (risk_stats_headroom Demo.riskManager 0 500 200
                                eq_refl eq_refl eq_refl)))).
Defined.

Lemma canOpenPosition_iff (this : Risk.RiskManager) (k ks kc : Z) :
  Risk.maxPosicoes (Risk.config this) = int k ->
  Risk.maxPosicoesStocks (Risk.config this) = int ks ->
  Risk.maxPosicoesCrypto (Risk.config this) = int kc ->
  forall (ps : list Position.t) (e : Exchange),
    Risk.canOpenPosition this ps e = true
    <-> (Z.of_nat (List.length ps) < k)%Z
        /\ (Z.of_nat
              (List.length
                 (filter (fun p => Exchange_eqb (Position.exchange p) e) ps))
            < match e with Alpaca => ks | Kraken => kc end)%Z.
Proof.
  intros K KS KC ps e. unfold Risk.canOpenPosition, Risk.count_exchange.
  rewrite K, KS, KC.
  destruct (int (Z.of_nat (List.length ps)) >=? int k)%num eqn:A.
  - apply nge_int in A. split; [discriminate|]. intros [B _]. lia.
  - apply nge_int_false in A. destruct e; cbn [Exchange_eqb andb].
    + match goal with |- context [(?x >=? ?y)%num] =>
        destruct (x >=? y)%num eqn:B end.
      * apply nge_int in B. split; [discriminate|]. intros [_ C]. lia.
      * apply nge_int_false in B. split; [intros _; split; lia|reflexivity].
    + match goal with |- context [(?x >=? ?y)%num] =>
        destruct (x >=? y)%num eqn:B end.
      * apply nge_int in B. split; [discriminate|]. intros [_ C]. lia.
      * apply nge_int_false in B. split; [intros _; split; lia|reflexivity].
Qed.

(** X8.  A position may be opened exactly when the total is below the total limit
    and the count on the exchange is below that exchange's limit.  At the
    total limit nothing may be opened on either exchange, and what may be
    opened with one more position held may be opened without it. *)
Theorem canOpenPosition_limits :
  forall (this : Risk.RiskManager) (k ks kc : Z),
    Risk.maxPosicoes (Risk.config this) = int k ->
    Risk.maxPosicoesStocks (Risk.config this) = int ks ->
    Risk.maxPosicoesCrypto (Risk.config this) = int kc ->
    forall (currentPositions : list Position.t) (exchange : Exchange),
      let held :=
        Z.of_nat
          (List.length
             (filter (fun p => Exchange_eqb (Position.exchange p) exchange)
                     currentPositions)) in
      (Risk.canOpenPosition this currentPositions exchange = true
       <-> (Z.of_nat (List.length currentPositions) < k)%Z
           /\ (held < match exchange with Alpaca => ks | Kraken => kc end)%Z)
      /\ ((k <= Z.of_nat (List.length currentPositions))%Z ->
          Risk.canOpenPosition this currentPositions exchange = false)
      /\ (forall p : Position.t,
            Risk.canOpenPosition this (p :: currentPositions) exchange = true ->
            Risk.canOpenPosition this currentPositions exchange = true).
Proof.
  intros this k ks kc K KS KC.
  pose proof (canOpenPosition_iff this k ks kc K KS KC) as Iff.
  intros ps e held. split; [apply Iff|]. split.
  - intro G. destruct (Risk.canOpenPosition this ps e) eqn:C; [|reflexivity].
    apply Iff in C. lia.
  - intros p C. apply Iff in C. apply Iff. simpl in C.
    destruct (Exchange_eqb (Position.exchange p) e); simpl in C; lia.
Qed.

Lemma canOpenPosition_limits_witness :
  Risk.canOpenPosition Demo.riskManager
    (repeat (Position.tracking "AAPL" Alpaca) 5) Kraken = false.
Proof.
  apply (proj1 (proj2 (canOpenPosition_limits Demo.riskManager 5 3 3
                         eq_refl eq_refl eq_refl
                         (repeat (Position.tracking "AAPL" Alpaca) 5) Kraken))).
  discriminate.
Defined.

Lemma calculatePositionSize_at_least_one (this : Risk.RiskManager)
  (accountBalance price : num) :
  (Risk.calculatePositionSize this accountBalance price <? int 1)%num = false.
Proof.
  unfold Risk.calculatePositionSize.
  destruct (Risk.positionValue this accountBalance / price)%num as [q| | |];
    try reflexivity.
  unfold Math_floor.
  destruct (of_Z (Qfloor q) >? int 0)%num eqn:G; [|reflexivity].
  unfold of_Z, int in *. apply ngt_fin in G. rewrite <- Zlt_Qlt in G.
  apply nlt_fin_false. change 1 with (inject_Z 1). rewrite <- Zle_Qle. lia.
Qed.

Lemma Math_max_not_below (x : num) (y : Q) (bound : num) :
  (bound <=? Fin y)%num = true ->
  (Math_max x (Fin y) <? bound)%num = false.
Proof.
  intro B. destruct bound as [b| | |]; try discriminate B.
  - apply nle_fin in B. destruct x as [q| | |]; try reflexivity.
    + unfold Math_max, ncmp.
      destruct (q ?= y) eqn:C; apply nlt_fin_false.
      * apply Qeq_alt in C. lra.
      * exact B.
      * apply Qgt_alt in C. lra.
    + apply nlt_fin_false. exact B.
  - destruct x as [q| | |]; try reflexivity.
    unfold Math_max, ncmp. destruct (q ?= y); reflexivity.
Qed.

(** X9.  The size of a stock position is never below 1 and the size of a crypto
    position is never below 0.001, for any balance and price.  So
    [executeBuyStock] sends its order whenever the balance can be read, and
    [executeBuyCrypto] sends its order whenever the venue's minimum is at most
    0.001. *)
Theorem orders_not_declined_for_size :
  forall (W : Type) (V : Venues W) (T : TechnicalIndicators)
         (m : Bot.Machine W) (signal : Scan.Signal) (balance : num),
    let this := Bot.riskManager (Bot.bot m) in
    (forall accountBalance price : num,
       (Risk.calculatePositionSize this accountBalance price <? int 1)%num
       = false
       /\ (Risk.calculateCryptoPositionSize this accountBalance price
           <? of_Q (1 # 1000))%num = false)
    /\ (forall alpacaBalance : AlpacaBalance,
          alpaca_getBalance (Bot.world m) = Ret alpacaBalance ->
          Bot.trace (snd (Bot.executeBuyStock signal balance m))
          = Bot.trace m
            ++ [AlpacaBuy (Scan.symbol signal)
                  (Risk.calculatePositionSize this (cash alpacaBalance)
                     (Scan.currentPrice signal))])
    /\ (forall (krakenBalance : KrakenBalance) (minOrder : num),
          kraken_getBalance (Bot.world m) = Ret krakenBalance ->
          kraken_getMinOrderSize (Bot.world m) (Scan.symbol signal)
          = Ret minOrder ->
          (minOrder <=? of_Q (1 # 1000))%num = true ->
          Bot.trace (snd (Bot.executeBuyCrypto signal balance m))
          = Bot.trace m
            ++ [KrakenBuy (Scan.symbol signal)
                  (Risk.calculateCryptoPositionSize this (total krakenBalance)
                     (Scan.currentPrice signal))]).
Proof.
  intros W V T m signal balance this. split; [|split].
  - intros b p. split; [apply calculatePositionSize_at_least_one|].
    unfold Risk.calculateCryptoPositionSize.
    apply Math_max_not_below. reflexivity.
  - intros ab A. unfold Bot.executeBuyStock.
    rewrite (bind_query _ _ m _ A), bind_this.
    fold this. rewrite calculatePositionSize_at_least_one.
    unfold Bot.bind, Bot.order.
    destruct (alpaca_buy _ _ (Bot.world m)) as [[u|e] w']; reflexivity.
  - intros kb mo B M L. unfold Bot.executeBuyCrypto.
    rewrite (bind_query _ _ m _ B), bind_this, (bind_query _ _ m _ M).
    fold this. unfold Risk.calculateCryptoPositionSize at 1.
    rewrite (Math_max_not_below _ _ _ L).
    unfold Bot.bind, Bot.order.
    destruct (kraken_buy _ _ (Bot.world m)) as [[u|e] w']; reflexivity.
Qed.

Lemma orders_not_declined_for_size_witness :
  Bot.trace
    (snd (Bot.executeBuyStock
            {| Scan.symbol := "AAPL"; Scan.exchange := Alpaca;
               Scan.type := Scan.stock; Scan.currentPrice := int 100;
               Scan.rsi := int 10; Scan.signal := Strategy.BUY;
               Scan.strength := int 60; Scan.timestamp := 0 |}
            (int 5000) (Demo.machine Demo.running_bot Demo.world)))
  = [AlpacaBuy "AAPL" (int 1)].
Proof.
  apply (proj1 (proj2 (orders_not_declined_for_size Demo.World Demo.venues
                         described_indicators
                         (Demo.machine Demo.running_bot Demo.world)
                         {| Scan.symbol := "AAPL"; Scan.exchange := Alpaca;
                            Scan.type := Scan.stock;
                            Scan.currentPrice := int 100;
                            Scan.rsi := int 10; Scan.signal := Strategy.BUY;
                            Scan.strength := int 60; Scan.timestamp := 0 |}
                         (int 5000)))
           (Demo.alpaca_account Demo.world) eq_refl).
Defined.

(** ** Trade validation and configuration updates *)



(** X11.  [updateConfig] replaces the keys given and keeps every other key and the
    whole session; applying the same update twice changes nothing more.  It
    applies no default: a total limit of 0 or less, once stored, forbids every
    new position. *)
Theorem updateConfig_replaces_given_keys :
  forall (this : Risk.RiskManager) (newConfig : RiskManager.Patch),
    Risk.dailyStats (RiskManager.updateConfig this newConfig)
    = Risk.dailyStats this
    /\ RiskManager.updateConfig (RiskManager.updateConfig this newConfig)
         newConfig
       = RiskManager.updateConfig this newConfig
    /\ (RiskManager.agressividade newConfig = None ->
        Risk.positionValue (RiskManager.updateConfig this newConfig)
        = Risk.positionValue this)
    /\ (forall (k : Z) (currentPositions : list Position.t)
               (exchange : Exchange),
          RiskManager.maxPosicoes newConfig = Some (int k) ->
          (k <= 0)%Z ->
          Risk.canOpenPosition (RiskManager.updateConfig this newConfig)
            currentPositions exchange = false).
Proof.
  intros this newConfig. split; [reflexivity|]. split; [|split].
  - unfold RiskManager.updateConfig, RiskManager.spread. cbn.
    destruct newConfig as [a b c d e f g h i].
    destruct a, b, c, d, e, f, g, h, i; reflexivity.
  - intro A. unfold Risk.positionValue, RiskManager.updateConfig. cbn.
    now rewrite A.
  - intros k ps e K Le. unfold Risk.canOpenPosition, RiskManager.updateConfig.
    cbn. rewrite K. cbn [RiskManager.spread].
    assert (G : (int (Z.of_nat (List.length ps)) >=? int k)%num = true)
      by (apply nge_int; lia).
    now rewrite G.
Qed.

Lemma updateConfig_replaces_given_keys_witness :
  Risk.canOpenPosition
    (RiskManager.updateConfig Demo.riskManager
       {| RiskManager.capitalInicial := None;
          RiskManager.lucroMaximoDiario := None;
          RiskManager.perdaMaximaDiaria := None;
          RiskManager.agressividade := None;
          RiskManager.maxPosicoes := Some (int 0);
          RiskManager.maxPosicoesStocks := None;
          RiskManager.maxPosicoesCrypto := None;
          RiskManager.stopLossPercent := None;
          RiskManager.takeProfitPercent := None |})
    [] Alpaca = false.
Proof.
  apply (proj2 (proj2 (proj2 (updateConfig_replaces_given_keys Demo.riskManager
           {| RiskManager.capitalInicial := None;
              RiskManager.lucroMaximoDiario := None;
              RiskManager.perdaMaximaDiaria := None;
              RiskManager.agressividade := None;
              RiskManager.maxPosicoes := Some (int 0);
              RiskManager.maxPosicoesStocks := None;
              RiskManager.maxPosicoesCrypto := None;
              RiskManager.stopLossPercent := None;
              RiskManager.takeProfitPercent := None |}))) 0%Z [] Alpaca eq_refl).
  discriminate.
Defined.

(** ** Ranking by strength *)

Section Ranking.

Variable A : Type.
Variable key : A -> num.

(** The comparator [(a, b) => key(b) - key(a)]. *)
Let descending (a b : A) : num := (key b - key a)%num.

Let finite (a : A) : Prop := exists q, key a = Fin q.

(** [a] is at least as strong as [b]. *)
Let at_least (a b : A) : Prop := (key a >=? key b)%num = true.

Lemma insert_sorted_permutation (a : A) (l : list A) :
  Permutation (Scan.insert_sorted descending a l) (a :: l).
Proof.
  induction l as [|b rest IH]; simpl; [apply Permutation_refl|].
  destruct (descending a b >? int 0)%num.
  - apply perm_trans with (b :: a :: rest); [now apply perm_skip|apply perm_swap].
  - apply Permutation_refl.
Qed.

Lemma sort_permutation (l : list A) : Permutation (Scan.sort descending l) l.
Proof.
  induction l as [|a rest IH]; simpl; [apply perm_nil|].
  apply perm_trans with (a :: Scan.sort descending rest).
  - apply insert_sorted_permutation.
  - now apply perm_skip.
Qed.

Lemma descending_finite (a b : A) (x y : Q) :
  key a = Fin x -> key b = Fin y ->
  ((descending a b >? int 0)%num = true <-> x < y)
  /\ ((descending a b >? int 0)%num = false <-> y <= x).
Proof.
  intros Ka Kb. unfold descending. rewrite Ka, Kb, nsub_fin. unfold of_Q.
  change (int 0) with (Fin 0). rewrite ngt_fin, ngt_fin_false, !Qred_correct.
  split; split; intro; lra.
Qed.

Lemma at_least_finite (a b : A) (x y : Q) :
  key a = Fin x -> key b = Fin y -> (at_least a b <-> y <= x).
Proof. intros Ka Kb. unfold at_least. rewrite Ka, Kb. apply nge_fin. Qed.

Lemma insert_sorted_sorted (a : A) (l : list A) :
  finite a -> Forall finite l ->
  StronglySorted at_least l ->
  StronglySorted at_least (Scan.insert_sorted descending a l).
Proof.
  intros [x Ka] F S. induction S as [|b rest S IH Hb]; simpl.
  - constructor; constructor.
  - inversion F as [|? ? [y Kb] F']; subst.
    destruct (descending a b >? int 0)%num eqn:G.
    + apply (descending_finite a b x y Ka Kb) in G.
      constructor; [now apply IH|].
      apply (Permutation_Forall
               (Permutation_sym (insert_sorted_permutation a rest))).
      constructor; [|exact Hb].
      apply (at_least_finite b a y x Kb Ka). lra.
    + apply (descending_finite a b x y Ka Kb) in G.
      constructor; [now constructor|].
      constructor; [now apply (at_least_finite a b x y Ka Kb)|].
      rewrite Forall_forall in *. intros c Hc.
      destruct (F' c Hc) as [z Kc].
      apply (at_least_finite a c x z Ka Kc).
      pose proof (proj1 (at_least_finite b c y z Kb Kc) (Hb c Hc)). lra.
Qed.

Lemma sort_sorted (l : list A) :
  Forall finite l -> StronglySorted at_least (Scan.sort descending l).
Proof.
  induction 1 as [|a rest Fa F IH]; simpl; [constructor|].
  apply insert_sorted_sorted; [exact Fa| |exact IH].
  apply (Permutation_Forall (Permutation_sym (sort_permutation rest))).
  exact F.
Qed.

(** An element is only moved past strictly stronger ones. *)
Lemma passed_is_stronger (a b : A) (x : num) :
  (descending a b >? int 0)%num = true ->
  neqb (key a) x = true -> neqb (key b) x = false.
Proof.
  unfold descending. change (int 0) with (Fin 0).
  destruct (key a) as [p| | |], (key b) as [q| | |], x as [r| | |];
    try reflexivity; try discriminate.
  rewrite nsub_fin. unfold of_Q, neqb, ncmp. rewrite ngt_fin, Qred_correct.
  intros G E.
  destruct (p ?= r) eqn:C; try discriminate E. apply Qeq_alt in C.
  destruct (q ?= r) eqn:D; try reflexivity. apply Qeq_alt in D. lra.
Qed.

Lemma insert_sorted_stable (a : A) (l : list A) (x : num) :
  filter (fun s => neqb (key s) x) (Scan.insert_sorted descending a l)
  = filter (fun s => neqb (key s) x) (a :: l).
Proof.
  induction l as [|b rest IH]; [reflexivity|].
  cbn [Scan.insert_sorted].
  destruct (descending a b >? int 0)%num eqn:G; [|reflexivity].
  cbn [filter] in *. rewrite IH.
  destruct (neqb (key a) x) eqn:Ea; [|reflexivity].
  now rewrite (passed_is_stronger a b x G Ea).
Qed.

(** Entries of equal strength keep their order. *)
Lemma sort_stable (l : list A) (x : num) :
  filter (fun s => neqb (key s) x) (Scan.sort descending l)
  = filter (fun s => neqb (key s) x) l.
Proof.
  induction l as [|a rest IH]; [reflexivity|].
  cbn [Scan.sort fold_right].
  change (fold_right (Scan.insert_sorted descending) [] rest)
    with (Scan.sort descending rest).
  rewrite insert_sorted_stable. cbn [filter]. now rewrite IH.
Qed.

End Ranking.

Lemma sorted_app_split {A : Type} (R : A -> A -> Prop) (front back : list A) :
  StronglySorted R (front ++ back) ->
  forall a b, In a front -> In b back -> R a b.
Proof.
  induction front as [|x front IH]; intros S a b Ha Hb; [contradiction|].
  simpl in S. inversion S as [|? ? S' F]; subst.
  destruct Ha as [E|Ha].
  - subst x. rewrite Forall_forall in F. apply F. apply in_or_app. now right.
  - now apply (IH S').
Qed.

Lemma sorted_firstn {A : Type} (R : A -> A -> Prop) (n : nat) (l : list A) :
  StronglySorted R l -> StronglySorted R (firstn n l).
Proof.
  intro S. revert n. induction S as [|x l S IH F]; intros [|n]; simpl;
    try constructor.
  - apply IH.
  - rewrite Forall_forall in *. intros y Hy. apply F.
    rewrite <- (firstn_skipn n l). apply in_or_app. now left.
Qed.

Lemma filter_filter_length {A : Type} (f g : A -> bool) (l : list A) :
  (forall a, f a = true -> g a = false) ->
  (List.length (filter f l) + List.length (filter g l) <= List.length l)%nat.
Proof.
  intro D. induction l as [|a rest IH]; simpl; [lia|].
  destruct (f a) eqn:Fa.
  - rewrite (D a Fa). simpl. lia.
  - destruct (g a); simpl; lia.
Qed.

Lemma fulfilled_values_in {A B : Type} (scan : A -> Res (option B))
  (assets : list A) (v : B) :
  In v (Scan.fulfilled_values (Scan.allSettled (map scan assets))) ->
  exists a, In a assets /\ scan a = Ret (Some v).
Proof.
  induction assets as [|a rest IH]; simpl; [contradiction|].
  destruct (scan a) as [[u|]|e] eqn:E; simpl.
  - intros [Eu|H].
    + subst u. exists a. auto.
    + destruct (IH H) as (a' & I & S). exists a'. auto.
  - intro H. destruct (IH H) as (a' & I & S). exists a'. auto.
  - intro H. destruct (IH H) as (a' & I & S). exists a'. auto.
Qed.

Lemma filter_length_le {A : Type} (f : A -> bool) (l : list A) :
  (List.length (filter f l) <= List.length l)%nat.
Proof.
  induction l as [|a rest IH]; simpl; [lia|]. destruct (f a); simpl; lia.
Qed.

(** ** What a scan returns *)

Section ScanResults.

Context {W : Type} `{Venues W} `{TechnicalIndicators}.

Variable scanner : Scan.Scanner.
Variable w : W.

(** What stands behind a signal of a stock: at least twenty bars, a truthy
    price, and the analysis of those bars. *)
Lemma scanStock_signal (symbol : string) (s : Scan.Signal) :
  Scan.scanStock scanner w symbol = Ret (Some s) ->
  exists historicalData,
    alpaca_getHistoricalData w symbol 100 = Ret historicalData
    /\ (20 <= List.length historicalData)%nat
    /\ alpaca_getCurrentPrice w symbol = Ret (Some (Scan.currentPrice s))
    /\ truthy (Scan.currentPrice s) = true
    /\ Scan.symbol s = symbol
    /\ Scan.exchange s = Alpaca /\ Scan.type s = Scan.stock
    /\ Scan.signal s
       = Strategy.a_signal
           (Strategy.analyze RSI_calculate (Scan.strategy scanner)
              historicalData)
    /\ Scan.strength s
       = Strategy.a_strength
           (Strategy.analyze RSI_calculate (Scan.strategy scanner)
              historicalData).
Proof.
  unfold Scan.scanStock, Scan.scanStock_try.
  destruct (alpaca_getHistoricalData w symbol 100) as [data|e]; simpl;
    [|discriminate].
  destruct (Nat.ltb_spec (List.length data) 20) as [L|L]; [discriminate|].
  destruct (alpaca_getCurrentPrice w symbol) as [[price|]|e]; simpl;
    try discriminate.
  destruct (truthy price) eqn:T; [|discriminate].
  intro E. injection E as E. subst s. simpl.
  exists data. auto 10.
Qed.

Lemma scanCrypto_signal (cryptoConfig : CryptoConfig) (s : Scan.Signal) :
  Scan.scanCrypto scanner w cryptoConfig = Ret (Some s) ->
  exists historicalData,
    kraken_getAvailableSymbol w (pair cryptoConfig) (fallback cryptoConfig)
    = Ret (Some (Scan.symbol s))
    /\ kraken_getHistoricalData w (Scan.symbol s) 100 = Ret historicalData
    /\ (20 <= List.length historicalData)%nat
    /\ kraken_getCurrentPrice w (Scan.symbol s)
       = Ret (Some (Scan.currentPrice s))
    /\ truthy (Scan.currentPrice s) = true
    /\ Scan.exchange s = Kraken /\ Scan.type s = Scan.crypto
    /\ Scan.signal s
       = Strategy.a_signal
           (Strategy.analyze RSI_calculate (Scan.strategy scanner)
              historicalData)
    /\ Scan.strength s
       = Strategy.a_strength
           (Strategy.analyze RSI_calculate (Scan.strategy scanner)
              historicalData).
Proof.
  unfold Scan.scanCrypto, Scan.scanCrypto_try.
  destruct (kraken_getAvailableSymbol w (pair cryptoConfig)
              (fallback cryptoConfig)) as [[symbol|]|e]; simpl;
    try discriminate.
  destruct (kraken_getHistoricalData w symbol 100) as [data|e] eqn:D; simpl;
    [|discriminate].
  destruct (Nat.ltb_spec (List.length data) 20) as [L|L]; [discriminate|].
  destruct (kraken_getCurrentPrice w symbol) as [[price|]|e] eqn:P; simpl;
    try discriminate.
  destruct (truthy price) eqn:T; [|discriminate].
  intro E. injection E as E. subst s. simpl.
  exists data. auto 10.
Qed.

End ScanResults.

(** X12.  [scanAll] never returns more signals than there are assets, and every
    signal it returns rests on at least twenty bars and a truthy price of an
    asset of the universe: a stock signal carries its symbol with exchange
    Alpaca, a crypto signal carries the symbol Kraken resolved for an entry of
    the crypto list; signal and strength are those of the analysis of the
    bars. *)
Theorem scanAll_signals_are_grounded :
  forall (W : Type) (V : Venues W) (T : TechnicalIndicators)
         (scanner : Scan.Scanner) (w : W) (stockSymbols : list string)
         (cryptoConfigs : list CryptoConfig),
  exists results,
    Scan.scanAll scanner w stockSymbols cryptoConfigs = Ret results
    /\ (List.length (Scan.all results)
        <= List.length stockSymbols + List.length cryptoConfigs)%nat
    /\ forall s, In s (Scan.all results) ->
         truthy (Scan.currentPrice s) = true
         /\ exists historicalData,
              (20 <= List.length historicalData)%nat
              /\ Scan.signal s
                 = Strategy.a_signal
                     (Strategy.analyze RSI_calculate (Scan.strategy scanner)
                        historicalData)
              /\ Scan.strength s
                 = Strategy.a_strength
                     (Strategy.analyze RSI_calculate (Scan.strategy scanner)
                        historicalData)
              /\ ((In (Scan.symbol s) stockSymbols
                   /\ Scan.exchange s = Alpaca /\ Scan.type s = Scan.stock
                   /\ alpaca_getHistoricalData w (Scan.symbol s) 100
                      = Ret historicalData)
                  \/ ((exists c, In c cryptoConfigs
                                 /\ kraken_getAvailableSymbol w (pair c)
                                      (fallback c)
                                    = Ret (Some (Scan.symbol s)))
                      /\ Scan.exchange s = Kraken /\ Scan.type s = Scan.crypto
                      /\ kraken_getHistoricalData w (Scan.symbol s) 100
                         = Ret historicalData)).
Proof.
  intros W V T scanner w stocks cryptos.
  destruct (scanAll_returns scanner w stocks cryptos) as (results & R & L & _).
  exists results. split; [exact R|]. split.
  - rewrite L.
    pose proof (filter_length_le (gives_signal (Scan.scanStock scanner w)) stocks).
    pose proof (filter_length_le (gives_signal (Scan.scanCrypto scanner w))
                  cryptos).
    lia.
  - intros s I. unfold Scan.scanAll, Scan.scanStocks, Scan.scanCryptos in R.
    cbn [res_bind] in R. injection R as R. subst results. cbn [Scan.all] in I.
    apply in_app_or in I. destruct I as [I|I].
    + destruct (fulfilled_values_in _ _ _ I) as (symbol & Is & E).
      destruct (scanStock_signal scanner w symbol s E)
        as (data & D & Len & _ & Tr & Sy & Ex & Ty & Si & St).
      split; [exact Tr|]. exists data. subst symbol. auto 10.
    + destruct (fulfilled_values_in _ _ _ I) as (c & Ic & E).
      destruct (scanCrypto_signal scanner w c s E)
        as (data & Av & D & Len & _ & Tr & Ex & Ty & Si & St).
      split; [exact Tr|]. exists data.
      split; [exact Len|]. split; [exact Si|]. split; [exact St|].
      right. split; [exists c; auto|auto].
Qed.

(** X13.  The BUY and SELL lists of a scan hold BUY and SELL signals only, all of
    them signals of the scan; the counts are the lengths of the three lists,
    and the BUY and SELL counts together never exceed the total. *)
Theorem scanAll_partitions_and_counts :
  forall (W : Type) (V : Venues W) (T : TechnicalIndicators)
         (scanner : Scan.Scanner) (w : W) (stockSymbols : list string)
         (cryptoConfigs : list CryptoConfig),
  exists results,
    Scan.scanAll scanner w stockSymbols cryptoConfigs = Ret results
    /\ (forall s, In s (Scan.buy results)
                  <-> In s (Scan.all results) /\ Scan.signal s = Strategy.BUY)
    /\ (forall s, In s (Scan.sell results)
                  <-> In s (Scan.all results) /\ Scan.signal s = Strategy.SELL)
    /\ Scan.stats_total (Scan.stats results) = List.length (Scan.all results)
    /\ Scan.buyCount (Scan.stats results) = List.length (Scan.buy results)
    /\ Scan.sellCount (Scan.stats results) = List.length (Scan.sell results)
    /\ (Scan.buyCount (Scan.stats results) + Scan.sellCount (Scan.stats results)
        <= Scan.stats_total (Scan.stats results))%nat.
Proof.
  intros W V T scanner w stocks cryptos.
  eexists. split; [reflexivity|].
  cbn [Scan.all Scan.buy Scan.sell Scan.stats Scan.stats_total Scan.buyCount
       Scan.sellCount].
  set (all := (_ ++ _)).
  assert (In_sorted : forall t s,
             In s (Scan.sort Scan.by_strength (filter (Scan.is_signal t) all))
             <-> In s all /\ Scan.signal s = t).
  { intros t s. split.
    - intro I.
      apply (Permutation_in s (sort_permutation _ Scan.strength _)) in I.
      apply filter_In in I. destruct I as [I E]. split; [exact I|].
      unfold Scan.is_signal in E. destruct (Scan.signal s), t;
        try reflexivity; discriminate.
    - intros [I E].
      apply (Permutation_in s
               (Permutation_sym (sort_permutation _ Scan.strength _))).
      apply filter_In. split; [exact I|].
      unfold Scan.is_signal. rewrite E. destruct t; reflexivity. }
  split; [apply In_sorted|]. split; [apply In_sorted|].
  split; [reflexivity|].
  split; [symmetry; apply Permutation_length;
          apply (sort_permutation _ Scan.strength)|].
  split; [symmetry; apply Permutation_length;
          apply (sort_permutation _ Scan.strength)|].
  apply filter_filter_length. intros a E. unfold Scan.is_signal in *.
  destruct (Scan.signal a); try discriminate; reflexivity.
Qed.

(** X14.  The BUY and SELL lists of a scan are rearrangements of the BUY and SELL
    signals found, in which signals of equal strength keep the order of the
    scan; when the strengths are finite numbers, each list runs from the
    strongest signal to the weakest. *)
Theorem scanAll_ranks_by_strength :
  forall (W : Type) (V : Venues W) (T : TechnicalIndicators)
         (scanner : Scan.Scanner) (w : W) (stockSymbols : list string)
         (cryptoConfigs : list CryptoConfig),
  exists results,
    Scan.scanAll scanner w stockSymbols cryptoConfigs = Ret results
    /\ forall t,
         let found := filter (Scan.is_signal t) (Scan.all results) in
         let ranked :=
           match t with
           | Strategy.BUY => Some (Scan.buy results)
           | Strategy.SELL => Some (Scan.sell results)
           | Strategy.HOLD => None
           end in
         forall l, ranked = Some l ->
           Permutation l found
           /\ (forall x : num,
                 filter (fun s => neqb (Scan.strength s) x) l
                 = filter (fun s => neqb (Scan.strength s) x) found)
           /\ (Forall (fun s => exists q, Scan.strength s = Fin q) found ->
               StronglySorted
                 (fun a b => (Scan.strength a >=? Scan.strength b)%num = true)
                 l).
Proof.
  intros W V T scanner w stocks cryptos.
  eexists. split; [reflexivity|].
  intros t found ranked l E.
  assert (L : l = Scan.sort Scan.by_strength found).
  { destruct t; inversion E; reflexivity. }
  subst l. split; [apply (sort_permutation _ Scan.strength)|].
  split; [intro x; apply (sort_stable _ Scan.strength)|].
  apply (sort_sorted _ Scan.strength).
Qed.

Lemma scanAll_ranks_by_strength_witness :
  exists results,
    Scan.scanAll (Bot.scanner Demo.fresh) Demo.world Demo.universe []
    = Ret results
    /\ StronglySorted
         (fun a b => (Scan.strength a >=? Scan.strength b)%num = true)
         (Scan.sell results).
Proof.
  destruct (scanAll_ranks_by_strength Demo.World Demo.venues described_indicators
              (Bot.scanner Demo.fresh) Demo.world Demo.universe [])
    as (results & R & Ranked).
  exists results. split; [exact R|].
  destruct (Ranked Strategy.SELL (Scan.sell results) eq_refl) as (_ & _ & S).
  apply S. injection R as R. subst results.
  repeat constructor; eexists; reflexivity.
Defined.

(** X15.  [findBestOpportunities] returns at most [limit] signals, each one a
    signal of the input that is not a HOLD and has at least the minimum
    strength; together with the qualifying signals it leaves out it is a
    rearrangement of all qualifying signals.  When the strengths are finite, it
    runs from strongest to weakest and nothing left out is stronger than
    anything returned. *)
Theorem findBestOpportunities_takes_the_strongest :
  forall (signals : list Scan.Signal) (minStrength : num) (limit : nat),
    let qualifies s :=
      (Scan.strength s >=? minStrength)%num
      && negb (Scan.is_signal Strategy.HOLD s) in
    let best := Scan.findBestOpportunities signals minStrength limit in
    (List.length best <= limit)%nat
    /\ (forall s, In s best ->
                  In s signals
                  /\ (Scan.strength s >=? minStrength)%num = true
                  /\ Scan.signal s <> Strategy.HOLD)
    /\ exists left_out,
         Permutation (best ++ left_out) (filter qualifies signals)
         /\ (List.length (filter qualifies signals) <= limit -> left_out = [])%nat
         /\ (Forall (fun s => exists q, Scan.strength s = Fin q) signals ->
             StronglySorted
               (fun a b => (Scan.strength a >=? Scan.strength b)%num = true)
               best
             /\ forall a b, In a best -> In b left_out ->
                            (Scan.strength a >=? Scan.strength b)%num = true).
Proof.
  intros signals minStrength limit qualifies best.
  unfold best, Scan.findBestOpportunities. fold qualifies.
  set (ranked := Scan.sort Scan.by_strength (filter qualifies signals)).
  assert (P : Permutation ranked (filter qualifies signals))
    by apply (sort_permutation _ Scan.strength).
  split; [apply firstn_le_length|]. split.
  - intros s I.
    assert (I' : In s ranked).
    { rewrite <- (firstn_skipn limit ranked). apply in_or_app. now left. }
    apply (Permutation_in s P), filter_In in I'. destruct I' as [I' Q'].
    unfold qualifies in Q'. apply andb_true_iff in Q'. destruct Q' as [G N].
    split; [exact I'|]. split; [exact G|].
    intro E. unfold Scan.is_signal in N. rewrite E in N. discriminate.
  - exists (skipn limit ranked). split; [now rewrite firstn_skipn|]. split.
    + intro L. apply skipn_all2. rewrite (Permutation_length P). exact L.
    + intro F.
      assert (S : StronglySorted
                    (fun a b => (Scan.strength a >=? Scan.strength b)%num = true)
                    ranked).
      { apply (sort_sorted _ Scan.strength).
        rewrite Forall_forall in *. intros s I. apply filter_In in I.
        apply F. tauto. }
      split; [now apply sorted_firstn|].
      apply sorted_app_split. now rewrite firstn_skipn.
Qed.

Lemma findBestOpportunities_takes_the_strongest_witness :
  StronglySorted
    (fun a b => (Scan.strength a >=? Scan.strength b)%num = true)
    (Scan.findBestOpportunities [Demo.candidate] (int 50) 5).
Proof.
  destruct (findBestOpportunities_takes_the_strongest [Demo.candidate]
              (int 50) 5) as (_ & _ & left_out & _ & _ & S).
  apply S. repeat constructor. eexists; reflexivity.
Defined.

(** X16.  When every entry that is not HOLD has a finite strength,
    [sortByStrength] returns exactly those entries, each as often as given,
    from the strongest to the weakest, entries of equal strength in the order
    given.  When one of them has a strength that is not finite, the comparator
    is not consistent and the order is left to the implementation. *)
Theorem sortByStrength_ranks_non_hold :
  forall (Entry : Type) (signal : Entry -> Strategy.Signal)
         (signals : list Entry),
    let kept :=
      filter (fun s => negb (Strategy.SignalType_eqb
                               (Strategy.type (signal s)) Strategy.HOLD))
             signals in
    let strength s := Strategy.strength (signal s) in
    (Forall (fun s => exists q, strength s = Fin q) kept ->
     exists ranked,
       RSIStrategy.sortByStrength Entry signal signals = Some ranked
       /\ Permutation ranked kept
       /\ (forall x : num,
             filter (fun s => neqb (strength s) x) ranked
             = filter (fun s => neqb (strength s) x) kept)
       /\ StronglySorted (fun a b => (strength a >=? strength b)%num = true)
            ranked)
    /\ ((exists s, In s kept /\ isFinite (strength s) = false) ->
        RSIStrategy.sortByStrength Entry signal signals = None).
Proof.
  intros Entry signal signals kept strength. split.
  - intro F.
    assert (C : RSIStrategy.consistent Entry signal kept = true).
    { unfold RSIStrategy.consistent. apply forallb_forall. intros s I.
      destruct (proj1 (Forall_forall _ _) F s I) as [q E].
      unfold strength in E. now rewrite E. }
    exists (Scan.sort (RSIStrategy.by_strength Entry signal) kept).
    split.
    { unfold RSIStrategy.sortByStrength. fold kept. now rewrite C. }
    split; [apply (sort_permutation _ strength)|].
    split; [intro x; apply (sort_stable _ strength)|].
    apply (sort_sorted _ strength). exact F.
  - intros (s & I & N).
    unfold RSIStrategy.sortByStrength. fold kept.
    destruct (RSIStrategy.consistent Entry signal kept) eqn:C; [|reflexivity].
    unfold RSIStrategy.consistent in C.
    rewrite forallb_forall in C. specialize (C s I).
    unfold strength in N. congruence.
Qed.

Lemma sortByStrength_ranks_non_hold_witness :
  exists ranked,
    RSIStrategy.sortByStrength Strategy.Signal (fun s => s)
      [ {| Strategy.type := Strategy.BUY; Strategy.strength := int 20;
           Strategy.rsi := None |};
        {| Strategy.type := Strategy.HOLD; Strategy.strength := int 0;
           Strategy.rsi := None |};
        {| Strategy.type := Strategy.SELL; Strategy.strength := int 60;
           Strategy.rsi := None |} ]
    = Some ranked
    /\ StronglySorted
         (fun a b => (Strategy.strength a >=? Strategy.strength b)%num = true)
         ranked.
Proof.
  destruct (proj1 (sortByStrength_ranks_non_hold Strategy.Signal (fun s => s)
              [ {| Strategy.type := Strategy.BUY; Strategy.strength := int 20;
                   Strategy.rsi := None |};
                {| Strategy.type := Strategy.HOLD; Strategy.strength := int 0;
                   Strategy.rsi := None |};
                {| Strategy.type := Strategy.SELL; Strategy.strength := int 60;
                   Strategy.rsi := None |} ]))
    as (ranked & E & _ & _ & S).
  - repeat constructor; eexists; reflexivity.
  - exists ranked. split; [exact E|exact S].
Defined.

(** ** What the bot's operations change *)

Section Frames.

Context {W : Type} `{Venues W} `{TechnicalIndicators}.

Implicit Types m : Bot.Machine W.

Lemma cycle_refl m : Frame.cycle m m.
Proof.
  constructor; auto using incl_refl.
  exists []. now rewrite app_nil_r.
Qed.

Lemma cycle_trans m1 m2 m3 :
  Frame.cycle m1 m2 -> Frame.cycle m2 m3 -> Frame.cycle m1 m3.
Proof.
  intros [A1 A2 A3 A4 A5 A6 A7 A8 [A9 A9'] A10 A11 [s1 A12] A13 A14]
         [B1 B2 B3 B4 B5 B6 B7 B8 [B9 B9'] B10 B11 [s2 B12] B13 B14].
  constructor; try congruence; try lia.
  - eapply incl_tran; eassumption.
  - split; congruence.
  - destruct B10 as [B10|B10]; [|now right].
    destruct A10 as [A10|A10]; [left|right]; congruence.
  - destruct B11 as [B11|[Bt Bs]]; [now left|].
    destruct A11 as [A11|[At As]].
    + left. destruct B10 as [B10|B10]; congruence.
    + right. split; congruence.
  - exists (s1 ++ s2). rewrite B12, A12. now rewrite app_assoc.
Qed.

Lemma keeps_ret {A : Type} (a : A) : Frame.keeps (@Bot.ret W A a).
Proof. intro m. apply cycle_refl. Qed.

Lemma keeps_throw {A : Type} (e : string) : Frame.keeps (@Bot.throw W A e).
Proof. intro m. apply cycle_refl. Qed.

Lemma keeps_this : Frame.keeps (@Bot.this W).
Proof. intro m. apply cycle_refl. Qed.

Lemma keeps_query {A : Type} (f : W -> Res A) : Frame.keeps (Bot.query f).
Proof. intro m. apply cycle_refl. Qed.

Lemma keeps_bind {A B : Type} (c : @Bot.M W A) (k : A -> @Bot.M W B) :
  Frame.keeps c -> (forall a, Frame.keeps (k a)) -> Frame.keeps (Bot.bind c k).
Proof.
  intros C K m. unfold Bot.bind. pose proof (C m) as Cm.
  destruct (c m) as [[a|e] m']; simpl in *; [|exact Cm].
  eapply cycle_trans; [exact Cm | apply K].
Qed.

Lemma keeps_try_catch {A : Type} (body : @Bot.M W A) (handler : string -> @Bot.M W A) :
  Frame.keeps body -> (forall e, Frame.keeps (handler e)) ->
  Frame.keeps (Bot.try_catch body handler).
Proof.
  intros C K m. unfold Bot.try_catch. pose proof (C m) as Cm.
  destruct (body m) as [[a|e] m']; simpl in *; [exact Cm|].
  eapply cycle_trans; [exact Cm | apply K].
Qed.

Lemma keeps_order (c : Call) (f : W -> Res unit * W) :
  Frame.keeps (Bot.order c f).
Proof.
  intro m. unfold Bot.order. destruct (f (Bot.world m)) as [r w'].
  constructor; simpl; auto using incl_refl. now exists [c].
Qed.

Ltac frame_now :=
  let m := fresh "m" in
  intro m; constructor; simpl; auto using incl_refl;
  try (exists []; now rewrite app_nil_r).

Lemma keeps_count_trade : Frame.keeps (@Bot.update W Bot.count_trade).
Proof. frame_now. Qed.

Lemma keeps_count_error : Frame.keeps (@Bot.update W Bot.count_error).
Proof. frame_now. Qed.

Lemma keeps_record_scan (at_time : Z) (signals : list Scan.Signal) :
  Frame.keeps (@Bot.update W (Bot.record_scan at_time signals)).
Proof. frame_now. Qed.

Lemma keeps_updateDailyPnL (balance : num) :
  Frame.keeps
    (@Bot.update W
       (fun b => Bot.set_riskManager
                   (Risk.updateDailyPnL (Bot.riskManager b) balance) b)).
Proof. frame_now. Qed.

Lemma keeps_stop : Frame.keeps (@Bot.stop W).
Proof.
  intro m. unfold Bot.stop, Bot.bind, Bot.update, Bot.this. simpl.
  destruct (Bot.scanInterval (Bot.bot m)); simpl;
    (constructor; simpl; auto using incl_refl;
     try (exists []; now rewrite app_nil_r)).
  intros x I. apply filter_In in I. tauto.
Qed.

Ltac frame :=
  repeat first
    [ apply keeps_ret | apply keeps_throw | apply keeps_this
    | apply keeps_query | apply keeps_order | apply keeps_stop
    | apply keeps_count_trade | apply keeps_count_error
    | apply keeps_record_scan | apply keeps_updateDailyPnL
    | apply keeps_bind | apply keeps_try_catch
    | match goal with
      | |- forall _, _ => intro
      | |- Frame.keeps (let _ := _ in _) => cbv zeta
      | |- Frame.keeps (if ?x then _ else _) => destruct x
      | |- Frame.keeps (match ?x with _ => _ end) => destruct x
      end ].

Lemma keeps_getTotalBalance : Frame.keeps (@Bot.getTotalBalance W _).
Proof. unfold Bot.getTotalBalance. frame. Qed.

Lemma keeps_getAllPositions : Frame.keeps (@Bot.getAllPositions W _).
Proof. unfold Bot.getAllPositions. frame. Qed.

Lemma keeps_closePosition (position : Position.t) :
  Frame.keeps (@Bot.closePosition W _ position).
Proof. unfold Bot.closePosition. frame. Qed.

Lemma keeps_close_each (positions : list Position.t) :
  Frame.keeps (@Bot.close_each W _ positions).
Proof. induction positions as [|p l IH]; simpl; frame. exact IH. Qed.

Lemma keeps_closeAllPositions : Frame.keeps (@Bot.closeAllPositions W _).
Proof. unfold Bot.closeAllPositions. frame. apply keeps_close_each. Qed.

Lemma keeps_checkPositions (positions : list Position.t) :
  Frame.keeps (@Bot.checkPositions W _ positions).
Proof.
  induction positions as [|p l IH]; simpl; frame;
    try apply keeps_closePosition; try exact IH; frame.
Qed.

Lemma keeps_executeBuyStock (signal : Scan.Signal) (balance : num) :
  Frame.keeps (@Bot.executeBuyStock W _ signal balance).
Proof. unfold Bot.executeBuyStock. frame. Qed.

Lemma keeps_executeBuyCrypto (signal : Scan.Signal) (balance : num) :
  Frame.keeps (@Bot.executeBuyCrypto W _ signal balance).
Proof. unfold Bot.executeBuyCrypto. frame. Qed.

Lemma keeps_track (opp : Scan.Signal) (l : list Position.t) :
  Frame.keeps (@Bot.track W opp l).
Proof. unfold Bot.track. frame. Qed.

Lemma keeps_executeTrade (opp : Scan.Signal) (l : list Position.t)
  (balance : num) :
  Frame.keeps (@Bot.executeTrade W _ opp l balance).
Proof.
  unfold Bot.executeTrade. frame;
    try apply keeps_executeBuyStock; try apply keeps_executeBuyCrypto;
    frame; apply keeps_track.
Qed.

Lemma keeps_executeTrades_loop (opps : list Scan.Signal) :
  forall (l : list Position.t) (balance : num),
    Frame.keeps (@Bot.executeTrades_loop W _ opps l balance).
Proof.
  induction opps as [|o r IH]; simpl; intros; frame; apply IH.
Qed.

Lemma keeps_check_and_trade (balance : num) (positions : list Position.t) :
  Frame.keeps (@Bot.check_and_trade W _ _ balance positions).
Proof.
  unfold Bot.check_and_trade, Bot.executeTrades.
  repeat (frame;
          try first [ apply keeps_close_each | apply keeps_checkPositions
                    | apply keeps_executeTrades_loop ]).
Qed.

Lemma keeps_runScanCycle : Frame.keeps (@Bot.runScanCycle W _ _).
Proof.
  unfold Bot.runScanCycle, Bot.runScanCycle_try.
  apply keeps_bind; [apply keeps_this|intro b].
  destruct (negb _); [apply keeps_ret|].
  apply keeps_try_catch; [|intro; apply keeps_count_error].
  apply keeps_bind; [apply keeps_query|intros _].
  apply keeps_bind; [apply keeps_getTotalBalance|intro balance].
  apply keeps_bind; [apply keeps_getAllPositions|intro positions].
  apply keeps_bind; [apply keeps_updateDailyPnL|intros _].
  apply keeps_check_and_trade.
Qed.

Lemma runScanCycle_returns m : fst (Bot.runScanCycle m) = Ret tt.
Proof.
  unfold Bot.runScanCycle, Bot.bind, Bot.this, Bot.try_catch.
  destruct (negb _); [reflexivity|].
  destruct (Bot.runScanCycle_try m) as [[[]|e] m']; reflexivity.
Qed.

Lemma lifetime_refl m : Frame.lifetime m m.
Proof.
  constructor; auto. exists []. now rewrite app_nil_r.
Qed.

Lemma lifetime_trans m1 m2 m3 :
  Frame.lifetime m1 m2 -> Frame.lifetime m2 m3 -> Frame.lifetime m1 m3.
Proof.
  intros [A1 A2 A3 A4 [s1 A5] A6 A7 A8] [B1 B2 B3 B4 [s2 B5] B6 B7 B8].
  constructor; try congruence; try lia.
  - destruct B4 as [B4|B4]; [|now right].
    destruct A4 as [A4|A4]; [left|right]; congruence.
  - exists (s1 ++ s2). rewrite B5, A5. now rewrite app_assoc.
Qed.

Lemma cycle_lifetime m m' : Frame.cycle m m' -> Frame.lifetime m m'.
Proof.
  intros [A1 A2 A3 A4 A5 A6 A7 A8 A9 A10 A11 A12 A13 A14].
  constructor; auto. lia.
Qed.

Lemma lifetime_pause m : Frame.lifetime m (snd (Bot.pause m)).
Proof.
  unfold Bot.pause, Bot.bind, Bot.this, Bot.update, Bot.clearInterval, Bot.ret.
  simpl. destruct (negb _); simpl; [apply lifetime_refl|].
  destruct (Bot.scanInterval (Bot.bot m)); simpl;
    (constructor; simpl; auto; exists []; now rewrite app_nil_r).
Qed.

Lemma lifetime_start (stocks : list string) (cryptos : list CryptoConfig) m :
  Frame.lifetime m (snd (Bot.start stocks cryptos m)).
Proof.
  unfold Bot.start. rewrite bind_this.
  destruct (Bot.Status_eqb _ _); [apply lifetime_refl|].
  unfold Bot.bind at 1. unfold Bot.query at 1.
  destruct (alpaca_testConnection (Bot.world m)) as [a|e];
    [|apply lifetime_refl].
  unfold Bot.bind at 1. unfold Bot.query at 1.
  destruct (kraken_testConnection (Bot.world m)) as [k|e];
    [|apply lifetime_refl].
  destruct (negb a || negb k); [apply lifetime_refl|].
  unfold Bot.bind at 1.
  pose proof (keeps_getTotalBalance m) as B.
  destruct (Bot.getTotalBalance m) as [[balance|e] m1]; simpl in B;
    [|now apply cycle_lifetime].
  eapply lifetime_trans; [apply cycle_lifetime, B|]. clear B.
  unfold Bot.bind at 1. unfold Bot.query at 1.
  rewrite bind_update, bind_update, bind_update.
  set (m2 := snd (Bot.update _ (snd (Bot.update _ (snd (Bot.update _ m1)))))).
  assert (L : Frame.lifetime m1 m2).
  { subst m2. unfold Bot.update. simpl.
    constructor; simpl; auto; try (exists []; now rewrite app_nil_r).
    - unfold Risk.resetDailyStats. now destruct (negb _).
    - unfold Frame.session, Risk.resetDailyStats. simpl.
      destruct (negb _); simpl; auto. }
  eapply lifetime_trans; [exact L|]. clearbody m2. clear L.
  unfold Bot.bind at 1.
  pose proof (keeps_runScanCycle m2) as C.
  pose proof (runScanCycle_returns m2) as R.
  destruct (Bot.runScanCycle m2) as [r m3]. simpl in C, R. subst r.
  eapply lifetime_trans; [apply cycle_lifetime, C|].
  unfold Bot.bind, Bot.setInterval, Bot.update, Bot.ret. simpl.
  constructor; simpl; auto. exists []. now rewrite app_nil_r.
Qed.

Lemma lifetime_step (e : Bot.Event W) m : Frame.lifetime m (Bot.step e m).
Proof.
  destruct e as [stocks cryptos| | |t|change]; simpl.
  - apply lifetime_start.
  - apply lifetime_pause.
  - apply cycle_lifetime, keeps_stop.
  - destruct (existsb _ _); [|apply lifetime_refl].
    apply cycle_lifetime, keeps_runScanCycle.
  - constructor; simpl; auto. exists []. now rewrite app_nil_r.
Qed.

Lemma lifetime_run (events : list (Bot.Event W)) :
  forall m, Frame.lifetime m (Bot.run events m).
Proof.
  induction events as [|e l IH]; intro m; simpl.
  - apply lifetime_refl.
  - eapply lifetime_trans; [apply lifetime_step|apply IH].
Qed.

End Frames.

(** ** The orchestrator: cycles, sessions and the interval *)

(** X17.  A scan cycle never throws, whatever the venues do.  It sets no timer and
    leaves the risk configuration, the bot's configuration, the scanner, the
    universe and the session's start balance, date and trade count as they
    were; the run state is kept or becomes stopped, and the interval is kept
    unless the bot was stopped; orders are only added and no counter goes
    down. *)
Theorem runScanCycle_is_contained :
  forall (W : Type) (V : Venues W) (T : TechnicalIndicators) (m : Bot.Machine W),
    fst (Bot.runScanCycle m) = Ret tt
    /\ Frame.cycle m (snd (Bot.runScanCycle m)).
Proof.
  intros W V T m. split.
  - apply runScanCycle_returns.
  - apply keeps_runScanCycle.
Qed.

(** X18.  Over any run of starts, pauses, stops, ticks and outside changes the risk
    configuration, the bot's configuration and the scanner stay as they were,
    the session's trade count is kept or reset to zero, and neither counter
    goes down. *)
Theorem run_keeps_configuration :
  forall (W : Type) (V : Venues W) (T : TechnicalIndicators)
         (events : list (Bot.Event W)) (m : Bot.Machine W),
    Frame.lifetime m (Bot.run events m).
Proof. intros W V T events m. apply lifetime_run. Qed.

(** X19.  The session's trade count is never raised: for a bot as constructed,
    after any run of events the risk statistics report zero trades, however
    many trades the bot has counted as executed. *)
Theorem risk_stats_never_count_a_trade :
  forall (W : Type) (V : Venues W) (T : TechnicalIndicators)
         (parsed : Risk.Config) (today : string) (config : Bot.Config)
         (w : W) (events : list (Bot.Event W)),
    let m :=
      {| Bot.bot := Bot.constructor (Risk.constructor parsed today) config;
         Bot.world := w; Bot.trace := []; Bot.timers := [];
         Bot.next_timer := 0 |} in
    Risk.rs_tradesCount
      (Risk.getRiskStats (Bot.riskManager (Bot.bot (Bot.run events m))))
    = int 0.
Proof.
  intros W V T parsed today config w events m.
  destruct (lifetime_run events m) as [_ _ _ C _ _ _ _].
  unfold Frame.session in C. cbn [Risk.getRiskStats Risk.rs_tradesCount].
  destruct C as [C|C]; rewrite C; reflexivity.
Qed.

Section Schedule.

Context {W : Type} `{Venues W} `{TechnicalIndicators}.

Implicit Types m : Bot.Machine W.

(** The machine [start] hands to its first cycle. *)
Lemma start_reaches_cycle (stocks : list string) (cryptos : list CryptoConfig)
  m (alpacaBalance : AlpacaBalance) (krakenBalance : KrakenBalance) :
  Bot.status (Bot.bot m) <> Bot.running ->
  alpaca_testConnection (Bot.world m) = Ret true ->
  kraken_testConnection (Bot.world m) = Ret true ->
  alpaca_getBalance (Bot.world m) = Ret alpacaBalance ->
  kraken_getBalance (Bot.world m) = Ret krakenBalance ->
  let opened :=
    {| Bot.bot :=
         Bot.set_universe stocks cryptos
           (Bot.set_status Bot.running
              (Bot.set_riskManager
                 (Risk.resetDailyStats (Bot.riskManager (Bot.bot m))
                    (toDateString (Bot.world m))
                    (portfolioValue alpacaBalance + total krakenBalance)%num)
                 (Bot.bot m)));
       Bot.world := Bot.world m; Bot.trace := Bot.trace m;
       Bot.timers := Bot.timers m; Bot.next_timer := Bot.next_timer m |} in
  let cycled := snd (Bot.runScanCycle opened) in
  Bot.start stocks cryptos m
  = (Ret true,
     {| Bot.bot :=
          Bot.set_scanInterval (Some (Bot.next_timer cycled)) (Bot.bot cycled);
        Bot.world := Bot.world cycled; Bot.trace := Bot.trace cycled;
        Bot.timers := Bot.next_timer cycled :: Bot.timers cycled;
        Bot.next_timer := S (Bot.next_timer cycled) |}).
Proof.
  intros S TA TK BA BK opened cycled.
  unfold Bot.start. rewrite bind_this.
  destruct (Bot.status (Bot.bot m)) eqn:St; try congruence;
    cbn [Bot.Status_eqb];
    rewrite (bind_query _ _ m _ TA), (bind_query _ _ m _ TK);
    cbn [negb orb];
    unfold Bot.getTotalBalance;
    rewrite bind_bind, (bind_query _ _ m _ BA);
    rewrite bind_bind, (bind_query _ _ m _ BK); rewrite bind_ret;
    (unfold Bot.bind at 1; unfold Bot.query at 1);
    rewrite !bind_update;
    (unfold Bot.bind at 1);
    change (snd (Bot.update _ (snd (Bot.update _ (snd (Bot.update _ m))))))
      with opened;
    pose proof (runScanCycle_returns opened) as R;
    fold cycled; destruct (Bot.runScanCycle opened) as [r c] eqn:E;
    simpl in R; subst r; subst cycled; reflexivity.
Qed.

End Schedule.

(** X20.  A start with both venues healthy and both balances readable returns true
    and records a newly set interval, also when its first cycle has stopped
    the bot; the universe is the one given and the session is dated today.
    It clears no interval: if the bot is running afterwards, every interval
    that was set before is still set, and its ticks run cycles. *)
Theorem start_sets_a_fresh_interval :
  forall (W : Type) (V : Venues W) (T : TechnicalIndicators)
         (stocks : list string) (cryptos : list CryptoConfig)
         (m : Bot.Machine W)
         (alpacaBalance : AlpacaBalance) (krakenBalance : KrakenBalance),
    Bot.status (Bot.bot m) <> Bot.running ->
    alpaca_testConnection (Bot.world m) = Ret true ->
    kraken_testConnection (Bot.world m) = Ret true ->
    alpaca_getBalance (Bot.world m) = Ret alpacaBalance ->
    kraken_getBalance (Bot.world m) = Ret krakenBalance ->
    let m' := snd (Bot.start stocks cryptos m) in
    fst (Bot.start stocks cryptos m) = Ret true
    /\ Bot.scanInterval (Bot.bot m') = Some (Bot.next_timer m)
    /\ In (Bot.next_timer m) (Bot.timers m')
    /\ Bot.next_timer m' = S (Bot.next_timer m)
    /\ Bot.stockSymbols (Bot.bot m') = stocks
    /\ Bot.cryptoConfigs (Bot.bot m') = cryptos
    /\ Risk.startDate (Frame.session m') = toDateString (Bot.world m)
    /\ (Bot.status (Bot.bot m') = Bot.running
        \/ Bot.status (Bot.bot m') = Bot.stopped)
    /\ (Bot.status (Bot.bot m') = Bot.running ->
        Bot.timers m' = Bot.next_timer m :: Bot.timers m
        /\ forall t, In t (Bot.timers m) ->
             Bot.step (Bot.Tick t) m' = snd (Bot.runScanCycle m')).
Proof.
  intros W V T stocks cryptos m ab kb S TA TK BA BK m'.
  pose proof (start_reaches_cycle stocks cryptos m ab kb S TA TK BA BK) as E.
  cbv zeta in E. subst m'. rewrite E. clear E.
  match goal with |- context [Bot.runScanCycle ?o] => set (opened := o) end.
  destruct (keeps_runScanCycle opened)
    as [N _ _ _ D _ _ _ [U1 U2] St Sch _ _ _].
  set (cycled := snd (Bot.runScanCycle opened)) in *.
  cbn [fst snd Bot.bot Bot.timers Bot.next_timer Bot.set_scanInterval
       Bot.scanInterval Bot.stockSymbols Bot.cryptoConfigs Bot.status
       Frame.session Bot.riskManager].
  rewrite N. cbn [opened Bot.next_timer].
  split; [reflexivity|]. split; [reflexivity|]. split; [now left|].
  split; [reflexivity|]. split; [exact U1|]. split; [exact U2|].
  split.
  { unfold Frame.session in D.
    change (Risk.startDate
              (Risk.dailyStats (Bot.riskManager (Bot.bot cycled)))
            = toDateString (Bot.world m)).
    rewrite D. subst opened. simpl. apply resetDailyStats_date. }
  split; [exact St|].
  intro R. destruct Sch as [Sch|[Sch _]]; [congruence|].
  rewrite Sch. cbn [opened Bot.timers]. split; [reflexivity|].
  intros t I. cbn [Bot.step Bot.timers].
  replace (existsb (Nat.eqb t) (Bot.next_timer m :: Bot.timers m)) with true;
    [reflexivity|].
  symmetry. apply existsb_exists. exists t. split; [now right|].
  apply Nat.eqb_refl.
Qed.

Lemma start_sets_a_fresh_interval_witness :
  Bot.scanInterval
    (Bot.bot (snd (Bot.start Demo.universe []
                     (Demo.machine Demo.fresh Demo.world))))
  = Some 1%nat.
Proof.
  exact (proj1 (proj2
    (start_sets_a_fresh_interval Demo.World Demo.venues described_indicators
       Demo.universe [] (Demo.machine Demo.fresh Demo.world)
       (Demo.alpaca_account Demo.world) (Demo.kraken_account Demo.world)
       ltac:(discriminate) eq_refl eq_refl eq_refl eq_refl))).
Defined.

Lemma pause_running {W : Type} `{Venues W} `{TechnicalIndicators}
  (m : Bot.Machine W) :
  Bot.status (Bot.bot m) = Bot.running ->
  Bot.pause m
  = (Ret true,
     match Bot.scanInterval (Bot.bot m) with
     | Some t =>
         {| Bot.bot :=
              Bot.set_scanInterval None (Bot.set_status Bot.paused (Bot.bot m));
            Bot.world := Bot.world m; Bot.trace := Bot.trace m;
            Bot.timers :=
              filter (fun t' => negb (Nat.eqb t' t)) (Bot.timers m);
            Bot.next_timer := Bot.next_timer m |}
     | None =>
         {| Bot.bot := Bot.set_status Bot.paused (Bot.bot m);
            Bot.world := Bot.world m; Bot.trace := Bot.trace m;
            Bot.timers := Bot.timers m;
            Bot.next_timer := Bot.next_timer m |}
     end).
Proof.
  intro R. unfold Bot.pause. rewrite bind_this, R. cbn [Bot.Status_eqb negb].
  unfold Bot.bind, Bot.update, Bot.this, Bot.clearInterval, Bot.ret.
  cbn [Bot.bot Bot.set_status Bot.scanInterval].
  destruct (Bot.scanInterval (Bot.bot m)); reflexivity.
Qed.

(** X21.  Pausing a running bot returns true, marks it paused and cancels the
    interval it recorded: no order is sent and the world, the risk manager and
    the counters are untouched; afterwards no tick runs a cycle and a second
    pause is refused. *)
Theorem pause_cancels_the_interval :
  forall (W : Type) (V : Venues W) (T : TechnicalIndicators)
         (m : Bot.Machine W),
    Bot.status (Bot.bot m) = Bot.running ->
    let m' := snd (Bot.pause m) in
    fst (Bot.pause m) = Ret true
    /\ Bot.status (Bot.bot m') = Bot.paused
    /\ Bot.scanInterval (Bot.bot m') = None
    /\ (forall t, Bot.scanInterval (Bot.bot m) = Some t ->
                  ~ In t (Bot.timers m'))
    /\ incl (Bot.timers m') (Bot.timers m)
    /\ Bot.trace m' = Bot.trace m
    /\ Bot.world m' = Bot.world m
    /\ Bot.riskManager (Bot.bot m') = Bot.riskManager (Bot.bot m)
    /\ Bot.stats (Bot.bot m') = Bot.stats (Bot.bot m)
    /\ Bot.pause m' = (Ret false, m')
    /\ (forall t, Bot.step (Bot.Tick t) m' = m').
Proof.
  intros W V T m R m'.
  assert (N : Bot.status (Bot.bot m') <> Bot.running).
  { subst m'. rewrite (pause_running m R).
    destruct (Bot.scanInterval (Bot.bot m)); discriminate. }
  assert (K : Bot.pause m' = (Ret false, m')) by now apply pause_refused.
  assert (S : forall t, Bot.step (Bot.Tick t) m' = m').
  { intro t. cbn [Bot.step]. destruct (existsb _ _); [|reflexivity].
    now rewrite runScanCycle_skips. }
  split; [now rewrite (pause_running m R)|].
  split; [|split; [|split; [|split; [|split; [|split; [|split; [|split;
    [|split; [exact K|exact S]]]]]]]]];
    clear N K S; subst m'; rewrite (pause_running m R);
    destruct (Bot.scanInterval (Bot.bot m)) as [t|] eqn:E; simpl;
    try reflexivity; try discriminate; try apply incl_refl;
    try assumption.
  - intros t' E' I. injection E' as <-. apply filter_In in I.
    destruct I as [_ I]. now rewrite Nat.eqb_refl in I.
  - intros x I. apply filter_In in I. tauto.
Qed.

Lemma pause_cancels_the_interval_witness :
  Bot.status
    (Bot.bot (snd (Bot.pause (Demo.machine Demo.running_bot Demo.world))))
  = Bot.paused.
Proof.
  exact (proj1 (proj2
    (pause_cancels_the_interval Demo.World Demo.venues described_indicators
       (Demo.machine Demo.running_bot Demo.world) eq_refl))).
Defined.

(** X22.  Stopping cancels the interval the bot recorded and is idempotent: a
    second stop changes nothing. *)
Theorem stop_is_idempotent :
  forall (W : Type) (V : Venues W) (T : TechnicalIndicators)
         (m : Bot.Machine W),
    let m' := snd (Bot.stop m) in
    Bot.stop m' = (Ret true, m')
    /\ (forall t, Bot.scanInterval (Bot.bot m) = Some t ->
                  ~ In t (Bot.timers m'))
    /\ incl (Bot.timers m') (Bot.timers m).
Proof.
  intros W V T m m'. subst m'.
  unfold Bot.stop, Bot.bind, Bot.this, Bot.update, Bot.clearInterval, Bot.ret.
  simpl. destruct (Bot.scanInterval (Bot.bot m)) as [t|] eqn:E; simpl.
  - split; [reflexivity|]. split.
    + intros t' E' I. injection E' as <-. apply filter_In in I.
      destruct I as [_ I]. now rewrite Nat.eqb_refl in I.
    + intros x I. apply filter_In in I. tauto.
  - rewrite E. simpl. split; [destruct m as [[] ? ? ? ?]; simpl in *; now subst|].
    split; [discriminate|apply incl_refl].
Qed.

(** X23.  A bot cannot be restarted on the day a daily limit was reached: with the
    session already dated today the start balance is not read again, so a
    start at a balance beyond a limit returns true and sets its interval, yet
    its first cycle stops the bot at once; no order is sent and no tick runs
    a cycle afterwards. *)
Theorem restart_on_a_limit_day_stops_again :
  forall (W : Type) (V : Venues W) (T : TechnicalIndicators)
         (stocks : list string) (cryptos : list CryptoConfig)
         (m : Bot.Machine W) (marketOpen : bool)
         (alpacaBalance : AlpacaBalance) (krakenBalance : KrakenBalance)
         (alpacaPositions krakenPositions : list Position.t),
    Bot.status (Bot.bot m) <> Bot.running ->
    alpaca_testConnection (Bot.world m) = Ret true ->
    kraken_testConnection (Bot.world m) = Ret true ->
    alpaca_isMarketOpen (Bot.world m) = Ret marketOpen ->
    alpaca_getBalance (Bot.world m) = Ret alpacaBalance ->
    kraken_getBalance (Bot.world m) = Ret krakenBalance ->
    alpaca_getPositions (Bot.world m) = Ret alpacaPositions ->
    kraken_getPositions (Bot.world m) = Ret krakenPositions ->
    Risk.startDate (Frame.session m) = toDateString (Bot.world m) ->
    Risk.shouldStopTrading
      (Risk.updateDailyPnL (Bot.riskManager (Bot.bot m))
         (portfolioValue alpacaBalance + total krakenBalance)%num) = true ->
    let m' := snd (Bot.start stocks cryptos m) in
    fst (Bot.start stocks cryptos m) = Ret true
    /\ Bot.status (Bot.bot m') = Bot.stopped
    /\ Risk.startBalance (Frame.session m') = Risk.startBalance (Frame.session m)
    /\ Bot.trace m' = Bot.trace m
    /\ Bot.world m' = Bot.world m
    /\ Bot.scanInterval (Bot.bot m') = Some (Bot.next_timer m)
    /\ In (Bot.next_timer m) (Bot.timers m')
    /\ (forall t, Bot.step (Bot.Tick t) m' = m').
Proof.
  intros W V T stocks cryptos m mo ab kb ap kp S TA TK MO BA BK PA PK D L m'.
  pose proof (start_reaches_cycle stocks cryptos m ab kb S TA TK BA BK) as E.
  cbv zeta in E. unfold Frame.session in D.
  rewrite (resetDailyStats_same_day _ _ _ D) in E.
  match type of E with context [Bot.runScanCycle ?o] => set (opened := o) in E end.
  assert (C := cycle_halts_on_daily_limit opened mo ab kb ap kp
                 eq_refl MO BA BK PA PK L).
  rewrite C in E. clear C. cbn [snd] in E.
  match type of E with context [Bot.stop ?o] => set (seen := o) in E end.
  destruct (stop_effect seen) as (S1 & S2 & S3 & S4 & S5 & S6).
  destruct (keeps_stop seen) as [N _ _ _ _ _ _ _ _ _ _ _ _ _].
  set (halted := snd (Bot.stop seen)) in *.
  assert (St : Bot.status (Bot.bot m') = Bot.stopped).
  { subst m'. rewrite E. simpl. exact S1. }
  split; [now rewrite E|]. split; [exact St|].
  split.
  { subst m'. rewrite E. unfold Frame.session. simpl. now rewrite S6. }
  split; [subst m'; rewrite E; simpl; now rewrite S3|].
  split; [subst m'; rewrite E; simpl; now rewrite S4|].
  split; [subst m'; rewrite E; simpl; now rewrite N|].
  split; [subst m'; rewrite E; simpl; left; now rewrite N|].
  intro t. cbn [Bot.step]. destruct (existsb _ _); [|reflexivity].
  rewrite runScanCycle_skips; [reflexivity|congruence].
Qed.

Lemma restart_on_a_limit_day_stops_again_witness :
  Bot.status
    (Bot.bot (snd (Bot.start Demo.universe []
                     (Demo.machine Demo.fresh Demo.world_after_loss))))
  = Bot.stopped.
Proof.
  exact (proj1 (proj2
    (restart_on_a_limit_day_stops_again Demo.World Demo.venues
       described_indicators Demo.universe []
       (Demo.machine Demo.fresh Demo.world_after_loss) true
       (Demo.alpaca_account Demo.world_after_loss)
       (Demo.kraken_account Demo.world_after_loss) [] []
       ltac:(discriminate) eq_refl eq_refl eq_refl eq_refl eq_refl eq_refl
       eq_refl eq_refl eq_refl))).
Defined.

(** ** Closing and opening positions *)

Section Positions.

Context {W : Type} `{Venues W} `{TechnicalIndicators}.

Implicit Types m : Bot.Machine W.

(** A close inside [checkPositions]: the order goes out and whatever the
    venue or the log line throws is caught. *)
Lemma closePosition_caught (position : Position.t) m :
  exists w',
    Bot.try_catch (Bot.closePosition position) (fun _ => Bot.ret tt) m
    = (Ret tt,
       {| Bot.bot := Bot.bot m; Bot.world := w';
          Bot.trace := Bot.trace m ++ [Frame.close_call position];
          Bot.timers := Bot.timers m; Bot.next_timer := Bot.next_timer m |}).
Proof.
  unfold Bot.try_catch, Bot.closePosition, Frame.close_call, Bot.bind,
    Bot.order, Bot.ret, Bot.throw.
  destruct (Position.exchange position).
  - destruct (alpaca_closePosition (Position.symbol position) (Bot.world m))
      as [[[]|e] w']; exists w';
      [destruct (Position.profitLoss position)|]; reflexivity.
  - destruct (kraken_closePosition (Position.symbol position) (Bot.world m))
      as [[[]|e] w']; exists w';
      [destruct (Position.profitLoss position)|]; reflexivity.
Qed.

Lemma checkPositions_sends (positions : list Position.t) :
  forall m,
    fst (Bot.checkPositions positions m) = Ret tt
    /\ Bot.trace (snd (Bot.checkPositions positions m))
       = Bot.trace m
         ++ map Frame.close_call
              (filter (Risk.shouldClosePosition (Bot.riskManager (Bot.bot m)))
                      positions)
    /\ Bot.bot (snd (Bot.checkPositions positions m)) = Bot.bot m
    /\ Bot.timers (snd (Bot.checkPositions positions m)) = Bot.timers m
    /\ Bot.next_timer (snd (Bot.checkPositions positions m)) = Bot.next_timer m.
Proof.
  induction positions as [|p rest IH]; intro m.
  - simpl. rewrite app_nil_r. auto.
  - cbn [Bot.checkPositions filter]. rewrite bind_this.
    destruct (Risk.shouldClosePosition (Bot.riskManager (Bot.bot m)) p).
    + destruct (closePosition_caught p m) as [w' E].
      unfold Bot.bind. rewrite E. cbv beta iota.
      match goal with |- context [Bot.checkPositions rest ?x] =>
        destruct (IH x) as (I1 & I2 & I3 & I4 & I5) end.
      cbn [Bot.bot Bot.trace Bot.timers Bot.next_timer] in *.
      rewrite I1, I2, I3, I4, I5. cbn [map]. rewrite <- app_assoc.
      auto.
    + unfold Bot.bind. unfold Bot.ret at 1 2 3 4 5. cbv beta iota.
      destruct (IH m) as (I1 & I2 & I3 & I4 & I5). auto.
Qed.

End Positions.

(** X24.  The position check never throws and changes nothing of the bot.  It sends
    one close order for each position the risk manager wants closed, in the
    order of the list and to the position's own venue, and goes on to the next
    position when a close fails. *)
Theorem checkPositions_closes_what_is_due :
  forall (W : Type) (V : Venues W) (T : TechnicalIndicators)
         (positions : list Position.t) (m : Bot.Machine W),
    let m' := snd (Bot.checkPositions positions m) in
    fst (Bot.checkPositions positions m) = Ret tt
    /\ Bot.trace m'
       = Bot.trace m
         ++ map Frame.close_call
              (filter (Risk.shouldClosePosition (Bot.riskManager (Bot.bot m)))
                      positions)
    /\ Bot.bot m' = Bot.bot m.
Proof.
  intros W V T positions m m'.
  destruct (checkPositions_sends positions m) as (A & B & C & _).
  auto.
Qed.

Section Trades.

Context {W : Type} `{Venues W} `{TechnicalIndicators}.

Implicit Types m : Bot.Machine W.

(** One turn of the loop of [executeTrades]: it returns, and either nothing
    is recorded or the candidate passed the checks, is tracked and is counted; at
    most one order goes out, a buy. *)
Lemma executeTrade_outcome (opp : Scan.Signal) (l : list Position.t)
  (balance : num) m :
  let r := Bot.executeTrade opp l balance m in
  ((fst r = Ret l /\ Bot.bot (snd r) = Bot.bot m)
   \/ (fst r
       = Ret (l ++ [Position.tracking (Scan.symbol opp) (Scan.exchange opp)])
       /\ Bot.bot (snd r) = Bot.count_trade (Bot.bot m)
       /\ Risk.canOpenPosition (Bot.riskManager (Bot.bot m)) l
            (Scan.exchange opp) = true
       /\ existsb (fun p => String.eqb (Position.symbol p) (Scan.symbol opp)) l
          = false))
  /\ exists sent,
       Bot.trace (snd r) = Bot.trace m ++ sent
       /\ (List.length sent <= 1)%nat
       /\ forallb is_buy sent = true.
Proof.
  intro r. subst r. unfold Bot.executeTrade. rewrite bind_this.
  destruct (Risk.canOpenPosition _ _ _) eqn:C; cbn [negb];
    [|split; [left; split; reflexivity
             |exists []; rewrite app_nil_r; simpl; auto]].
  destruct (existsb _ l) eqn:E;
    [split; [left; split; reflexivity
            |exists []; rewrite app_nil_r; simpl; auto]|].
  unfold Bot.try_catch, Bot.executeBuyStock, Bot.executeBuyCrypto, Bot.track,
    Bot.bind, Bot.query, Bot.this, Bot.order, Bot.update, Bot.ret.
  destruct (Scan.exchange opp) eqn:X.
  - destruct (alpaca_isMarketOpen (Bot.world m)) as [[|]|e]; cbn [negb];
      try (split; [left; split; reflexivity
                  |exists []; rewrite app_nil_r; simpl; auto]).
    destruct (alpaca_getBalance (Bot.world m)) as [ab|e];
      try (split; [left; split; reflexivity
                  |exists []; rewrite app_nil_r; simpl; auto]).
    cbv zeta. cbn [Bot.bot].
    destruct (_ <? int 1)%num.
    + split; [right; simpl; auto|exists []; rewrite app_nil_r; simpl; auto].
    + destruct (alpaca_buy _ _ _) as [[[]|e] w']; cbn [fst snd Bot.bot Bot.trace].
      * split; [right; auto|eexists; split; [reflexivity|simpl; auto]].
      * split; [left; auto|eexists; split; [reflexivity|simpl; auto]].
  - destruct (kraken_getBalance (Bot.world m)) as [kb|e];
      try (split; [left; split; reflexivity
                  |exists []; rewrite app_nil_r; simpl; auto]).
    cbv zeta. cbn [Bot.bot Bot.world].
    destruct (kraken_getMinOrderSize (Bot.world m) (Scan.symbol opp))
      as [minOrder|e];
      try (split; [left; split; reflexivity
                  |exists []; rewrite app_nil_r; simpl; auto]).
    destruct (_ <? minOrder)%num.
    + split; [right; simpl; auto|exists []; rewrite app_nil_r; simpl; auto].
    + destruct (kraken_buy _ _ _) as [[[]|e] w']; cbn [fst snd Bot.bot Bot.trace].
      * split; [right; auto|eexists; split; [reflexivity|simpl; auto]].
      * split; [left; auto|eexists; split; [reflexivity|simpl; auto]].
Qed.

Lemma not_held (symbol : string) (l : list Position.t) :
  existsb (fun p => String.eqb (Position.symbol p) symbol) l = false ->
  ~ In symbol (map Position.symbol l).
Proof.
  intros E I. apply in_map_iff in I. destruct I as (p & P & I).
  assert (X : existsb (fun p => String.eqb (Position.symbol p) symbol) l = true).
  { apply existsb_exists. exists p. split; [exact I|].
    rewrite P. apply String.eqb_refl. }
  congruence.
Qed.

Lemma executeTrades_loop_outcome (opps : list Scan.Signal) :
  forall (l : list Position.t) (balance : num) m,
    let r := Bot.executeTrades_loop opps l balance m in
    exists added,
      fst r = Ret (l ++ added)
      /\ (List.length added <= List.length opps)%nat
      /\ Bot.tradesExecuted (Bot.stats (Bot.bot (snd r)))
         = (Bot.tradesExecuted (Bot.stats (Bot.bot m)) + List.length added)%nat
      /\ Bot.riskManager (Bot.bot (snd r)) = Bot.riskManager (Bot.bot m)
      /\ Forall (fun p => exists o, In o opps
                   /\ p = Position.tracking (Scan.symbol o) (Scan.exchange o))
                added
      /\ (forall before p after,
            added = before ++ p :: after ->
            Risk.canOpenPosition (Bot.riskManager (Bot.bot m)) (l ++ before)
              (Position.exchange p) = true
            /\ ~ In (Position.symbol p) (map Position.symbol (l ++ before)))
      /\ exists sent,
           Bot.trace (snd r) = Bot.trace m ++ sent
           /\ (List.length sent <= List.length opps)%nat
           /\ forallb is_buy sent = true.
Proof.
  induction opps as [|opp rest IH]; intros l balance m r; subst r.
  - exists []. cbn [Bot.executeTrades_loop Bot.ret fst snd List.length].
    rewrite app_nil_r, Nat.add_0_r.
    split; [reflexivity|]. split; [lia|]. split; [reflexivity|].
    split; [reflexivity|]. split; [constructor|]. split.
    + intros b p a E. now destruct b.
    + exists []. rewrite app_nil_r. auto.
  - cbn [Bot.executeTrades_loop]. unfold Bot.bind.
    destruct (executeTrade_outcome opp l balance m) as [O (s1 & T1 & L1 & B1)].
    destruct (Bot.executeTrade opp l balance m) as [r1 m1].
    cbn [fst snd] in O, T1.
    destruct O as [[R1 K1]|(R1 & K1 & C1 & E1)]; subst r1.
    + destruct (IH l balance m1)
        as (added & A1 & A2 & A3 & A4 & A5 & A6 & s2 & T2 & L2 & B2).
      exists added. rewrite K1 in *.
      split; [exact A1|]. split; [simpl; lia|]. split; [exact A3|].
      split; [exact A4|]. split.
      { eapply Forall_impl; [|exact A5]. intros p (o & I & P).
        exists o. split; [now right|exact P]. }
      split; [exact A6|].
      exists (s1 ++ s2). rewrite T2, T1, app_assoc.
      split; [reflexivity|]. split.
      * rewrite length_app. simpl. lia.
      * rewrite forallb_app, B1, B2. reflexivity.
    + set (p0 := Position.tracking (Scan.symbol opp) (Scan.exchange opp)) in *.
      destruct (IH (l ++ [p0]) balance m1)
        as (added & A1 & A2 & A3 & A4 & A5 & A6 & s2 & T2 & L2 & B2).
      exists (p0 :: added). rewrite K1 in *.
      split; [rewrite A1, <- app_assoc; reflexivity|].
      split; [simpl; lia|].
      split; [rewrite A3; simpl; lia|].
      split; [exact A4|]. split.
      { constructor.
        - exists opp. split; [now left|reflexivity].
        - eapply Forall_impl; [|exact A5]. intros p (o & I & P).
          exists o. split; [now right|exact P]. }
      split.
      { intros b p a E. destruct b as [|b0 b].
        - simpl in E. injection E as <- _. rewrite app_nil_r.
          split; [exact C1|]. apply not_held. exact E1.
        - simpl in E. injection E as <- E.
          destruct (A6 b p a E) as [X Y]. rewrite <- app_assoc in X, Y.
          split; [exact X|exact Y]. }
      exists (s1 ++ s2). rewrite T2, T1, app_assoc.
      split; [reflexivity|]. split.
      * rewrite length_app. simpl. lia.
      * rewrite forallb_app, B1, B2. reflexivity.
Qed.

End Trades.

Lemma count_app (e : Exchange) (l1 l2 : list Position.t) :
  List.length (filter (fun p => Exchange_eqb (Position.exchange p) e) (l1 ++ l2))
  = (List.length (filter (fun p => Exchange_eqb (Position.exchange p) e) l1)
     + List.length (filter (fun p => Exchange_eqb (Position.exchange p) e) l2))%nat.
Proof. now rewrite filter_app, length_app. Qed.

(** Positions accepted one after the other stay inside the three limits. *)
Lemma accepted_within_limits (this : Risk.RiskManager) (k ks kc : Z)
  (l : list Position.t) :
  Risk.maxPosicoes (Risk.config this) = int k ->
  Risk.maxPosicoesStocks (Risk.config this) = int ks ->
  Risk.maxPosicoesCrypto (Risk.config this) = int kc ->
  forall added,
    (forall before p after,
       added = before ++ p :: after ->
       Risk.canOpenPosition this (l ++ before) (Position.exchange p) = true) ->
    forall e,
      let held ps :=
        Z.of_nat
          (List.length
             (filter (fun p => Exchange_eqb (Position.exchange p) e) ps)) in
      ((Z.of_nat (List.length l) <= k)%Z ->
       (Z.of_nat (List.length (l ++ added)) <= k)%Z)
      /\ ((held l <= match e with Alpaca => ks | Kraken => kc end)%Z ->
          (held (l ++ added) <= match e with Alpaca => ks | Kraken => kc end)%Z).
Proof.
  intros K KS KC added. induction added as [|p added IH] using rev_ind;
    intros A e held.
  - rewrite app_nil_r. auto.
  - assert (A' : forall before p0 after,
               added = before ++ p0 :: after ->
               Risk.canOpenPosition this (l ++ before) (Position.exchange p0)
               = true).
    { intros b p0 a E. apply (A b p0 (a ++ [p])). rewrite E.
      rewrite <- app_assoc. reflexivity. }
    destruct (IH A' e) as [I1 I2]. fold held in I2.
    pose proof (A added p [] eq_refl) as C.
    apply (canOpenPosition_iff this k ks kc K KS KC) in C.
    destruct C as [C1 C2]. rewrite app_assoc. split.
    + intros _. rewrite length_app. simpl. lia.
    + intro G. specialize (I2 G). unfold held in *.
      rewrite count_app. cbn [filter].
      destruct (Exchange_eqb (Position.exchange p) e) eqn:X.
      * assert (Position.exchange p = e) by
          (destruct (Position.exchange p), e; simpl in X; congruence).
        subst e. simpl. lia.
      * simpl. lia.
Qed.

(** X25.  Trading on a list of candidates never throws.  It takes the first three
    candidates only, sends at most three orders, all buys, and extends the
    position list by the candidates it records, counting each as one executed
    trade.  Each recorded candidate was accepted by the risk manager against
    the list as it stood, with no position in its symbol; so a list inside
    the total and per-venue limits stays inside them. *)
Theorem executeTrades_stays_within_limits :
  forall (W : Type) (V : Venues W) (T : TechnicalIndicators)
         (opportunities : list Scan.Signal) (currentPositions : list Position.t)
         (balance : num) (m : Bot.Machine W),
    let r := Bot.executeTrades opportunities currentPositions balance m in
    let this := Bot.riskManager (Bot.bot m) in
    exists added,
      fst r = Ret (currentPositions ++ added)
      /\ (List.length added <= 3)%nat
      /\ Bot.tradesExecuted (Bot.stats (Bot.bot (snd r)))
         = (Bot.tradesExecuted (Bot.stats (Bot.bot m)) + List.length added)%nat
      /\ Forall (fun p => exists o, In o (firstn 3 opportunities)
                   /\ p = Position.tracking (Scan.symbol o) (Scan.exchange o))
                added
      /\ (forall before p after,
            added = before ++ p :: after ->
            Risk.canOpenPosition this (currentPositions ++ before)
              (Position.exchange p) = true
            /\ ~ In (Position.symbol p)
                    (map Position.symbol (currentPositions ++ before)))
      /\ (exists sent,
            Bot.trace (snd r) = Bot.trace m ++ sent
            /\ (List.length sent <= 3)%nat
            /\ forallb is_buy sent = true)
      /\ (forall (k ks kc : Z) (e : Exchange),
            Risk.maxPosicoes (Risk.config this) = int k ->
            Risk.maxPosicoesStocks (Risk.config this) = int ks ->
            Risk.maxPosicoesCrypto (Risk.config this) = int kc ->
            let held ps :=
              Z.of_nat
                (List.length
                   (filter (fun p => Exchange_eqb (Position.exchange p) e) ps)) in
            ((Z.of_nat (List.length currentPositions) <= k)%Z ->
             (Z.of_nat (List.length (currentPositions ++ added)) <= k)%Z)
            /\ ((held currentPositions
                 <= match e with Alpaca => ks | Kraken => kc end)%Z ->
                (held (currentPositions ++ added)
                 <= match e with Alpaca => ks | Kraken => kc end)%Z)).
Proof.
  intros W V T opps l balance m r this. subst r. unfold Bot.executeTrades.
  destruct (executeTrades_loop_outcome (firstn 3 opps) l balance m)
    as (added & A1 & A2 & A3 & A4 & A5 & A6 & sent & S1 & S2 & S3).
  assert (F : (List.length (firstn 3 opps) <= 3)%nat)
    by (rewrite length_firstn; lia).
  exists added.
  split; [exact A1|]. split; [lia|]. split; [exact A3|]. split; [exact A5|].
  split; [exact A6|]. split; [exists sent; repeat split; auto; lia|].
  intros k ks kc e K KS KC.
  apply (accepted_within_limits this k ks kc l K KS KC added).
  intros b p a E. apply (A6 b p a E).
Qed.

(** ** Failures of the venues *)

(** X26.  An order the venue rejects is not recorded: when the buy throws, the turn
    of the trade loop still returns, the position list and the counters are
    as before, and the failure is not counted as an error.  (A candidate whose
    crypto order is declined for its size is recorded; a rejected one is
    not.) *)
Theorem rejected_order_is_not_recorded :
  forall (W : Type) (V : Venues W) (T : TechnicalIndicators)
         (opp : Scan.Signal) (currentPositions : list Position.t)
         (balance : num) (m : Bot.Machine W) (e : string),
    let this := Bot.riskManager (Bot.bot m) in
    Risk.canOpenPosition this currentPositions (Scan.exchange opp) = true ->
    existsb (fun p => String.eqb (Position.symbol p) (Scan.symbol opp))
            currentPositions = false ->
    match Scan.exchange opp with
    | Alpaca =>
        alpaca_isMarketOpen (Bot.world m) = Ret true
        /\ exists alpacaBalance,
             alpaca_getBalance (Bot.world m) = Ret alpacaBalance
             /\ fst (alpaca_buy (Scan.symbol opp)
                       (Risk.calculatePositionSize this (cash alpacaBalance)
                          (Scan.currentPrice opp)) (Bot.world m)) = Throw e
    | Kraken =>
        exists krakenBalance minOrder,
          kraken_getBalance (Bot.world m) = Ret krakenBalance
          /\ kraken_getMinOrderSize (Bot.world m) (Scan.symbol opp)
             = Ret minOrder
          /\ (Risk.calculateCryptoPositionSize this (total krakenBalance)
                (Scan.currentPrice opp) <? minOrder)%num = false
          /\ fst (kraken_buy (Scan.symbol opp)
                    (Risk.calculateCryptoPositionSize this (total krakenBalance)
                       (Scan.currentPrice opp)) (Bot.world m)) = Throw e
    end ->
    let r := Bot.executeTrade opp currentPositions balance m in
    fst r = Ret currentPositions
    /\ Bot.bot (snd r) = Bot.bot m
    /\ exists buy, Bot.trace (snd r) = Bot.trace m ++ [buy]
                   /\ is_buy buy = true.
Proof.
  intros W V T opp l balance m e this C E X r. subst r.
  unfold Bot.executeTrade. rewrite bind_this. fold this. rewrite C, E.
  cbn [negb]. unfold Bot.try_catch.
  destruct (Scan.exchange opp).
  - destruct X as (MO & ab & BA & B).
    rewrite (bind_query _ _ m _ MO). cbn [negb].
    unfold Bot.executeBuyStock.
    rewrite bind_bind, (bind_query _ _ m _ BA), bind_bind, bind_this.
    fold this. cbv zeta.
    rewrite calculatePositionSize_at_least_one.
    unfold Bot.bind, Bot.order.
    destruct (alpaca_buy _ _ (Bot.world m)) as [r w']. simpl in B. subst r.
    simpl. repeat split; eauto.
  - destruct X as (kb & mn & BK & MN & Q & B).
    unfold Bot.executeBuyCrypto.
    rewrite bind_bind, (bind_query _ _ m _ BK), bind_bind, bind_this,
      bind_bind, (bind_query _ _ m _ MN). fold this. cbv zeta. rewrite Q.
    unfold Bot.bind, Bot.order.
    destruct (kraken_buy _ _ (Bot.world m)) as [r w']. simpl in B. subst r.
    simpl. repeat split; eauto.
Qed.

Lemma rejected_order_is_not_recorded_witness :
  fst (@Bot.executeTrade Outage.World Outage.venues Demo.candidate []
         (int 5000)
         (Outage.machine Demo.running_bot (Outage.rejecting Demo.world)))
  = Ret [].
Proof.
  refine (proj1
    (rejected_order_is_not_recorded Outage.World Outage.venues
       described_indicators Demo.candidate [] (int 5000)
       (Outage.machine Demo.running_bot (Outage.rejecting Demo.world))
       "order rejected" eq_refl eq_refl _)).
  exists (Demo.kraken_account Demo.world), (int 2).
  repeat split; reflexivity.
Defined.

(** X27.  When the circuit breaker trips and the liquidation fails at the first
    venue, the bot is not stopped: the cycle returns with the bot still
    running and its interval still set, one error counted, and no close order
    sent to the second venue. *)
Theorem failed_liquidation_leaves_the_bot_running :
  forall (W : Type) (V : Venues W) (T : TechnicalIndicators)
         (m : Bot.Machine W) (marketOpen : bool)
         (alpacaBalance : AlpacaBalance) (krakenBalance : KrakenBalance)
         (alpacaPositions krakenPositions : list Position.t) (e : string),
    Bot.status (Bot.bot m) = Bot.running ->
    alpaca_isMarketOpen (Bot.world m) = Ret marketOpen ->
    alpaca_getBalance (Bot.world m) = Ret alpacaBalance ->
    kraken_getBalance (Bot.world m) = Ret krakenBalance ->
    alpaca_getPositions (Bot.world m) = Ret alpacaPositions ->
    kraken_getPositions (Bot.world m) = Ret krakenPositions ->
    let balance := (portfolioValue alpacaBalance + total krakenBalance)%num in
    let seen := Risk.updateDailyPnL (Bot.riskManager (Bot.bot m)) balance in
    Risk.shouldStopTrading seen = false ->
    Risk.checkCircuitBreaker seen balance = true ->
    fst (alpaca_closeAllPositions (Bot.world m)) = Throw e ->
    let m' := snd (Bot.runScanCycle m) in
    fst (Bot.runScanCycle m) = Ret tt
    /\ Bot.status (Bot.bot m') = Bot.running
    /\ Bot.scanInterval (Bot.bot m') = Bot.scanInterval (Bot.bot m)
    /\ Bot.timers m' = Bot.timers m
    /\ Bot.errors (Bot.stats (Bot.bot m')) = S (Bot.errors (Bot.stats (Bot.bot m)))
    /\ Bot.trace m' = Bot.trace m ++ [AlpacaCloseAllPositions].
Proof.
  intros W V T m mo ab kb ap kp e R MO BA BK PA PK balance seen S C L m'.
  assert (E : Bot.runScanCycle m
              = (Ret tt,
                 {| Bot.bot :=
                      Bot.count_error (Bot.set_riskManager seen (Bot.bot m));
                    Bot.world := snd (alpaca_closeAllPositions (Bot.world m));
                    Bot.trace := Bot.trace m ++ [AlpacaCloseAllPositions];
                    Bot.timers := Bot.timers m;
                    Bot.next_timer := Bot.next_timer m |})).
  { unfold Bot.runScanCycle. rewrite bind_this, R.
    cbn [Bot.Status_eqb negb]. unfold Bot.try_catch.
    rewrite (cycle_reaches_checks m mo ab kb ap kp MO BA BK PA PK).
    unfold Bot.check_and_trade. rewrite bind_this.
    cbn [Bot.update snd Bot.bot Bot.set_riskManager Bot.riskManager].
    fold balance. fold seen. rewrite S, C.
    unfold Bot.closeAllPositions. rewrite !bind_bind.
    unfold Bot.bind at 1. unfold Bot.order at 1. cbn [Bot.world].
    destruct (alpaca_closeAllPositions (Bot.world m)) as [r w']. simpl in L.
    subst r. reflexivity. }
  subst m'. rewrite E. simpl. rewrite R. repeat split; reflexivity.
Qed.

Lemma failed_liquidation_leaves_the_bot_running_witness :
  Bot.status
    (Bot.bot
       (snd (@Bot.runScanCycle Outage.World Outage.venues described_indicators
               (Outage.machine Demo.wide_bot
                  (Outage.rejecting Demo.world_after_loss)))))
  = Bot.running.
Proof.
  exact (proj1 (proj2
    (failed_liquidation_leaves_the_bot_running Outage.World Outage.venues
       described_indicators
       (Outage.machine Demo.wide_bot (Outage.rejecting Demo.world_after_loss))
       true (Demo.alpaca_account Demo.world_after_loss)
       (Demo.kraken_account Demo.world_after_loss) [] [] "order rejected"
       eq_refl eq_refl eq_refl eq_refl eq_refl eq_refl eq_refl eq_refl
       eq_refl))).
Defined.

(** X28.  When a balance cannot be read, the cycle ends there: it returns normally
    with one error counted and nothing else changed, so no order is sent, the
    day's profit and loss is not updated and the bot stays running. *)
Theorem unreadable_balance_costs_one_error :
  forall (W : Type) (V : Venues W) (T : TechnicalIndicators)
         (m : Bot.Machine W) (marketOpen : bool) (e : string),
    Bot.status (Bot.bot m) = Bot.running ->
    alpaca_isMarketOpen (Bot.world m) = Ret marketOpen ->
    fst (Bot.getTotalBalance m) = Throw e ->
    Bot.runScanCycle m
    = (Ret tt,
       {| Bot.bot := Bot.count_error (Bot.bot m); Bot.world := Bot.world m;
          Bot.trace := Bot.trace m; Bot.timers := Bot.timers m;
          Bot.next_timer := Bot.next_timer m |}).
Proof.
  intros W V T m mo e R MO B.
  unfold Bot.runScanCycle. rewrite bind_this, R.
  cbn [Bot.Status_eqb negb]. unfold Bot.try_catch, Bot.runScanCycle_try.
  rewrite (bind_query _ _ m _ MO).
  unfold Bot.bind at 1. revert B. unfold Bot.getTotalBalance.
  unfold Bot.bind, Bot.query, Bot.ret.
  destruct (alpaca_getBalance (Bot.world m)); simpl.
  - destruct (kraken_getBalance (Bot.world m)); simpl; [discriminate|].
    reflexivity.
  - reflexivity.
Qed.

Lemma unreadable_balance_costs_one_error_witness :
  Bot.errors
    (Bot.stats
       (Bot.bot
          (snd (@Bot.runScanCycle Outage.World Outage.venues
                  described_indicators
                  (Outage.machine Demo.running_bot
                     (Outage.blind Demo.world))))))
  = 1%nat.
Proof.
  rewrite (unreadable_balance_costs_one_error Outage.World Outage.venues
             described_indicators
             (Outage.machine Demo.running_bot (Outage.blind Demo.world))
             true "service unavailable" eq_refl eq_refl eq_refl).
  reflexivity.
Defined.

(** ** The Kraken service *)

Section Kraken.

Context {X : Type} `{KrakenService.Ccxt X}.

Lemma getCurrentPrice_returns (x : X) (symbol : string) :
  exists p, KrakenService.getCurrentPrice x symbol = Ret p
            /\ (forall e, KrakenService.fetchTicker x symbol = Throw e ->
                          p = KrakenService.null).
Proof.
  unfold KrakenService.getCurrentPrice.
  destruct (KrakenService.fetchTicker x symbol) as [t|e].
  - eexists. split; [reflexivity|]. discriminate.
  - eexists. split; [reflexivity|]. reflexivity.
Qed.

Lemma position_of_value (x : X) (currency : string) (amount : num) :
  exists p,
    KrakenService.getCurrentPrice x (currency ++ "/EUR")%string = Ret p
    /\ KrakenService.position_of x currency amount
       = {| Position.symbol := (currency ++ "/EUR")%string;
            Position.exchange := Kraken;
            Position.quantity := Some amount;
            Position.entryPrice := None;
            Position.currentPrice := KrakenService.as_field p;
            Position.marketValue :=
              Some (KrakenService.to_number p * amount)%num;
            Position.profitLoss := Some (int 0);
            Position.profitLossPercent := Some (int 0) |}.
Proof.
  destruct (getCurrentPrice_returns x (currency ++ "/EUR")%string)
    as (p & E & _).
  exists p. split; [exact E|].
  unfold KrakenService.position_of. cbv zeta. rewrite E. reflexivity.
Qed.

Lemma flat_position_is_kept (this : Risk.RiskManager) (s t : Q)
  (p : Position.t) :
  Risk.stopLossPercent (Risk.config this) = Fin s ->
  Risk.takeProfitPercent (Risk.config this) = Fin t ->
  0 < s -> 0 < t ->
  Position.profitLossPercent p = Some (int 0) ->
  Risk.shouldClosePosition this p = false.
Proof.
  intros S Tk Ps Pt Z. unfold Risk.shouldClosePosition. rewrite Z, S, Tk.
  unfold nneg, of_Q. change (int 0) with (Fin 0).
  destruct (Fin 0 <=? Fin (Qred (- s)))%num eqn:A.
  { apply nle_fin in A. rewrite Qred_correct in A. lra. }
  destruct (Fin 0 >=? Fin t)%num eqn:B; [|reflexivity].
  apply nge_fin in B. lra.
Qed.

Lemma checkPositions_nothing_due {W : Type} `{Venues W} `{TechnicalIndicators}
  (positions : list Position.t) (m : Bot.Machine W) :
  Forall (fun p => Risk.shouldClosePosition (Bot.riskManager (Bot.bot m)) p
                   = false) positions ->
  Bot.checkPositions positions m = (Ret tt, m).
Proof.
  induction 1 as [|p l P _ IH]; [reflexivity|].
  cbn [Bot.checkPositions]. rewrite bind_this, P.
  unfold Bot.bind at 1. unfold Bot.ret at 1. exact IH.
Qed.

End Kraken.

(** X29.  The stop-loss and the take-profit never fire on a crypto position: the
    Kraken service reports every holding with a profit and loss of 0, so with
    a positive stop-loss and a positive take-profit the risk manager keeps
    every position it reports, and the position check sends no order for
    them. *)
Theorem kraken_positions_are_never_due :
  forall (X : Type) (C : KrakenService.Ccxt X) (x : X)
         (this : Risk.RiskManager) (s t : Q),
    Risk.stopLossPercent (Risk.config this) = Fin s ->
    Risk.takeProfitPercent (Risk.config this) = Fin t ->
    0 < s -> 0 < t ->
    exists positions,
      KrakenService.getPositions x = Ret positions
      /\ Forall (fun p => Position.exchange p = Kraken
                          /\ Position.profitLoss p = Some (int 0)
                          /\ Position.profitLossPercent p = Some (int 0)
                          /\ Risk.shouldClosePosition this p = false)
                positions
      /\ forall (W : Type) (V : Venues W) (T : TechnicalIndicators)
                (m : Bot.Machine W),
           Bot.riskManager (Bot.bot m) = this ->
           Bot.checkPositions positions m = (Ret tt, m).
Proof.
  intros X C x this s t S Tk Ps Pt.
  assert (F : forall entries,
             Forall (fun p => Position.exchange p = Kraken
                              /\ Position.profitLoss p = Some (int 0)
                              /\ Position.profitLossPercent p = Some (int 0)
                              /\ Risk.shouldClosePosition this p = false)
                    (map (fun entry =>
                            KrakenService.position_of x (fst entry) (snd entry))
                         entries)).
  { induction entries as [|[c a] l IH]; [constructor|].
    cbn [map fst snd]. constructor; [|exact IH].
    destruct (position_of_value x c a) as (p & _ & E). rewrite E.
    cbn [Position.exchange Position.profitLoss Position.profitLossPercent].
    repeat split. apply (flat_position_is_kept this s t); auto. }
  unfold KrakenService.getPositions.
  destruct (KrakenService.fetchBalance x) as [balance|e].
  - eexists. split; [reflexivity|]. split; [apply F|].
    intros W V T m R. apply checkPositions_nothing_due. rewrite R.
    eapply Forall_impl; [|apply F]. intros p (_ & _ & _ & K). exact K.
  - exists []. split; [reflexivity|]. split; [constructor|].
    intros W V T m R. reflexivity.
Qed.

Lemma kraken_positions_are_never_due_witness :
  exists positions,
    @KrakenService.getPositions Outage.Book Outage.exchange Outage.book
    = Ret positions
    /\ Forall (fun p => Position.exchange p = Kraken
                        /\ Position.profitLoss p = Some (int 0)
                        /\ Position.profitLossPercent p = Some (int 0)
                        /\ Risk.shouldClosePosition Demo.riskManager p = false)
              positions.
Proof.
  destruct (kraken_positions_are_never_due Outage.Book Outage.exchange
              Outage.book Demo.riskManager 2 4 eq_refl eq_refl
              ltac:(reflexivity) ltac:(reflexivity))
    as (positions & A & B & _).
  exists positions. split; [exact A|exact B].
Defined.

(** X30.  The reads of the Kraken service swallow every failure of the exchange:
    the price, the positions, the connection test, the symbol choice and
    the minimum order size return whatever the exchange does.  The minimum
    order size is never zero or not-a-number; a chosen symbol is one of
    the two given and is listed; and since the price read never throws, a
    position's value is always computed from the euro pair, and is zero times
    the amount when that pair has no ticker.  Only the balance passes the
    failure on. *)
Theorem kraken_reads_swallow_failures :
  forall (X : Type) (C : KrakenService.Ccxt X) (x : X),
    (exists ok, KrakenService.testConnection x = Ret ok)
    /\ (forall symbol, exists p,
          KrakenService.getCurrentPrice x symbol = Ret p
          /\ (forall e, KrakenService.fetchTicker x symbol = Throw e ->
                        p = KrakenService.null))
    /\ (exists positions, KrakenService.getPositions x = Ret positions)
    /\ (forall symbol, exists q,
          KrakenService.getMinOrderSize x symbol = Ret q /\ truthy q = true)
    /\ (forall primary fallback, exists chosen,
          KrakenService.getAvailableSymbol x primary fallback = Ret chosen
          /\ forall s, chosen = Some s ->
                (s = primary \/ fallback = Some s)
                /\ exists x', KrakenService.loadMarkets x = Ret x'
                              /\ KrakenService.markets x' s <> None)
    /\ (forall currency amount, exists p,
          KrakenService.getCurrentPrice x (currency ++ "/EUR")%string = Ret p
          /\ Position.marketValue
               (KrakenService.position_of x currency amount)
             = Some (KrakenService.to_number p * amount)%num)
    /\ (forall e, KrakenService.fetchBalance x = Throw e ->
                  KrakenService.getBalance x = Throw e).
Proof.
  intros X C x. split; [|split; [|split; [|split; [|split; [|split]]]]].
  - unfold KrakenService.testConnection.
    destruct (KrakenService.fetchBalance x); eauto.
  - intro symbol. apply getCurrentPrice_returns.
  - unfold KrakenService.getPositions.
    destruct (KrakenService.fetchBalance x); eauto.
  - intro symbol. unfold KrakenService.getMinOrderSize.
    destruct (KrakenService.loadMarkets x) as [x'|e];
      [|eexists; split; reflexivity].
    destruct (KrakenService.market x' symbol) as [mk|e];
      [|eexists; split; reflexivity].
    destruct (KrakenService.limits_amount_min mk) as [q|];
      [|eexists; split; reflexivity].
    eexists. split; [reflexivity|]. unfold or_default.
    destruct (truthy q) eqn:E; [exact E|reflexivity].
  - intros primary fallback. unfold KrakenService.getAvailableSymbol.
    destruct (KrakenService.loadMarkets x) as [x'|e];
      [|eexists; split; [reflexivity|discriminate]].
    destruct (KrakenService.markets x' primary) eqn:P.
    + eexists. split; [reflexivity|]. intros s E. injection E as <-.
      split; [now left|]. exists x'. split; [reflexivity|congruence].
    + destruct fallback as [f|];
        [|eexists; split; [reflexivity|discriminate]].
      destruct (negb (String.eqb f ""));
        [|eexists; split; [reflexivity|discriminate]].
      destruct (KrakenService.markets x' f) eqn:F;
        [|eexists; split; [reflexivity|discriminate]].
      eexists. split; [reflexivity|]. intros s E. injection E as <-.
      split; [now right|]. exists x'. split; [reflexivity|congruence].
  - intros c a. destruct (position_of_value x c a) as (p & E & V).
    exists p. split; [exact E|]. rewrite V. reflexivity.
  - intros e E. unfold KrakenService.getBalance. rewrite E. reflexivity.
Qed.
